(** * Gantt chart client: progress updates, task creation, CSV import,
      four-week window, S-curve coordinates and timeline header widths.

    Part I embeds the TypeScript sources; Part II states and proves the
    properties; Part III proves further properties of the same sources.

    Conventions of the embedding.
    - A JavaScript string is a [string]: a sequence of code units, here
      restricted to the range 0..255.  Comparison with [<] is the
      lexicographic order on code units, as in ECMAScript.
    - An optional string field ([undefined] or a string) is an
      [option string]; it is truthy when it holds a non-empty string.
    - A [Date] is its time value in milliseconds since the epoch, or NaN
      ([None]).  The local time zone is taken to be UTC, without daylight
      saving.  Calendar arithmetic follows the ECMAScript definitions
      (Day, DayFromYear, YearFromTime, MonthFromTime, DateFromTime, MakeDay,
      MakeDate, TimeClip).
    - Numbers that the code only compares, adds or multiplies as integers
      (progress, durations, orders, the header's cell width) are [Z]; the
      S-curve coordinate, which divides, is computed over [Q], without
      rounding.
    - One handler call reads the clock once. *)

From Stdlib Require Import ZArith Lia Bool List Ascii QArith Lqa.
From stdpp Require Import base option list strings gmap.

Local Open Scope Z_scope.

(* ===================================================================== *)
(** * Part I.  The model                                                  *)
(* ===================================================================== *)

(* --------------------------------------------------------------------- *)
(** ** JavaScript strings                                                  *)
(* --------------------------------------------------------------------- *)

Module Js.

(** Code unit of a character. *)
Definition code (c : ascii) : Z := Z.of_N (N_of_ascii c).

(** [!s] on an optional string is [negb (truthy s)]. *)
Definition truthy (o : option string) : bool :=
  match o with
  | Some s => negb (String.eqb s "")
  | None => false
  end.

(** [a || b] on optional strings. *)
Definition or_else (a b : option string) : option string :=
  if truthy a then a else b.

(** [String(a || '')]-style read with a default: the string of a truthy
    value, otherwise the default. *)
Definition or_default (a : option string) (d : string) : string :=
  match a with
  | Some s => if String.eqb s "" then d else s
  | None => d
  end.

(** [s1 < s2] on strings: lexicographic on code units. *)
Fixpoint ltb (s1 s2 : string) : bool :=
  match s1, s2 with
  | EmptyString, EmptyString => false
  | EmptyString, String _ _ => true
  | String _ _, EmptyString => false
  | String c1 r1, String c2 r2 =>
      if code c1 <? code c2 then true
      else if code c2 <? code c1 then false
      else ltb r1 r2
  end.

(** [s1 > s2] is [s2 < s1]. *)
Definition gtb (s1 s2 : string) : bool := ltb s2 s1.

(** White space removed by [String.prototype.trim], within 0..255. *)
Definition is_space (c : ascii) : bool :=
  let n := code c in
  ((9 <=? n) && (n <=? 13)) || (n =? 32) || (n =? 160).

Fixpoint trim_start (s : string) : string :=
  match s with
  | String c r => if is_space c then trim_start r else s
  | EmptyString => EmptyString
  end.

(** Removes trailing white space: a character is kept when something
    non-blank follows it or it is itself not white space. *)
Fixpoint trim_end (s : string) : string :=
  match s with
  | EmptyString => EmptyString
  | String c r =>
      match trim_end r with
      | EmptyString => if is_space c then EmptyString else String c EmptyString
      | r' => String c r'
      end
  end.

Definition trim (s : string) : string := trim_end (trim_start s).

(** [\d] of a regular expression. *)
Definition is_digit (c : ascii) : bool :=
  let n := code c in (48 <=? n) && (n <=? 57).

Definition digit_val (c : ascii) : Z := code c - 48.

Definition digit_char (n : Z) : ascii := ascii_of_N (Z.to_N (48 + n)).

(** Value of a run of decimal digits, most significant first. *)
Definition digits_val (l : list ascii) : Z :=
  fold_left (fun acc c => 10 * acc + digit_val c) l 0.

(** Longest prefix of digits, and what follows it. *)
Fixpoint span_digits (s : string) : list ascii * string :=
  match s with
  | String c r =>
      if is_digit c then let '(ds, rest) := span_digits r in (c :: ds, rest)
      else ([], s)
  | EmptyString => ([], EmptyString)
  end.

(** [parseInt(s, 10)]: leading white space, an optional sign, then the
    longest run of digits; [None] is NaN. *)
Definition parseInt (s : string) : option Z :=
  let s := trim_start s in
  let '(neg, body) :=
    match s with
    | String c r =>
        if Ascii.eqb c "-" then (true, r)
        else if Ascii.eqb c "+" then (false, r)
        else (false, s)
    | EmptyString => (false, s)
    end in
  match fst (span_digits body) with
  | [] => None
  | ds => Some (if neg then - digits_val ds else digits_val ds)
  end.

(** [parseInt(s, 10) || d]: NaN and 0 are falsy. *)
Definition parseInt_or (s : string) (d : Z) : Z :=
  match parseInt s with
  | Some n => if n =? 0 then d else n
  | None => d
  end.

(** Decimal digits of a non-negative integer, least significant first;
    the recursion is bounded by the binary length of the number. *)
Fixpoint dec_rev (fuel : nat) (n : Z) : list ascii :=
  match fuel with
  | O => []
  | S f =>
      digit_char (n mod 10) :: (if n <? 10 then [] else dec_rev f (n / 10))
  end.

(** [n.toString()] for an integer [n >= 0]. *)
Definition to_decimal (n : Z) : string :=
  String.string_of_list_ascii (rev (dec_rev (S (Z.to_nat (Z.log2 n))) n)).

(** [s.padStart(k, '0')]. *)
Definition pad_start (k : nat) (s : string) : string :=
  String.string_of_list_ascii (repeat "0"%char (k - String.length s)) +:+ s.

(** [s.toLowerCase()] on the code units 0..255: the letters A..Z and
    the Latin-1 capitals 192..222, the multiplication sign 215 apart, are
    moved 32 up; every other code unit is kept. *)
Definition lower_char (c : ascii) : ascii :=
  let n := code c in
  if ((65 <=? n) && (n <=? 90))
     || ((192 <=? n) && (n <=? 222) && negb (n =? 215))
  then ascii_of_N (Z.to_N (n + 32)) else c.

Fixpoint toLowerCase (s : string) : string :=
  match s with
  | String c r => String (lower_char c) (toLowerCase r)
  | EmptyString => EmptyString
  end.

End Js.

(* --------------------------------------------------------------------- *)
(** ** Dates: ECMAScript time values and the date-fns functions used      *)
(* --------------------------------------------------------------------- *)

Module JsDate.

(** A [Date] object: its time value, or NaN. *)
Definition t : Type := option Z.

Definition msPerDay : Z := 86400000.
Definition maxTime : Z := 8640000000000000.

Definition TimeClip (v : Z) : t :=
  if (- maxTime <=? v) && (v <=? maxTime) then Some v else None.

Definition Day (tv : Z) : Z := tv / msPerDay.
Definition TimeWithinDay (tv : Z) : Z := tv mod msPerDay.

Definition isLeapYear (y : Z) : bool :=
  (y mod 400 =? 0) || ((y mod 4 =? 0) && negb (y mod 100 =? 0)).

Definition leapDays (y : Z) : Z := if isLeapYear y then 1 else 0.

Definition DaysInYear (y : Z) : Z := 365 + leapDays y.

Definition DayFromYear (y : Z) : Z :=
  365 * (y - 1970) + (y - 1969) / 4 - (y - 1901) / 100 + (y - 1601) / 400.

(** The year of a day number: the largest [y] with [DayFromYear y <= d].
    A first estimate from the mean year length is off by at most one. *)
Definition YearFromDay (d : Z) : Z :=
  let y0 := 1970 + (400 * d) / 146097 in
  if DayFromYear (y0 + 1) <=? d then y0 + 1
  else if DayFromYear y0 <=? d then y0
  else y0 - 1.

Definition DayWithinYear (d : Z) : Z := d - DayFromYear (YearFromDay d).

(** First day within the year of month [m] (0 = January); [L] is 1 in a
    leap year. *)
Definition monthStart (m L : Z) : Z :=
  match m with
  | 0 => 0 | 1 => 31 | 2 => 59 + L | 3 => 90 + L | 4 => 120 + L
  | 5 => 151 + L | 6 => 181 + L | 7 => 212 + L | 8 => 243 + L
  | 9 => 273 + L | 10 => 304 + L | _ => 334 + L
  end.

Definition daysInMonth (m L : Z) : Z :=
  match m with
  | 1 => 28 + L
  | 3 | 5 | 8 | 10 => 30
  | _ => 31
  end.

Definition monthOfDayWithinYear (dwy L : Z) : Z :=
  if dwy <? 31 then 0
  else if dwy <? 59 + L then 1
  else if dwy <? 90 + L then 2
  else if dwy <? 120 + L then 3
  else if dwy <? 151 + L then 4
  else if dwy <? 181 + L then 5
  else if dwy <? 212 + L then 6
  else if dwy <? 243 + L then 7
  else if dwy <? 273 + L then 8
  else if dwy <? 304 + L then 9
  else if dwy <? 334 + L then 10
  else 11.

Definition MonthFromDay (d : Z) : Z :=
  monthOfDayWithinYear (DayWithinYear d) (leapDays (YearFromDay d)).

Definition DateFromDay (d : Z) : Z :=
  DayWithinYear d - monthStart (MonthFromDay d) (leapDays (YearFromDay d)) + 1.

Definition WeekDay (d : Z) : Z := (d + 4) mod 7.

(** [MakeDay(year, month, date)] for integer arguments. *)
Definition MakeDay (year month date : Z) : Z :=
  let ym := year + month / 12 in
  let mn := month mod 12 in
  DayFromYear ym + monthStart mn (leapDays ym) + date - 1.

Definition MakeDate (day time : Z) : Z := day * msPerDay + time.

(** Getters of a valid date. *)
Definition getFullYear (tv : Z) : Z := YearFromDay (Day tv).
Definition getMonth (tv : Z) : Z := MonthFromDay (Day tv).
Definition getDate (tv : Z) : Z := DateFromDay (Day tv).
Definition getDay (tv : Z) : Z := WeekDay (Day tv).

(** [d.setDate(n)]. *)
Definition setDate (tv n : Z) : t :=
  TimeClip (MakeDate (MakeDay (getFullYear tv) (getMonth tv) n) (TimeWithinDay tv)).

(** [d.setHours(h, m, s, ms)]. *)
Definition setHours (tv h m s ms : Z) : t :=
  TimeClip (MakeDate (Day tv) (((h * 60 + m) * 60 + s) * 1000 + ms)).

(** *** date-fns *)

(** [addDays(date, amount)]: an invalid date stays invalid, a zero amount
    returns the date, otherwise [setDate(getDate() + amount)]. *)
Definition addDays (d : t) (amount : Z) : t :=
  match d with
  | None => None
  | Some tv => if amount =? 0 then Some tv else setDate tv (getDate tv + amount)
  end.

Definition addWeeks (d : t) (amount : Z) : t := addDays d (amount * 7).
Definition subWeeks (d : t) (amount : Z) : t := addWeeks d (- amount).

(** [startOfWeek(date, { weekStartsOn })]. *)
Definition startOfWeek (d : t) (weekStartsOn : Z) : t :=
  match d with
  | None => None
  | Some tv =>
      let day := getDay tv in
      let diff := (if day <? weekStartsOn then 7 else 0) + day - weekStartsOn in
      match setDate tv (getDate tv - diff) with
      | Some tv' => setHours tv' 0 0 0 0
      | None => None
      end
  end.

(** [endOfWeek(date, { weekStartsOn })]. *)
Definition endOfWeek (d : t) (weekStartsOn : Z) : t :=
  match d with
  | None => None
  | Some tv =>
      let day := getDay tv in
      let diff := (if day <? weekStartsOn then -7 else 0) + 6 - (day - weekStartsOn) in
      match setDate tv (getDate tv + diff) with
      | Some tv' => setHours tv' 23 59 59 999
      | None => None
      end
  end.

(** [addLeadingZeros(number, targetLength)]. *)
Definition addLeadingZeros (n : Z) (len : nat) : string :=
  (if n <? 0 then "-" else "") +:+ Js.pad_start len (Js.to_decimal (Z.abs n)).

(** [format(date, 'yyyy-MM-dd')]: throws a RangeError on an invalid date
    ([None]); the token [yyyy] prints the year of the era, which for a
    year [y <= 0] is [1 - y]. *)
Definition format_ymd (d : t) : option string :=
  match d with
  | None => None
  | Some tv =>
      let y := getFullYear tv in
      let eraYear := if 0 <? y then y else 1 - y in
      Some (addLeadingZeros eraYear 4 +:+ "-" +:+
            addLeadingZeros (getMonth tv + 1) 2 +:+ "-" +:+
            addLeadingZeros (getDate tv) 2)
  end.

(** The shape [^\d{4}-\d{2}-\d{2}$]: year, month and day digits. *)
Definition match_ymd (s : string) : option (list ascii * list ascii * list ascii) :=
  match String.list_ascii_of_string s with
  | [y1; y2; y3; y4; s1; m1; m2; s2; d1; d2] =>
      if forallb Js.is_digit [y1; y2; y3; y4; m1; m2; d1; d2]
         && Ascii.eqb s1 "-" && Ascii.eqb s2 "-"
      then Some ([y1; y2; y3; y4], [m1; m2], [d1; d2])
      else None
  | _ => None
  end.

(** [validateDate(year, month, date)] of parseISO. *)
Definition validateDate (year month date : Z) : bool :=
  (0 <=? month) && (month <=? 11) && (1 <=? date)
  && (date <=? daysInMonth month (leapDays year)).

(** [parseISO(s)].  On a complete calendar date [YYYY-MM-DD] the result
    is local midnight of that date, or an invalid date when month or day
    are out of range.  date-fns reads further ISO 8601 forms (basic
    format, week and ordinal dates, times, zones); what it returns on
    those is the parameter [other]. *)
Definition parseISO (other : string -> t) (s : string) : t :=
  match match_ymd s with
  | Some (y, m, d) =>
      let year := Js.digits_val y in
      let month := Js.digits_val m - 1 in
      let date := Js.digits_val d in
      if validateDate year month date
      then TimeClip (MakeDate (MakeDay year month date) 0)
      else None
  | None => other s
  end.

Definition sign (a : Z) : Z := if a <? 0 then -1 else if 0 <? a then 1 else 0.

(** [compareLocalAsc]: sign of the difference of the local date-times. *)
Definition compareLocalAsc (a b : Z) : Z := sign (a - b).

(** [differenceInCalendarDays]: difference of the local day numbers. *)
Definition differenceInCalendarDays (a b : Z) : Z := Day a - Day b.

(** [differenceInDays(dateLeft, dateRight)]: full days between the two,
    truncated toward zero; NaN when a date is invalid. *)
Definition differenceInDays (dl dr : t) : option Z :=
  match dl, dr with
  | Some a, Some b =>
      let sg := compareLocalAsc a b in
      let difference := Z.abs (differenceInCalendarDays a b) in
      let isLastDayNotFull :=
        match setDate a (getDate a - sg * difference) with
        | Some a' => if compareLocalAsc a' b =? - sg then 1 else 0
        | None => 0   (* a comparison with NaN is false *)
        end in
      Some (sg * (difference - isLastDayNotFull))
  | _, _ => None
  end.

(** Date part of [toISOString()]: four digits for the years 0..9999,
    a sign and six digits otherwise. *)
Definition toISODate (tv : Z) : string :=
  let y := getFullYear tv in
  (if (0 <=? y) && (y <=? 9999) then Js.pad_start 4 (Js.to_decimal y)
   else (if y <? 0 then "-" else "+") +:+ Js.pad_start 6 (Js.to_decimal (Z.abs y)))
  +:+ "-" +:+ addLeadingZeros (getMonth tv + 1) 2
  +:+ "-" +:+ addLeadingZeros (getDate tv) 2.

End JsDate.

(* --------------------------------------------------------------------- *)
(** ** Data model (types/construction, as the client uses it)            *)
(* --------------------------------------------------------------------- *)

(** [Task['status']]: 'not-started', 'in-progress', 'completed'. *)
Inductive Status : Type := NotStarted | InProgress | Completed.

(** A stored task.  [ttype] is ['task'], ['group'] or absent. *)
Record Task : Type := mkTask {
  id : string;
  name : string;
  category : string;
  subcategory : option string;
  subsubcategory : option string;
  ttype : option string;
  planStartDate : string;
  planEndDate : string;
  planDuration : Z;
  progress : Z;
  status : Status;
  order : Z;
  parentTaskId : option string;
  actualStartDate : option string;
  actualEndDate : option string;
  progressUpdatedAt : option string;
  remarks : option string;
  predecessors : option (list string)
}.

(** The [Partial<Task>] that [handleProgressUpdate] builds: three fields
    always present, three present only when assigned. *)
Record TaskUpdate : Type := mkUpdate {
  u_progress : Z;
  u_progressUpdatedAt : string;
  u_status : Status;
  u_remarks : option string;
  u_actualStartDate : option string;
  u_actualEndDate : option string
}.

(** Modelled from the spec: [updateTask(id, partialFields)] of the
    persistence collaborator (lib/firestore, not among the sources) is a
    partial merge: the fields present in the update replace the stored
    ones, the others are kept. *)
Definition updateTask (tk : Task) (u : TaskUpdate) : Task :=
  {| id := id tk; name := name tk; category := category tk;
     subcategory := subcategory tk; subsubcategory := subsubcategory tk;
     ttype := ttype tk;
     planStartDate := planStartDate tk; planEndDate := planEndDate tk;
     planDuration := planDuration tk;
     progress := u_progress u;
     status := u_status u;
     order := order tk;
     parentTaskId := parentTaskId tk;
     actualStartDate :=
       match u_actualStartDate u with Some v => Some v | None => actualStartDate tk end;
     actualEndDate :=
       match u_actualEndDate u with Some v => Some v | None => actualEndDate tk end;
     progressUpdatedAt := Some (u_progressUpdatedAt u);
     remarks := match u_remarks u with Some v => Some v | None => remarks tk end;
     predecessors := predecessors tk |}.

(** The object handed to [createTask] and [batchCreateTasks].  The fields
    cost, quantity, responsible, progress and color are read from the input
    one by one and influence no other field; they are left out. *)
Record TaskDraft : Type := mkDraft {
  d_id : option string;
  d_name : string;
  d_category : string;
  d_subcategory : option string;
  d_subsubcategory : option string;
  d_type : string;
  d_planStartDate : string;
  d_planEndDate : string;
  d_planDuration : Z;
  d_status : Status;
  d_order : Z;
  d_parentTaskId : option string;
  d_predecessors : option (list string)
}.

(** What the client obtains from outside: the clock, the engine's
    [new Date(string)] (time value, [None] for an invalid date), date-fns'
    [parseISO] away from plain calendar dates, and the ids that
    [getNewTaskId] hands out, numbered by call. *)
Record Host : Type := mkHost {
  now : Z;
  Date_parse : string -> option Z;
  parseISO_other : string -> JsDate.t;
  getNewTaskId : nat -> string
}.

(** [parseISO] of date-fns on this host. *)
Definition hostParseISO (h : Host) : string -> JsDate.t :=
  JsDate.parseISO (parseISO_other h).

(** [format(new Date(), 'yyyy-MM-dd')]. *)
Definition today (h : Host) : option string := JsDate.format_ymd (Some (now h)).

(** [tasks.find(t => t.id === taskId)]. *)
Definition findTask (tasks : list Task) (taskId : string) : option Task :=
  List.find (fun t => String.eqb (id t) taskId) tasks.

(** [tasks.length > 0 ? Math.max(...tasks.map(t => t.order || 0)) : 0]. *)
Definition currentMaxOrder (tasks : list Task) : Z :=
  match tasks with
  | [] => 0
  | t0 :: rest => fold_left Z.max (map order rest) (order t0)
  end.

(* --------------------------------------------------------------------- *)
(** ** GanttClient.handleProgressUpdate                                   *)
(* --------------------------------------------------------------------- *)

(** The update computed for a found task. *)
Definition progressUpdateData (task : Task) (newProgress : Z)
    (updateDate reason : string) : TaskUpdate :=
  let isStartingWork := newProgress =? -1 in
  let actualProgress := if isStartingWork then 0 else newProgress in
  let newStatus :=
    if actualProgress =? 100 then Completed
    else if (0 <? actualProgress) || isStartingWork then InProgress
    else NotStarted in
  let remarksField := if negb (String.eqb reason "") then Some reason else None in
  let startField :=
    if isStartingWork then Some updateDate
    else if actualProgress =? 0 then
      match newStatus with
      | InProgress =>
          if negb (Js.truthy (actualStartDate task)) then Some updateDate else None
      | _ => Some ""
      end
    else if 0 <? actualProgress then
      if negb (Js.truthy (actualStartDate task)) then Some (planStartDate task)
      else if Js.ltb updateDate (default "" (actualStartDate task))
           then Some updateDate
           else None
    else None in
  let endField :=
    if actualProgress =? 100 then Some updateDate
    else if Js.truthy (actualEndDate task) then Some ""
    else None in
  {| u_progress := actualProgress;
     u_progressUpdatedAt := updateDate;
     u_status := newStatus;
     u_remarks := remarksField;
     u_actualStartDate := startField;
     u_actualEndDate := endField |}.

(** The call [updateTask(taskId, updateData)] that the handler makes, or
    [None] when no task has the id (early return). *)
Definition handleProgressUpdate (tasks : list Task) (taskId : string)
    (newProgress : Z) (updateDate reason : string) : option (string * TaskUpdate) :=
  match findTask tasks taskId with
  | None => None
  | Some task => Some (taskId, progressUpdateData task newProgress updateDate reason)
  end.

(** The stored task after the handler: the found task merged with the
    update; an unknown id leaves the store as it is. *)
Definition taskAfterProgressUpdate (tasks : list Task) (taskId : string)
    (newProgress : Z) (updateDate reason : string) : option Task :=
  match findTask tasks taskId with
  | None => None
  | Some task =>
      Some (updateTask task (progressUpdateData task newProgress updateDate reason))
  end.

(* --------------------------------------------------------------------- *)
(** ** GanttClient.handleAddSubTask                                       *)
(* --------------------------------------------------------------------- *)

(** The argument of [setAddTaskInitialData]. *)
Record AddTaskInitialData : Type := mkInitial {
  i_parentTaskId : string;
  i_category : string;
  i_subcategory : string;
  i_subsubcategory : string;
  i_type : string;
  i_planStartDate : string
}.

(** [tasks.filter(t => t.parentTaskId === parentId && t.type !== 'group')]. *)
Definition siblingTasks (tasks : list Task) (parentId : string) : list Task :=
  List.filter (fun t =>
    bool_decide (parentTaskId t = Some parentId)
    && negb (bool_decide (ttype t = Some "group"))) tasks.

(** The [forEach] that keeps the greatest [planEndDate] in string order. *)
Definition maxEndDate (first : Task) (siblings : list Task) : string :=
  fold_left (fun acc t => if Js.gtb (planEndDate t) acc then planEndDate t else acc)
            siblings (planEndDate first).

(** [None] is the RangeError that [format] throws before the first
    assignment ([new Date()] is never invalid in practice). *)
Definition subTaskDefaultStart (h : Host) (tasks : list Task) (parentId : string)
    (parent : Task) : option string :=
  match today h with
  | None => None
  | Some todayStr =>
      match siblingTasks tasks parentId with
      | (first :: _) as sibs =>
          let m := maxEndDate first sibs in
          match JsDate.format_ymd (JsDate.addDays (hostParseISO h m) 1) with
          | Some s => Some s
          | None => Some m
          end
      | [] =>
          if negb (String.eqb (planStartDate parent) "")
          then Some (planStartDate parent)
          else Some todayStr
      end
  end.

(** The argument of [setAddTaskInitialData], or [None] when no task has
    the id (nothing happens). *)
Definition handleAddSubTask (h : Host) (tasks : list Task) (parentId : string)
    : option AddTaskInitialData :=
  match findTask tasks parentId with
  | None => None
  | Some parent =>
      match subTaskDefaultStart h tasks parentId parent with
      | None => None
      | Some start =>
          Some {| i_parentTaskId := parentId;
                  i_category := category parent;
                  i_subcategory := Js.or_default (subcategory parent) "";
                  i_subsubcategory := Js.or_default (subsubcategory parent) "";
                  i_type := "task";
                  i_planStartDate := start |}
      end
  end.

(* --------------------------------------------------------------------- *)
(** ** GanttClient.handleAddTask                                          *)
(* --------------------------------------------------------------------- *)

(** A truthy string as a present field, anything else as [undefined]:
    [String(x || '') || undefined]. *)
Definition optional (o : option string) : option string :=
  if Js.truthy o then o else None.

(** The end date stored for a plan start and a duration: [parseISO],
    [addDays(start, duration - 1)], [format]; [None] is the RangeError of
    [format] on an invalid date. *)
Definition planEndFor (h : Host) (planStart : string) (duration : Z) : option string :=
  JsDate.format_ymd (JsDate.addDays (hostParseISO h planStart) (duration - 1)).

(** [newTaskData] is a record of form values, read here as strings by
    their key.  The result is the argument of [createTask]; [None] when no
    project is selected (early return) or when the clock cannot be
    formatted. *)
Definition handleAddTask (h : Host) (selectedProjectId : string) (tasks : list Task)
    (newTaskData : gmap string string) (autoLink : bool) : option TaskDraft :=
  if String.eqb selectedProjectId "" then None else
  let durationValue := default "1" (newTaskData !! "duration") in
  let planDuration := Z.max 1 (Js.parseInt_or durationValue 1) in
  let planStartOpt :=
    match newTaskData !! "planStartDate" with
    | Some s => Some s
    | None => today h
    end in
  match planStartOpt with
  | None => None
  | Some planStart =>
      let storageEndDate :=
        match planEndFor h planStart planDuration with
        | Some e => e
        | None => planStart
        end in
      let parentId := Js.or_default (newTaskData !! "parentTaskId") "" in
      let predecessorId : option string :=
        if autoLink then
          if negb (String.eqb parentId "") then
            last (map id (List.filter
                   (fun t => bool_decide (parentTaskId t = Some parentId)) tasks))
          else last (map id tasks)
        else None in
      Some {| d_id := None;
              d_name := Js.or_default (newTaskData !! "name") "";
              d_category := Js.or_default (newTaskData !! "category") "";
              d_subcategory := optional (newTaskData !! "subcategory");
              d_subsubcategory := optional (newTaskData !! "subsubcategory");
              d_type := Js.or_default (newTaskData !! "type") "task";
              d_planStartDate := planStart;
              d_planEndDate := storageEndDate;
              d_planDuration := planDuration;
              d_status := NotStarted;
              d_order := currentMaxOrder tasks + 1;
              d_parentTaskId := optional (newTaskData !! "parentTaskId");
              d_predecessors :=
                if Js.truthy predecessorId then option_map (fun p => [p]) predecessorId
                else None |}
  end.

(* --------------------------------------------------------------------- *)
(** ** GanttClient.fourWeekRange and the window mode                      *)
(* --------------------------------------------------------------------- *)

Inductive GanttWindowMode : Type := ProjectWindow | FourWeeks.

(** The effect on [windowMode] and [chartViewMode]: the view mode it
    leaves in the state. *)
Definition viewModeEffect (windowMode : GanttWindowMode) (chartViewMode : string) : string :=
  match windowMode with
  | FourWeeks => if negb (String.eqb chartViewMode "day") then "day" else chartViewMode
  | ProjectWindow => chartViewMode
  end.

(** [allowedViewModes] passed to the chart. *)
Definition allowedViewModes (windowMode : GanttWindowMode) : list string :=
  match windowMode with
  | FourWeeks => ["day"]
  | ProjectWindow => ["day"; "week"; "month"]
  end.

(** The memoised [fourWeekRange]. *)
Record DateRange : Type := mkRange { startDate : string; endDate : string }.

(** The two ends as dates, before formatting:
    [startOfWeek(subWeeks(today, 1), { weekStartsOn: 1 })]. *)
Definition fourWeekStart (h : Host) : JsDate.t :=
  JsDate.startOfWeek (JsDate.subWeeks (Some (now h)) 1) 1.

(** [endOfWeek(addWeeks(today, 2), { weekStartsOn: 1 })]. *)
Definition fourWeekEnd (h : Host) : JsDate.t :=
  JsDate.endOfWeek (JsDate.addWeeks (Some (now h)) 2) 1.

(** [None] is a RangeError of [format]. *)
Definition fourWeekRange (h : Host) : option DateRange :=
  match JsDate.format_ymd (fourWeekStart h), JsDate.format_ymd (fourWeekEnd h) with
  | Some s, Some e => Some {| startDate := s; endDate := e |}
  | _, _ => None
  end.

(** A project, as far as the range is concerned: its optional dates. *)
Record Project : Type := mkProject {
  p_id : string;
  p_startDate : option string;
  p_endDate : option string
}.

(** [windowMode === '4w' ? fourWeekRange.startDate : selectedProject?.startDate]
    and the same for the end. *)
Definition effectiveStartDate (windowMode : GanttWindowMode) (range : DateRange)
    (selectedProject : option Project) : option string :=
  match windowMode with
  | FourWeeks => Some (startDate range)
  | ProjectWindow => selectedProject ≫= p_startDate
  end.

Definition effectiveEndDate (windowMode : GanttWindowMode) (range : DateRange)
    (selectedProject : option Project) : option string :=
  match windowMode with
  | FourWeeks => Some (endDate range)
  | ProjectWindow => selectedProject ≫= p_endDate
  end.

(* --------------------------------------------------------------------- *)
(** ** GanttClient.handleImportFile                                       *)
(* --------------------------------------------------------------------- *)

(** The shapes [^\d{2}\/\d{2}\/\d{4}$] and [^\d{2}\/\d{2}\/\d{2}$]; the
    result is what [split('/')] gives: day, month, year. *)
Definition match_dmy4 (s : string) : option (string * string * string) :=
  match String.list_ascii_of_string s with
  | [d1; d2; s1; m1; m2; s2; y1; y2; y3; y4] =>
      if forallb Js.is_digit [d1; d2; m1; m2; y1; y2; y3; y4]
         && Ascii.eqb s1 "/" && Ascii.eqb s2 "/"
      then Some (String.string_of_list_ascii [d1; d2],
                 String.string_of_list_ascii [m1; m2],
                 String.string_of_list_ascii [y1; y2; y3; y4])
      else None
  | _ => None
  end.

(** The same with a two-digit year. *)
Definition match_dmy2 (s : string) : option (string * string * string) :=
  match String.list_ascii_of_string s with
  | [d1; d2; s1; m1; m2; s2; y1; y2] =>
      if forallb Js.is_digit [d1; d2; m1; m2; y1; y2]
         && Ascii.eqb s1 "/" && Ascii.eqb s2 "/"
      then Some (String.string_of_list_ascii [d1; d2],
                 String.string_of_list_ascii [m1; m2],
                 String.string_of_list_ascii [y1; y2])
      else None
  | _ => None
  end.

(** [parseDateString(val)]; [None] is [null]. *)
Definition parseDateString (h : Host) (val : string) : option string :=
  if String.eqb val "" || String.eqb val "-" || String.eqb (Js.trim val) "" then None
  else
    let cleaned := Js.trim val in
    if bool_decide (is_Some (JsDate.match_ymd cleaned)) then Some cleaned
    else match match_dmy4 cleaned with
    | Some (day, month, year) => Some (year +:+ "-" +:+ month +:+ "-" +:+ day)
    | None =>
    match match_dmy2 cleaned with
    | Some (day, month, year) =>
        let lt50 := match Js.parseInt year with Some n => n <? 50 | None => false end in
        let fullYear := if lt50 then "20" +:+ year else "19" +:+ year in
        Some (fullYear +:+ "-" +:+ month +:+ "-" +:+ day)
    | None =>
    match Date_parse h cleaned with
    | Some tv => Some (JsDate.toISODate tv)
    | None => None
    end end end.

(** A parsed CSV row: header name to cell. *)
Abbreviation Row := (gmap string string).

(** The variables of the loop over the rows. *)
Record ImportState : Type := mkImport {
  activeGroup : option (string * string);   (* id, category *)
  count : nat;
  lastTaskId : option string;
  tasksToCreate : list TaskDraft
}.

(** [row['Task Name'] || row['Task'] || row['Name'] || row['name']]. *)
Definition rowName (row : Row) : option string :=
  Js.or_else (row !! "Task Name")
    (Js.or_else (row !! "Task") (Js.or_else (row !! "Name") (row !! "name"))).

(** [row['Category'] || 'Imported']. *)
Definition rowCategory (row : Row) : string :=
  Js.or_default (row !! "Category") "Imported".

(** [parseInt(String(row['Duration'] || row['Duration (Days)'] || '1'), 10) || 1]. *)
Definition rowDuration (row : Row) : Z :=
  Js.parseInt_or
    (Js.or_default (Js.or_else (row !! "Duration") (row !! "Duration (Days)")) "1") 1.

(** The plan start of a row: the parsed cell, or today's date when the
    parser gives nothing; [None] when today cannot be formatted. *)
Definition rowPlanStart (h : Host) (row : Row) : option string :=
  let cell := Js.or_default (Js.or_else (row !! "Plan Start") (row !! "Start")) "" in
  match parseDateString h cell with
  | Some s => if String.eqb s "" then today h else Some s
  | None => today h
  end.

(** [String(row['Type'] || '').toLowerCase() === 'group' ? 'group' : 'task']. *)
Definition rowType (row : Row) : string :=
  if String.eqb (Js.toLowerCase (Js.or_default (row !! "Type") "")) "group"
  then "group" else "task".

(** One iteration of [for (const row of data)]: [inl msg] is an exception
    with that message, which ends the import. *)
Definition importRow (h : Host) (currentMax : Z) (st : ImportState) (row : Row)
    : string + ImportState :=
  match rowName row with
  | None => inr st
  | Some nm =>
    if String.eqb nm "" then inr st else
    let category := rowCategory row in
    let subcat := Js.or_default (Js.or_else (row !! "Subcategory") (row !! "Sub Category")) "" in
    let subsubcat :=
      Js.or_default (Js.or_else (row !! "SubSubcategory") (row !! "Sub Subcategory")) "" in
    let duration := rowDuration row in
    match rowPlanStart h row with
    | None => inl "Invalid time value"
    | Some planStart =>
      match planEndFor h planStart duration with
      | None => inl "Invalid time value"
      | Some planEnd =>
        let type := rowType row in
        let newTaskId := getNewTaskId h (count st) in
        let isGroup := String.eqb type "group" in
        let '(parentId, group') :=
          if isGroup then (None, Some (newTaskId, category))
          else match activeGroup st with
               | Some (gid, gcat) =>
                   if String.eqb gcat category then (Some gid, activeGroup st)
                   else (None, None)
               | None => (None, None)
               end in
        let preds :=
          if Js.truthy (lastTaskId st) && negb isGroup
          then option_map (fun l => [l]) (lastTaskId st) else None in
        let draft :=
          {| d_id := Some newTaskId;
             d_name := nm;
             d_category := category;
             d_subcategory := if String.eqb subcat "" then None else Some subcat;
             d_subsubcategory := if String.eqb subsubcat "" then None else Some subsubcat;
             d_type := type;
             d_planStartDate := planStart;
             d_planEndDate := planEnd;
             d_planDuration := duration;
             d_status := NotStarted;
             d_order := currentMax + Z.of_nat (count st) + 1;
             d_parentTaskId := parentId;
             d_predecessors := preds |} in
        inr {| activeGroup := group';
               count := S (count st);
               lastTaskId := if isGroup then lastTaskId st else Some newTaskId;
               tasksToCreate := tasksToCreate st ++ [draft] |}
      end
    end
  end.

(** The loop: rows in order, stopping at the first exception. *)
Fixpoint importRows (h : Host) (currentMax : Z) (st : ImportState) (data : list Row)
    : string + ImportState :=
  match data with
  | [] => inr st
  | row :: rest =>
      match importRow h currentMax st row with
      | inl msg => inl msg
      | inr st' => importRows h currentMax st' rest
      end
  end.

(** [tasksToCreate.slice(i, i + chunkSize)] for [i = 0, chunkSize, ...]. *)
Fixpoint chunksFuel (fuel : nat) (size : nat) (l : list TaskDraft) : list (list TaskDraft) :=
  match fuel, l with
  | _, [] => []
  | O, _ => []
  | S f, _ => take size l :: chunksFuel f size (drop size l)
  end.

(** The batches written, [chunkSize] drafts each. *)
Definition chunks (size : nat) (l : list TaskDraft) : list (list TaskDraft) :=
  chunksFuel (length l) size l.

(** What the user is told, and what was written. *)
Inductive ImportOutcome : Type :=
  | ImportFailed (message : string)
      (* alert('Import failed: ' + message) *)
  | ImportCompleted (records : nat) (batches : list (list TaskDraft)).
      (* the batchCreateTasks calls, then alert(`Import completed: n records.`) *)

(** The loop variables before the first row; [lastTaskId] is the id of
    the last existing task. *)
Definition initialImportState (tasks : list Task) : ImportState :=
  {| activeGroup := None;
     count := 0;
     lastTaskId := last (map id tasks);
     tasksToCreate := [] |}.

(** The body of the handler from [parseCSV]'s result on; [data] is that
    result (lib/csv-utils is not among the sources).  Writes of the
    batches are taken to succeed. *)
Definition handleImportFile (h : Host) (tasks : list Task) (data : list Row)
    : ImportOutcome :=
  match data with
  | [] => ImportFailed "File is empty or invalid"
  | _ =>
      match importRows h (currentMaxOrder tasks) (initialImportState tasks) data with
      | inl msg => ImportFailed msg
      | inr st => ImportCompleted (count st) (chunks 450 (tasksToCreate st))
      end
  end.

(* --------------------------------------------------------------------- *)
(** ** SCurveGraph.getX                                                   *)
(* --------------------------------------------------------------------- *)

(** [timeline.items?.[0] ?? timeRange.start]. *)
Definition timelineStart (items : list JsDate.t) (rangeStart : JsDate.t) : JsDate.t :=
  match items with
  | first :: _ => first
  | [] => rangeStart
  end.

(** Pixel arithmetic is taken over the rationals; [None] is NaN, which
    an invalid date gives. *)
Definition getX (viewMode : string) (cellWidth : Q) (timelineStart date : JsDate.t)
    : option Q :=
  match JsDate.differenceInDays date timelineStart with
  | None => None
  | Some diff =>
      if String.eqb viewMode "day" then Some (inject_Z diff * cellWidth)%Q
      else if String.eqb viewMode "week" then Some ((inject_Z diff / 7) * cellWidth)%Q
      else Some ((inject_Z diff / (3044 # 100)) * cellWidth)%Q
  end.

(* --------------------------------------------------------------------- *)
(** ** TimelineHeader: widths of the group row                            *)
(* --------------------------------------------------------------------- *)

(** [a.getMonth() === b.getMonth()]: NaN equals nothing. *)
Definition sameMonth (a b : JsDate.t) : bool :=
  match a, b with
  | Some x, Some y => JsDate.getMonth x =? JsDate.getMonth y
  | _, _ => false
  end.

(** [a.getFullYear() === b.getFullYear()]. *)
Definition sameYear (a b : JsDate.t) : bool :=
  match a, b with
  | Some x, Some y => JsDate.getFullYear x =? JsDate.getFullYear y
  | _, _ => false
  end.

(** Whether an item is counted for a group at a view mode. *)
Definition belongsTo (viewMode : string) (group item : JsDate.t) : bool :=
  if String.eqb viewMode "month" then sameYear item group
  else sameMonth item group && sameYear item group.

(** The [width] computed in [timeline.groups.map]. *)
Definition groupWidth (viewMode : string) (items : list JsDate.t) (cellWidth : Z)
    (group : JsDate.t) : Z :=
  if String.eqb viewMode "day" then
    Z.of_nat (length (List.filter (fun item => sameMonth item group && sameYear item group) items))
    * cellWidth
  else if String.eqb viewMode "week" then
    Z.of_nat (length (List.filter (fun item => sameMonth item group && sameYear item group) items))
    * cellWidth
  else if String.eqb viewMode "month" then
    Z.of_nat (length (List.filter (fun m => sameYear m group) items)) * cellWidth
  else 12 * cellWidth.

(** The widths of the whole group row. *)
Definition groupWidths (viewMode : string) (items groups : list JsDate.t)
    (cellWidth : Z) : list Z :=
  map (groupWidth viewMode items cellWidth) groups.

(* --------------------------------------------------------------------- *)
(** ** GanttClient: categories, export cells, project selection           *)
(* --------------------------------------------------------------------- *)

(** [[...new Set(values)]]: the values in the order of their first
    occurrence. *)
Definition setValues (values : list string) : list string :=
  fold_left (fun seen v => if existsb (String.eqb v) seen then seen else seen ++ [v])
            values [].

(** [[...new Set(tasks.map((t) => t.category))].filter(Boolean)]. *)
Definition existingCategories (tasks : list Task) : list string :=
  List.filter (fun c => negb (String.eqb c "")) (setValues (map category tasks)).

(** The double quote character. *)
Definition dquote : ascii := "034"%char.

(** The [replace] of the export cells, with the global pattern of one
    double quote and two double quotes as replacement: every double quote
    is written twice. *)
Fixpoint doubleQuotes (s : string) : string :=
  match s with
  | EmptyString => EmptyString
  | String c r =>
      if Ascii.eqb c dquote then String dquote (String dquote (doubleQuotes r))
      else String c (doubleQuotes r)
  end.

(** The quoted cell of [handleExport]: the template that puts
    [(x || '')], with its quotes doubled, between two double quotes. *)
Definition csvQuoted (x : option string) : string :=
  String dquote (doubleQuotes (Js.or_default x "") +:+ String dquote EmptyString).

(** [preSelectedProjectId || searchParams.get('project') ||
    searchParams.get('projectId')]. *)
Definition projectParam (preSelectedProjectId project projectId : option string)
    : option string :=
  Js.or_else preSelectedProjectId (Js.or_else project projectId).

(** [selectedProjectId] once the projects are loaded: [fetchProjects]
    selects the first project when there is no parameter, and the effect on
    [projectParam] and [projects] selects the parameter; with no project
    the initial [''] stays. *)
Definition selectedProjectIdAfterLoad (param : option string) (projects : list Project)
    : string :=
  match projects with
  | [] => ""
  | first :: _ => if Js.truthy param then default "" param else p_id first
  end.

(** [projects.find((p) => p.id === selectedProjectId)]. *)
Definition selectedProject (projects : list Project) (selectedProjectId : string)
    : option Project :=
  List.find (fun p => String.eqb (p_id p) selectedProjectId) projects.

(* --------------------------------------------------------------------- *)
(** ** TimelineHeader: the week number of an item                         *)
(* --------------------------------------------------------------------- *)

(** [weekInMonth] of the item at [idx]: the items up to and including
    it that have its month and year. *)
Definition weekInMonth (items : list JsDate.t) (idx : nat) (item : JsDate.t) : nat :=
  length (List.filter (fun week => sameMonth week item && sameYear week item)
            (take (S idx) items)).

(* --------------------------------------------------------------------- *)
(** ** SCurveGraph: vertical scale, anchors and labels                    *)
(* --------------------------------------------------------------------- *)

(** [height - (val / 100) * height]. *)
Definition getY (height val : Q) : Q := (height - (val / 100) * height)%Q.

(** A point of the series: the sampling date and the two percentages. *)
Record SCurveDataPoint : Type := mkPoint {
  pt_date : JsDate.t;
  pt_plan : Q;
  pt_actual : Q
}.

(** [a <= b] on dates: a comparison with NaN is false. *)
Definition dateLe (a b : JsDate.t) : bool :=
  match a, b with
  | Some x, Some y => x <=? y
  | _, _ => false
  end.

(** [a.getTime() === b.getTime()]. *)
Definition sameTime (a b : JsDate.t) : bool :=
  match a, b with
  | Some x, Some y => x =? y
  | _, _ => false
  end.

(** [points.filter(p => p.date <= maxActualDate)]. *)
Definition actualPoints (points : list SCurveDataPoint) (maxActualDate : JsDate.t)
    : list SCurveDataPoint :=
  List.filter (fun p => dateLe (pt_date p) maxActualDate) points.

(** The last of [actualPoints], or [null]. *)
Definition lastActualPoint (points : list SCurveDataPoint) (maxActualDate : JsDate.t)
    : option SCurveDataPoint :=
  last (actualPoints points maxActualDate).

(** [planAnchorDate]: the date of the last actual point, else of the
    last point, else [null].  The outer option is [null]; a [Date] object
    is truthy also when it is invalid. *)
Definition planAnchorDate (points : list SCurveDataPoint) (maxActualDate : JsDate.t)
    : option JsDate.t :=
  match lastActualPoint points maxActualDate with
  | Some p => Some (pt_date p)
  | None => option_map pt_date (last points)
  end.

(** [planAtAnchorPoint]: the first point at the anchor's time, else the
    last point not after the anchor, else the last point. *)
Definition planAtAnchorPoint (points : list SCurveDataPoint) (maxActualDate : JsDate.t)
    : option SCurveDataPoint :=
  match planAnchorDate points maxActualDate with
  | None => None
  | Some anchor =>
      match List.find (fun p => sameTime (pt_date p) anchor) points with
      | Some p => Some p
      | None =>
          match last (List.filter (fun p => dateLe (pt_date p) anchor) points) with
          | Some p => Some p
          | None => last points
          end
      end
  end.

(** The box and the text of the plan label for a point at height [y]:
    [y < 24 ? y + 6 : y - 20] and [y < 24 ? y + 17 : y - 9]. *)
Definition planLabelY (y : Q) : Q := if Qlt_le_dec y 24 then (y + 6)%Q else (y - 20)%Q.
Definition planTextY (y : Q) : Q := if Qlt_le_dec y 24 then (y + 17)%Q else (y - 9)%Q.

(** Whether the reference line is drawn: [referenceX >= 0 && referenceX <= width];
    NaN compares false. *)
Definition referenceLineDrawn (referenceX : option Q) (width : Q) : bool :=
  match referenceX with
  | Some x => Qle_bool 0 x && Qle_bool x width
  | None => false
  end.

(** The [x1] of the grid line drawn for the item at index [i]:
    [i * config.cellWidth]. *)
Definition gridX (i : Z) (cellWidth : Q) : Q := (inject_Z i * cellWidth)%Q.

(** The top of the box of the actual label for a point at height [y],
    [y + 5], and the height [16] of both label boxes. *)
Definition actualLabelY (y : Q) : Q := (y + 5)%Q.
Definition labelHeight : Q := 16.

(* --------------------------------------------------------------------- *)
(** ** AuthContext                                                        *)
(* --------------------------------------------------------------------- *)

(** A member, as far as the provider reads it; [m_email] may be absent. *)
Record Member : Type := mkMember {
  m_id : string;
  m_email : option string;
  m_name : string
}.

(** [JSON.stringify] and [JSON.parse] on members.  [parse] gives [None]
    when it throws and [Some None] for a falsy value such as [null]. *)
Record Json : Type := mkJson {
  stringify : Member -> string;
  parse : string -> option (option Member)
}.

(** The provider's state and the entry [srt-hst-user] of localStorage. *)
Record AuthState : Type := mkAuth {
  user : option Member;
  loading : bool;
  storedUser : option string
}.

(** The provider's state when it is created over a given localStorage
    entry: no user, loading. *)
Definition initialAuth (stored : option string) : AuthState :=
  {| user := None; loading := true; storedUser := stored |}.

Definition isAuthenticated (st : AuthState) : bool :=
  match user st with Some _ => true | None => false end.

(** The effect run on mount. *)
Definition restoreSession (js : Json) (st : AuthState) : AuthState :=
  if Js.truthy (storedUser st) then
    match parse js (default "" (storedUser st)) with
    | Some parsedUser =>
        {| user := parsedUser; loading := false; storedUser := storedUser st |}
    | None => {| user := user st; loading := false; storedUser := None |}
    end
  else {| user := user st; loading := false; storedUser := storedUser st |}.

(** [email.trim().toLowerCase()]. *)
Definition cleanEmail (email : string) : string := Js.toLowerCase (Js.trim email).

(** [members.find(m => (m.email || '').trim().toLowerCase() === cleanEmail)]. *)
Definition findMember (members : list Member) (cleaned : string) : option Member :=
  List.find (fun m => String.eqb (cleanEmail (Js.or_default (m_email m) "")) cleaned) members.

(** What [login] returns: success, the email that was not found with the
    number of members, or the message of a caught error. *)
Inductive LoginResult : Type :=
  | LoginSucceeded
  | LoginNotFound (cleaned : string) (memberCount : nat)
  | LoginError (message : string).

Definition loginSuccess (r : LoginResult) : bool :=
  match r with LoginSucceeded => true | _ => false end.

(** [login(email)]; [members] is what [getMembers()] gives, [inl] when
    it throws. *)
Definition login (js : Json) (members : string + list Member) (email : string)
    (st : AuthState) : LoginResult * AuthState :=
  match members with
  | inl message => (LoginError message, st)
  | inr ms =>
      match findMember ms (cleanEmail email) with
      | None => (LoginNotFound (cleanEmail email) (length ms), st)
      | Some member =>
          (LoginSucceeded,
           {| user := Some member; loading := loading st;
              storedUser := Some (stringify js member) |})
      end
  end.

Definition logout (st : AuthState) : AuthState :=
  {| user := None; loading := loading st; storedUser := None |}.

(** [refreshUser()].  The function tests and uses the [user] of the
    render that created it, [closureUser]; it writes after
    [await getMembers()], to the state of that moment, [st].  It writes
    nothing without a user, on an error, or when no member has the user's
    id. *)
Definition refreshUser (js : Json) (members : string + list Member)
    (closureUser : option Member) (st : AuthState) : AuthState :=
  match closureUser, members with
  | Some u, inr ms =>
      match List.find (fun m => String.eqb (m_id m) (m_id u)) ms with
      | Some updatedUser =>
          {| user := Some updatedUser; loading := loading st;
             storedUser := Some (stringify js updatedUser) |}
      | None => st
      end
  | _, _ => st
  end.

(** ** Notions used to state the properties *)

(** The day number of a complete calendar date [YYYY-MM-DD] with a valid
    month and day; such strings are what [format] writes for the years
    1 to 9999. *)
Definition isoDay (s : string) : option Z :=
  match JsDate.match_ymd s with
  | Some (y, m, d) =>
      let year := Js.digits_val y in
      let month := Js.digits_val m - 1 in
      let date := Js.digits_val d in
      if JsDate.validateDate year month date
      then Some (JsDate.MakeDay year month date)
      else None
  | None => None
  end.

(** A log of progress updates (progress, date) applied in order to a
    task, each through the update the handler computes and the merge the
    store performs. *)
Definition applyProgressLog (task : Task) (log : list (Z * string)) : Task :=
  fold_left (fun tk e => updateTask tk (progressUpdateData tk (fst e) (snd e) "")) log task.

(** The smaller of two strings in the order of [<]. *)
Definition strMin (a b : string) : string := if Js.ltb a b then a else b.

(** The three zoom levels of the specification and the view mode string
    of each. *)
Inductive Zoom : Type := ZoomDay | ZoomWeek | ZoomMonth.

Definition zoomName (z : Zoom) : string :=
  match z with ZoomDay => "day" | ZoomWeek => "week" | ZoomMonth => "month" end.

(** The whole days from [start] to [date]: the difference of the time
    values in days, truncated toward zero. *)
Definition wholeDays (date start : Z) : Z := (date - start) ÷ JsDate.msPerDay.

(** Modelled from the spec: the Coordinate Mapper contract [dateToX] of
    section 4.2, which the Gantt bars are specified to use (the chart
    component is not among the sources).  Day zoom: whole days times the
    cell width; week zoom: days over 7 times the cell width; month zoom:
    days over 30.44 times the cell width. *)
Definition dateToX (date start : Z) (zoom : Zoom) (cellWidth : Q) : Q :=
  match zoom with
  | ZoomDay => (inject_Z (wholeDays date start) * cellWidth)%Q
  | ZoomWeek => (inject_Z (wholeDays date start) / 7 * cellWidth)%Q
  | ZoomMonth => (inject_Z (wholeDays date start) / (3044 # 100) * cellWidth)%Q
  end.

(** Sum of a list of widths. *)
Definition sumZ (l : list Z) : Z := fold_right Z.add 0 l.

(** The clock between 1970-01-01 and 9999-01-01, so that dates a few
    weeks around it are written with a four-digit year. *)
Definition clockInEra (h : Host) : Prop := 0 <= now h < 253370764800000.

(** A string is the least of a list when it occurs in it and nothing in
    the list is smaller. *)
Definition leastOf (r : string) (l : list string) : Prop :=
  In r l /\ forall x, In x l -> Js.ltb x r = false.

(** The order of (year, month, day). *)
Definition lexLt (a b : Z * Z * Z) : Prop :=
  let '(y1, m1, d1) := a in
  let '(y2, m2, d2) := b in
  y1 < y2 \/ (y1 = y2 /\ (m1 < m2 \/ (m1 = m2 /\ d1 < d2))).

(** A time value at least one day inside the range of [Date]. *)
Definition inner (tv : Z) : Prop :=
  - JsDate.maxTime + JsDate.msPerDay <= tv <= JsDate.maxTime - JsDate.msPerDay.

(** The digits that [addLeadingZeros] writes for a number below 100 and
    below 10000. *)
Definition digits2 (n : Z) : list ascii :=
  [Js.digit_char (n / 10 mod 10); Js.digit_char (n mod 10)].

(** Four digits, most significant first. *)
Definition digits4 (n : Z) : list ascii :=
  [Js.digit_char (n / 1000 mod 10); Js.digit_char (n / 100 mod 10);
   Js.digit_char (n / 10 mod 10); Js.digit_char (n mod 10)].

(** The draft that a named row produces. *)
Definition rowDraft (h : Host) (cm : Z) (st : ImportState) (row : Row)
    (nm planStart planEnd : string) : TaskDraft :=
  let isGroup := String.eqb (rowType row) "group" in
  {| d_id := Some (getNewTaskId h (count st));
     d_name := nm;
     d_category := rowCategory row;
     d_subcategory :=
       (let s := Js.or_default (Js.or_else (row !! "Subcategory") (row !! "Sub Category")) "" in
        if String.eqb s "" then None else Some s);
     d_subsubcategory :=
       (let s := Js.or_default (Js.or_else (row !! "SubSubcategory") (row !! "Sub Subcategory")) "" in
        if String.eqb s "" then None else Some s);
     d_type := rowType row;
     d_planStartDate := planStart;
     d_planEndDate := planEnd;
     d_planDuration := rowDuration row;
     d_status := NotStarted;
     d_order := cm + Z.of_nat (count st) + 1;
     d_parentTaskId :=
       if isGroup then None
       else match activeGroup st with
            | Some (gid, gcat) => if String.eqb gcat (rowCategory row) then Some gid else None
            | None => None
            end;
     d_predecessors :=
       if Js.truthy (lastTaskId st) && negb isGroup
       then option_map (fun l => [l]) (lastTaskId st) else None |}.

(** The scope that is open after a named row. *)
Definition rowScope (h : Host) (st : ImportState) (row : Row) : option (string * string) :=
  if String.eqb (rowType row) "group"
  then Some (getNewTaskId h (count st), rowCategory row)
  else match activeGroup st with
       | Some (gid, gcat) =>
           if String.eqb gcat (rowCategory row) then Some (gid, gcat) else None
       | None => None
       end.

(** Whether a row has a name, and whether its plan end can be computed
    (the only step of a named row that can throw). *)
Definition rowNamed (row : Row) : bool := Js.truthy (rowName row).

Definition rowDatable (h : Host) (row : Row) : bool :=
  match rowPlanStart h row with
  | Some planStart =>
      match planEndFor h planStart (rowDuration row) with
      | Some _ => true
      | None => false
      end
  | None => false
  end.

(** The id that the next task row is linked to: that of the last draft
    that is not a group, or [init] when there is none. *)
Definition lastLinkable (init : option string) (drafts : list TaskDraft) : option string :=
  fold_left (fun prev d => if String.eqb (d_type d) "group" then prev else d_id d)
            drafts init.

(** The link of a task row to a previous id: [[prev]] when the id is
    truthy. *)
Definition linkTo (prev : option string) : option (list string) :=
  if Js.truthy prev then option_map (fun l => [l]) prev else None.

(** Invariants of the import loop.  Numbering: the count is the number
    of drafts, and the draft at position [i] has the [i]-th generated id
    and the order [currentMax + i + 1]. *)
Definition importNumbered (h : Host) (cm : Z) (st : ImportState) : Prop :=
  count st = length (tasksToCreate st)
  /\ forall i d, tasksToCreate st !! i = Some d ->
       d_id d = Some (getNewTaskId h i)
       /\ d_order d = cm + Z.of_nat i + 1
       /\ d_status d = NotStarted
       /\ d_name d <> ""
       /\ (d_type d = "group" \/ d_type d = "task").

(** Chaining: [lastTaskId] is the last linkable id, and every draft is
    linked to the last linkable id before it, groups to nothing. *)
Definition importChained (init : option string) (st : ImportState) : Prop :=
  lastTaskId st = lastLinkable init (tasksToCreate st)
  /\ forall j d, tasksToCreate st !! j = Some d ->
       d_predecessors d =
         if String.eqb (d_type d) "group" then None
         else linkTo (lastLinkable init (take j (tasksToCreate st))).

(** A group draft before position [j] with a given id and category. *)
Definition groupBefore (drafts : list TaskDraft) (j : nat) (gid gcat : string) : Prop :=
  exists i g, (i < j)%nat /\ drafts !! i = Some g
    /\ d_id g = Some gid /\ d_type g = "group" /\ d_category g = gcat.

(** Parents: the open scope and every assigned parent name a group draft
    created before, of the same category. *)
Definition importParented (st : ImportState) : Prop :=
  (forall gid gcat, activeGroup st = Some (gid, gcat) ->
     groupBefore (tasksToCreate st) (length (tasksToCreate st)) gid gcat)
  /\ forall j d pid, tasksToCreate st !! j = Some d -> d_parentTaskId d = Some pid ->
       d_type d = "task" /\ groupBefore (tasksToCreate st) j pid (d_category d).

(** The scanner of a quoted CSV field: after the opening quote, two
    quotes in a row are one quote of the text, and a quote that is not
    doubled ends the field.  The result is the text and what follows the
    field; [None] when the field does not start with a quote or is not
    closed. *)
Fixpoint scanQuotedBody (s : string) : option (string * string) :=
  match s with
  | EmptyString => None
  | String c r =>
      if Ascii.eqb c dquote then
        match r with
        | String c' r' =>
            if Ascii.eqb c' dquote
            then match scanQuotedBody r' with
                 | Some (text, rest) => Some (String dquote text, rest)
                 | None => None
                 end
            else Some (EmptyString, r)
        | EmptyString => Some (EmptyString, EmptyString)
        end
      else match scanQuotedBody r with
           | Some (text, rest) => Some (String c text, rest)
           | None => None
           end
  end.

Definition scanQuoted (s : string) : option (string * string) :=
  match s with
  | String c r => if Ascii.eqb c dquote then scanQuotedBody r else None
  | EmptyString => None
  end.

(** The stored entry is that of the signed-in user. *)
Definition authSynced (js : Json) (st : AuthState) : Prop :=
  storedUser st = option_map (stringify js) (user st).

(** Whether a member is found by a typed email. *)
Definition emailMatches (email : string) (m : Member) : bool :=
  String.eqb (cleanEmail (Js.or_default (m_email m) "")) (cleanEmail email).

(** ** Sample data *)

(** A task planned from 2024-01-01 on which no work is recorded. *)
Definition sampleUnstarted : Task :=
  {| id := "t1"; name := "Footing"; category := "Structure";
     subcategory := None; subsubcategory := None; ttype := Some "task";
     planStartDate := "2024-01-01"; planEndDate := "2024-01-15"; planDuration := 15;
     progress := 0; status := NotStarted; order := 1; parentTaskId := None;
     actualStartDate := None; actualEndDate := None;
     progressUpdatedAt := None; remarks := None; predecessors := None |}.

(** The same plan, started on 2024-01-05 and completed on 2024-01-20. *)
Definition sampleCompleted : Task :=
  {| id := "t2"; name := "Columns"; category := "Structure";
     subcategory := None; subsubcategory := None; ttype := Some "task";
     planStartDate := "2024-01-01"; planEndDate := "2024-01-15"; planDuration := 15;
     progress := 100; status := Completed; order := 2; parentTaskId := None;
     actualStartDate := Some "2024-01-05"; actualEndDate := Some "2024-01-20";
     progressUpdatedAt := Some "2024-01-20"; remarks := None; predecessors := None |}.

(** A host whose clock reads Wednesday 2024-01-17, 10:00, whose engine
    parses no free-form date, and whose ids are id0, id1, ... *)
Definition sampleHost : Host :=
  {| now := 19739 * 86400000 + 36000000;
     Date_parse := fun _ => None;
     parseISO_other := fun _ => None;
     getNewTaskId := fun n => "id" +:+ Js.to_decimal (Z.of_nat n) |}.

(** A group with two task children and one group child. *)
Definition sampleGroup : Task :=
  {| id := "g1"; name := "Frame"; category := "Structure";
     subcategory := Some "Concrete"; subsubcategory := None; ttype := Some "group";
     planStartDate := "2024-01-01"; planEndDate := "2024-03-01"; planDuration := 61;
     progress := 0; status := NotStarted; order := 1; parentTaskId := None;
     actualStartDate := None; actualEndDate := None;
     progressUpdatedAt := None; remarks := None; predecessors := None |}.

(** A task child of the group with a given id and plan end. *)
Definition sampleChild (childId planEnd : string) : Task :=
  {| id := childId; name := "Pour"; category := "Structure";
     subcategory := Some "Concrete"; subsubcategory := None; ttype := Some "task";
     planStartDate := "2024-01-02"; planEndDate := planEnd; planDuration := 1;
     progress := 0; status := NotStarted; order := 2; parentTaskId := Some "g1";
     actualStartDate := None; actualEndDate := None;
     progressUpdatedAt := None; remarks := None; predecessors := None |}.

(** A group child of the group. *)
Definition sampleSubGroup : Task :=
  {| id := "g2"; name := "Level 2"; category := "Structure";
     subcategory := Some "Concrete"; subsubcategory := None; ttype := Some "group";
     planStartDate := "2024-02-01"; planEndDate := "2024-03-01"; planDuration := 30;
     progress := 0; status := NotStarted; order := 4; parentTaskId := Some "g1";
     actualStartDate := None; actualEndDate := None;
     progressUpdatedAt := None; remarks := None; predecessors := None |}.

(** The group and its three children. *)
Definition sampleTree : list Task :=
  [sampleGroup; sampleChild "c1" "2024-01-15"; sampleChild "c2" "2024-02-10";
   sampleSubGroup].

(** Rows of a CSV file: a group, tasks of its category, a task of
    another category. *)
Definition sampleGroupRow : Row :=
  list_to_map [("Task Name", "Frame"); ("Type", "Group"); ("Category", "Structure");
               ("Plan Start", "2024-03-01"); ("Duration", "10")].

(** A task row of the group's category, dated 1 March 2024. *)
Definition sampleTaskRow (taskName : string) : Row :=
  list_to_map [("Task Name", taskName); ("Type", "task"); ("Category", "Structure");
               ("Plan Start", "01/03/2024"); ("Duration", "5")].

(** A task row of another category. *)
Definition sampleOtherRow : Row :=
  list_to_map [("Task Name", "Paint"); ("Category", "Finishing");
               ("Plan Start", "2024-04-01"); ("Duration", "3")].

(** A named row without a plan start, a row with a negative duration,
    and a row without a name. *)
Definition sampleUndatedRow : Row :=
  list_to_map [("Task Name", "Survey"); ("Plan Start", ""); ("Duration", "3")].

(** A named row with duration -5. *)
Definition sampleNegativeRow : Row :=
  list_to_map [("Task Name", "Excavation"); ("Plan Start", "2024-01-10");
               ("Duration", "-5")].

(** A named row whose plan start has the shape of a date but is none. *)
Definition sampleImpossibleRow : Row :=
  list_to_map [("Task Name", "Roof"); ("Plan Start", "2024-13-45"); ("Duration", "2")].

(** A row whose task name is empty. *)
Definition sampleUnnamedRow : Row :=
  list_to_map [("Task Name", ""); ("Category", "Structure");
               ("Plan Start", "2024-01-10"); ("Duration", "5")].

(** A file of four named rows: a group, two tasks of its category and
    a task of another category. *)
Definition sampleFile : list Row :=
  [sampleGroupRow; sampleTaskRow "Footing"; sampleTaskRow "Columns"; sampleOtherRow].

(** Six week starts from 2024-01-01 (a Monday): five in January, one
    in February. *)
Definition sampleWeeks : list JsDate.t :=
  map (fun k => Some ((19723 + 7 * k) * 86400000)) [0; 1; 2; 3; 4; 5].

(** Three points of a series, a week apart from 2024-01-01. *)
Definition samplePoints : list SCurveDataPoint :=
  [ {| pt_date := Some (19723 * 86400000); pt_plan := 10; pt_actual := 5 |};
    {| pt_date := Some (19730 * 86400000); pt_plan := 30; pt_actual := 20 |};
    {| pt_date := Some (19737 * 86400000); pt_plan := 60; pt_actual := 0 |} ].

(** Members: one with a mixed-case email, one without an email. *)
Definition sampleMember : Member :=
  {| m_id := "m1"; m_email := Some "Somchai@Example.com"; m_name := "Somchai" |}.

Definition sampleMemberNoEmail : Member :=
  {| m_id := "m2"; m_email := None; m_name := "Guest" |}.

(** A serialisation that writes the id and reads the two sample members
    back. *)
Definition sampleJson : Json :=
  {| stringify := m_id;
     parse := fun s =>
       if String.eqb s "m1" then Some (Some sampleMember)
       else if String.eqb s "m2" then Some (Some sampleMemberNoEmail)
       else if String.eqb s "null" then Some None
       else None |}.

(** A row whose plan start has the shape of a date and names no
    calendar day. *)
Definition sampleMalformedRow : Row :=
  list_to_map [("Task Name", "Columns"); ("Plan Start", "31/02/2024"); ("Duration", "5")].

(** A task planned from 2024-01-10 on which no work is recorded. *)
Definition sampleLatePlan : Task :=
  {| id := "t3"; name := "Roof"; category := "Structure";
     subcategory := None; subsubcategory := None; ttype := Some "task";
     planStartDate := "2024-01-10"; planEndDate := "2024-01-20"; planDuration := 11;
     progress := 0; status := NotStarted; order := 3; parentTaskId := None;
     actualStartDate := None; actualEndDate := None;
     progressUpdatedAt := None; remarks := None; predecessors := None |}.

(* ===================================================================== *)
(** * Part II.  Properties                                                *)
(* ===================================================================== *)

(* --------------------------------------------------------------------- *)
(** ** The calendar                                                       *)
(* --------------------------------------------------------------------- *)

Section Calendar.
Import JsDate.

Lemma DayFromYear_succ y : DayFromYear (y + 1) = DayFromYear y + DaysInYear y.
Proof.
  unfold DayFromYear, DaysInYear, leapDays, isLeapYear.
  destruct (Z.eqb_spec (y mod 400) 0), (Z.eqb_spec (y mod 4) 0),
    (Z.eqb_spec (y mod 100) 0); simpl; Z.div_mod_to_equations; lia.
Qed.

Lemma YearFromDay_spec d :
  DayFromYear (YearFromDay d) <= d < DayFromYear (YearFromDay d + 1).
Proof.
  unfold YearFromDay.
  set (y0 := 1970 + 400 * d / 146097).
  destruct (Z.leb_spec (DayFromYear (y0 + 1)) d) as [H1|H1].
  - split; [exact H1|].
    subst y0. unfold DayFromYear in *. Z.div_mod_to_equations. lia.
  - destruct (Z.leb_spec (DayFromYear y0) d) as [H0|H0].
    + split; assumption.
    + replace (y0 - 1 + 1) with y0 by lia. split; [|exact H0].
      subst y0. unfold DayFromYear in *. Z.div_mod_to_equations. lia.
Qed.

Lemma leapDays_01 y : leapDays y = 0 \/ leapDays y = 1.
Proof. unfold leapDays. destruct (isLeapYear y); auto. Qed.

Lemma DayWithinYear_range d :
  0 <= DayWithinYear d < DaysInYear (YearFromDay d).
Proof.
  unfold DayWithinYear. pose proof (YearFromDay_spec d) as H.
  rewrite DayFromYear_succ in H. lia.
Qed.

Lemma monthOfDayWithinYear_range dwy L :
  0 <= monthOfDayWithinYear dwy L <= 11.
Proof.
  unfold monthOfDayWithinYear.
  repeat match goal with |- context [?a <? ?b] => destruct (Z.ltb_spec a b) end; lia.
Qed.

Lemma MonthFromDay_range d : 0 <= MonthFromDay d <= 11.
Proof. apply monthOfDayWithinYear_range. Qed.

(** The day within the year lies in the month the table assigns. *)
Lemma month_table dwy L :
  0 <= dwy < 365 + L -> (L = 0 \/ L = 1) ->
  let m := monthOfDayWithinYear dwy L in
  monthStart m L <= dwy < monthStart m L + daysInMonth m L.
Proof.
  intros Hd HL m. subst m. unfold monthOfDayWithinYear.
  repeat match goal with |- context [?a <? ?b] => destruct (Z.ltb_spec a b) end;
    cbn [monthStart daysInMonth]; lia.
Qed.

Lemma DateFromDay_range d :
  1 <= DateFromDay d <= daysInMonth (MonthFromDay d) (leapDays (YearFromDay d)).
Proof.
  unfold DateFromDay, MonthFromDay.
  pose proof (DayWithinYear_range d) as Hr. unfold DaysInYear in Hr.
  pose proof (month_table _ _ Hr (leapDays_01 _)) as Ht. cbv zeta in Ht. lia.
Qed.

(** [MakeDay] undoes the split of a day number into year, month and date,
    also when the date is shifted out of its month. *)
Lemma MakeDay_fields d k :
  MakeDay (YearFromDay d) (MonthFromDay d) (DateFromDay d + k) = d + k.
Proof.
  unfold MakeDay. pose proof (MonthFromDay_range d) as Hm.
  rewrite (Z.div_small (MonthFromDay d) 12) by lia.
  rewrite (Z.mod_small (MonthFromDay d) 12) by lia.
  rewrite Z.add_0_r. unfold DateFromDay, DayWithinYear. lia.
Qed.

Lemma Day_MakeDate d tm : 0 <= tm < msPerDay -> Day (MakeDate d tm) = d.
Proof.
  intros H. unfold Day, MakeDate, msPerDay in *. Z.div_mod_to_equations. lia.
Qed.

Lemma MakeDate_Day tv : MakeDate (Day tv) (TimeWithinDay tv) = tv.
Proof.
  unfold MakeDate, Day, TimeWithinDay, msPerDay. Z.div_mod_to_equations. lia.
Qed.

Lemma TimeWithinDay_range tv : 0 <= TimeWithinDay tv < msPerDay.
Proof. unfold TimeWithinDay, msPerDay. Z.div_mod_to_equations. lia. Qed.

(** [setDate] moves a date by whole days and keeps the time of day. *)
Lemma setDate_shift tv k :
  setDate tv (getDate tv + k) = TimeClip (tv + k * msPerDay).
Proof.
  unfold setDate, getDate, getFullYear, getMonth.
  rewrite MakeDay_fields. f_equal.
  rewrite <- (MakeDate_Day tv) at 3. unfold MakeDate. lia.
Qed.

Lemma TimeClip_Some v : - maxTime <= v <= maxTime -> TimeClip v = Some v.
Proof.
  intros Hv. unfold TimeClip.
  destruct (Z.leb_spec (- maxTime) v), (Z.leb_spec v maxTime); simpl; auto; lia.
Qed.

Lemma addDays_spec tv k :
  - maxTime <= tv <= maxTime ->
  addDays (Some tv) k = TimeClip (tv + k * msPerDay).
Proof.
  intros H. unfold addDays. destruct (Z.eqb_spec k 0) as [->|Hk].
  - rewrite Z.add_0_r. symmetry. now apply TimeClip_Some.
  - apply setDate_shift.
Qed.

End Calendar.

(* --------------------------------------------------------------------- *)
(** ** The order of strings                                               *)
(* --------------------------------------------------------------------- *)

Section StringOrder.

Lemma code_inj c1 c2 : Js.code c1 = Js.code c2 -> c1 = c2.
Proof.
  unfold Js.code. intros H. apply N2Z.inj in H.
  rewrite <- (ascii_N_embedding c1), <- (ascii_N_embedding c2). now rewrite H.
Qed.

Lemma ltb_irrefl s : Js.ltb s s = false.
Proof.
  induction s as [|c s IH]; simpl; [reflexivity|].
  rewrite Z.ltb_irrefl. exact IH.
Qed.

Lemma ltb_trans a b c :
  Js.ltb a b = true -> Js.ltb b c = true -> Js.ltb a c = true.
Proof.
  revert b c. induction a as [|x a IH]; intros [|y b] [|z c]; simpl;
    try discriminate; auto.
  destruct (Z.ltb_spec (Js.code x) (Js.code y)), (Z.ltb_spec (Js.code y) (Js.code x)),
    (Z.ltb_spec (Js.code y) (Js.code z)), (Z.ltb_spec (Js.code z) (Js.code y)),
    (Z.ltb_spec (Js.code x) (Js.code z)), (Z.ltb_spec (Js.code z) (Js.code x));
    try discriminate; try lia; auto.
  apply IH.
Qed.

(** Two strings are ordered one way or the other, or equal. *)
Lemma ltb_cases a b : Js.ltb a b = true \/ a = b \/ Js.ltb b a = true.
Proof.
  revert b. induction a as [|x a IH]; intros [|y b]; simpl; auto.
  destruct (Z.ltb_spec (Js.code x) (Js.code y)), (Z.ltb_spec (Js.code y) (Js.code x));
    auto; try lia.
  assert (x = y) by (apply code_inj; lia). subst y.
  destruct (IH b) as [?|[->|?]]; auto.
Qed.

Lemma ltb_asym a b : Js.ltb a b = true -> Js.ltb b a = false.
Proof.
  intros H. destruct (Js.ltb b a) eqn:E; [|reflexivity].
  pose proof (ltb_trans _ _ _ H E) as C. rewrite ltb_irrefl in C. discriminate.
Qed.

(** [a <= b <= c] in the form "not greater". *)
Lemma nlt_trans a b c :
  Js.ltb b a = false -> Js.ltb c b = false -> Js.ltb c a = false.
Proof.
  intros Hab Hbc. destruct (Js.ltb c a) eqn:E; [|reflexivity].
  destruct (ltb_cases a b) as [H|[->|H]]; try congruence.
  pose proof (ltb_trans _ _ _ E H). congruence.
Qed.

Lemma strMin_l a b : Js.ltb a (strMin a b) = false.
Proof.
  unfold strMin. destruct (Js.ltb a b) eqn:E; [apply ltb_irrefl | exact E].
Qed.

Lemma strMin_r a b : Js.ltb b (strMin a b) = false.
Proof.
  unfold strMin. destruct (Js.ltb a b) eqn:E; [now apply ltb_asym | apply ltb_irrefl].
Qed.

Lemma strMin_cases a b : strMin a b = a \/ strMin a b = b.
Proof. unfold strMin. destruct (Js.ltb a b); auto. Qed.

End StringOrder.


(* --------------------------------------------------------------------- *)
(** ** Calendar dates as strings                                          *)
(* --------------------------------------------------------------------- *)

Section IsoStrings.
Import JsDate.

Lemma is_digit_code c : Js.is_digit c = true -> 48 <= Js.code c <= 57.
Proof.
  unfold Js.is_digit. cbv zeta. intros H. apply andb_prop in H as [H1 H2].
  apply Z.leb_le in H1, H2. lia.
Qed.

Lemma ascii_eqb_true c d : Ascii.eqb c d = true -> c = d.
Proof. apply Ascii.eqb_eq. Qed.

(** A string of the shape [YYYY-MM-DD], spelt out. *)
Lemma match_ymd_inv s y m d :
  match_ymd s = Some (y, m, d) ->
  exists y1 y2 y3 y4 m1 m2 d1 d2,
    s = String.string_of_list_ascii
          [y1; y2; y3; y4; "-"%char; m1; m2; "-"%char; d1; d2]
    /\ y = [y1; y2; y3; y4] /\ m = [m1; m2] /\ d = [d1; d2]
    /\ Forall (fun c => 48 <= Js.code c <= 57) [y1; y2; y3; y4; m1; m2; d1; d2].
Proof.
  unfold match_ymd. intros H.
  rewrite <- (String.string_of_list_ascii_of_string s).
  destruct (String.list_ascii_of_string s) as
    [|y1 [|y2 [|y3 [|y4 [|s1 [|m1 [|m2 [|s2 [|d1 [|d2 [|? ?]]]]]]]]]]];
    try discriminate.
  destruct (forallb Js.is_digit [y1; y2; y3; y4; m1; m2; d1; d2]
            && Ascii.eqb s1 "-" && Ascii.eqb s2 "-") eqn:E; [|discriminate].
  apply andb_prop in E as [E E2]. apply andb_prop in E as [E E1].
  apply ascii_eqb_true in E1, E2. subst s1 s2.
  injection H as <- <- <-.
  exists y1, y2, y3, y4, m1, m2, d1, d2. repeat split.
  rewrite forallb_forall in E.
  repeat constructor; apply is_digit_code, E; simpl; auto 10.
Qed.

Lemma code_dash : Js.code "-" = 45.
Proof. reflexivity. Qed.

Lemma DayFromYear_mono y1 y2 :
  y1 < y2 -> DayFromYear y1 + DaysInYear y1 <= DayFromYear y2.
Proof.
  intros H. rewrite <- DayFromYear_succ.
  unfold DayFromYear. Z.div_mod_to_equations. lia.
Qed.

Lemma monthStart_mono m1 m2 L :
  0 <= m1 -> m1 < m2 -> m2 <= 11 -> (L = 0 \/ L = 1) ->
  monthStart m1 L + daysInMonth m1 L <= monthStart m2 L.
Proof.
  intros H0 H1 H2 HL.
  assert (Hm1 : m1 = 0 \/ m1 = 1 \/ m1 = 2 \/ m1 = 3 \/ m1 = 4 \/ m1 = 5 \/ m1 = 6
                \/ m1 = 7 \/ m1 = 8 \/ m1 = 9 \/ m1 = 10) by lia.
  assert (Hm2 : m2 = 1 \/ m2 = 2 \/ m2 = 3 \/ m2 = 4 \/ m2 = 5 \/ m2 = 6
                \/ m2 = 7 \/ m2 = 8 \/ m2 = 9 \/ m2 = 10 \/ m2 = 11) by lia.
  repeat (destruct Hm1 as [->|Hm1]); try subst m1;
    repeat (destruct Hm2 as [->|Hm2]); try subst m2;
    cbn [monthStart daysInMonth]; lia.
Qed.

Lemma monthStart_year m L :
  0 <= m <= 11 -> (L = 0 \/ L = 1) ->
  0 <= monthStart m L /\ monthStart m L + daysInMonth m L <= 365 + L.
Proof.
  intros Hm HL.
  assert (Hc : m = 0 \/ m = 1 \/ m = 2 \/ m = 3 \/ m = 4 \/ m = 5 \/ m = 6
                \/ m = 7 \/ m = 8 \/ m = 9 \/ m = 10 \/ m = 11) by lia.
  repeat (destruct Hc as [->|Hc]); try subst m; cbn [monthStart daysInMonth]; lia.
Qed.

Lemma validateDate_inv y m d :
  validateDate y m d = true ->
  0 <= m <= 11 /\ 1 <= d <= daysInMonth m (leapDays y).
Proof.
  unfold validateDate. intros H.
  repeat (apply andb_prop in H as [H ?]).
  repeat match goal with H : (_ <=? _) = true |- _ => apply Z.leb_le in H end. lia.
Qed.

Lemma MakeDay_valid y m d :
  0 <= m <= 11 -> MakeDay y m d = DayFromYear y + monthStart m (leapDays y) + d - 1.
Proof.
  intros Hm. unfold MakeDay.
  rewrite (Z.div_small m 12), (Z.mod_small m 12), Z.add_0_r by lia. reflexivity.
Qed.

(** On valid dates, [MakeDay] is strictly increasing in year, month, day. *)
Lemma MakeDay_lex y1 m1 d1 y2 m2 d2 :
  validateDate y1 m1 d1 = true -> validateDate y2 m2 d2 = true ->
  (lexLt (y1, m1, d1) (y2, m2, d2) <-> MakeDay y1 m1 d1 < MakeDay y2 m2 d2).
Proof.
  intros V1 V2. apply validateDate_inv in V1 as [Hm1 Hd1], V2 as [Hm2 Hd2].
  rewrite !MakeDay_valid by assumption.
  pose proof (leapDays_01 y1) as HL1. pose proof (leapDays_01 y2) as HL2.
  pose proof (monthStart_year m1 _ Hm1 HL1) as Y1.
  pose proof (monthStart_year m2 _ Hm2 HL2) as Y2.
  unfold lexLt.
  destruct (Z.lt_trichotomy y1 y2) as [Hy|[Hy|Hy]].
  - pose proof (DayFromYear_mono _ _ Hy) as M. unfold DaysInYear in M. split; [lia|auto].
  - subst y2. destruct (Z.lt_trichotomy m1 m2) as [Hm|[Hm|Hm]].
    + pose proof (monthStart_mono m1 m2 _ ltac:(lia) Hm ltac:(lia) HL1). lia.
    + subst m2. lia.
    + pose proof (monthStart_mono m2 m1 _ ltac:(lia) Hm ltac:(lia) HL1). lia.
  - pose proof (DayFromYear_mono _ _ Hy) as M. unfold DaysInYear in M. lia.
Qed.

End IsoStrings.

Section IsoOrder.
Import JsDate.

Ltac split_codes :=
  repeat match goal with
  | |- context [Js.code ?a <? Js.code ?b] =>
      destruct (Z.ltb_spec (Js.code a) (Js.code b))
  end.

(** On two strings of the shape [YYYY-MM-DD], the order of strings is
    the order of (year, month, day). *)
Lemma ltb_ymd a1 a2 a3 a4 a5 a6 a7 a8 b1 b2 b3 b4 b5 b6 b7 b8 :
  Forall (fun c => 48 <= Js.code c <= 57)
    [a1; a2; a3; a4; a5; a6; a7; a8; b1; b2; b3; b4; b5; b6; b7; b8] ->
  Js.ltb (String.string_of_list_ascii [a1; a2; a3; a4; "-"%char; a5; a6; "-"%char; a7; a8])
         (String.string_of_list_ascii [b1; b2; b3; b4; "-"%char; b5; b6; "-"%char; b7; b8])
    = true
  <-> lexLt (Js.digits_val [a1; a2; a3; a4], Js.digits_val [a5; a6] - 1, Js.digits_val [a7; a8])
            (Js.digits_val [b1; b2; b3; b4], Js.digits_val [b5; b6] - 1, Js.digits_val [b7; b8]).
Proof.
  intros HF.
  repeat match goal with
  | H : Forall _ (_ :: _) |- _ => apply Forall_cons_1 in H as [? H]
  end.
  unfold lexLt, Js.digits_val, Js.digit_val. cbn [fold_left].
  cbn [String.string_of_list_ascii Js.ltb]. rewrite !code_dash, !Z.ltb_irrefl.
  split_codes; split; intros; try discriminate; try reflexivity; try lia;
    exfalso; lia.
Qed.

Lemma isoDay_inv s n :
  isoDay s = Some n ->
  exists y m d, match_ymd s = Some (y, m, d)
    /\ validateDate (Js.digits_val y) (Js.digits_val m - 1) (Js.digits_val d) = true
    /\ n = MakeDay (Js.digits_val y) (Js.digits_val m - 1) (Js.digits_val d).
Proof.
  unfold isoDay. destruct (match_ymd s) as [[[y m] d]|]; [|discriminate].
  destruct (validateDate _ _ _) eqn:V; [|discriminate].
  intros [= <-]. eauto 10.
Qed.

(** For two valid calendar dates, [<] on the strings is [<] on the days. *)
Lemma isoDay_ltb a b da db :
  isoDay a = Some da -> isoDay b = Some db ->
  (Js.ltb a b = true <-> da < db).
Proof.
  intros Ha Hb.
  apply isoDay_inv in Ha as (ya & ma & dda & Ma & Va & ->).
  apply isoDay_inv in Hb as (yb & mb & ddb & Mb & Vb & ->).
  apply match_ymd_inv in Ma as (a1&a2&a3&a4&a5&a6&a7&a8 & -> & -> & -> & -> & Fa).
  apply match_ymd_inv in Mb as (b1&b2&b3&b4&b5&b6&b7&b8 & -> & -> & -> & -> & Fb).
  rewrite <- (MakeDay_lex _ _ _ _ _ _ Va Vb).
  apply ltb_ymd. apply Forall_app_2 with (l1 := [a1; a2; a3; a4; a5; a6; a7; a8]); assumption.
Qed.

Lemma isoDay_nonempty s n : isoDay s = Some n -> s <> "".
Proof. intros H ->. discriminate. Qed.

End IsoOrder.

(* --------------------------------------------------------------------- *)
(** ** Progress updates                                                   *)
(* --------------------------------------------------------------------- *)

Section ProgressUpdate.

Lemma truthy_Some s : s <> "" -> Js.truthy (Some s) = true.
Proof.
  intros H. unfold Js.truthy. destruct (String.eqb_spec s ""); [contradiction|reflexivity].
Qed.

Lemma truthy_inv o : Js.truthy o = true -> exists s, o = Some s /\ s <> "".
Proof.
  destruct o as [s|]; simpl; [|discriminate].
  destruct (String.eqb_spec s ""); [discriminate|eauto].
Qed.

Ltac progress_cases p :=
  unfold progressUpdateData; cbv zeta;
  destruct (Z.eqb_spec p (-1)); try lia;
  destruct (Z.eqb_spec p 100); try lia;
  destruct (Z.eqb_spec p 0); try lia;
  destruct (Z.ltb_spec 0 p); try lia;
  cbn [orb negb u_status u_actualStartDate u_actualEndDate u_progress].

(** Status is a function of the stored progress and the flag. *)
Lemma progress_status task p d r :
  u_status (progressUpdateData task p d r) =
    if p =? 100 then Completed
    else if (0 <? p) || (p =? -1) then InProgress else NotStarted.
Proof.
  unfold progressUpdateData; cbv zeta; cbn [u_status].
  destruct (Z.eqb_spec p (-1)) as [->|]; [reflexivity|].
  destruct (Z.eqb_spec p 100); [reflexivity|].
  destruct (Z.ltb_spec 0 p); reflexivity.
Qed.

(** With work not yet started, a positive progress takes the plan start. *)
Lemma progress_unstarted_step task p d r :
  Js.truthy (actualStartDate task) = false -> 0 < p ->
  u_actualStartDate (progressUpdateData task p d r) = Some (planStartDate task).
Proof.
  intros Hs Hp. progress_cases p; rewrite Hs; reflexivity.
Qed.

(** With work started, a positive progress keeps the earlier of the
    recorded start and the update date. *)
Lemma progress_started_field task p d r a :
  actualStartDate task = Some a -> a <> "" -> 0 < p ->
  u_actualStartDate (progressUpdateData task p d r) =
    if Js.ltb d a then Some d else None.
Proof.
  intros Ha Hne Hp.
  progress_cases p; rewrite Ha, (truthy_Some a Hne); reflexivity.
Qed.

Lemma progress_started_step task p d r a :
  actualStartDate task = Some a -> a <> "" -> 0 < p ->
  actualStartDate (updateTask task (progressUpdateData task p d r)) = Some (strMin d a).
Proof.
  intros Ha Hne Hp. cbn [updateTask actualStartDate].
  rewrite (progress_started_field task p d r a Ha Hne Hp). unfold strMin.
  destruct (Js.ltb d a); [reflexivity | exact Ha].
Qed.

Lemma strMin_nonempty a b : a <> "" -> b <> "" -> strMin a b <> "".
Proof. unfold strMin. destruct (Js.ltb a b); auto. Qed.

(** Over a log of positive updates on a started task the recorded start
    is the least of the first start and the update dates. *)
Lemma progress_log_least log : forall task a,
  actualStartDate task = Some a -> a <> "" ->
  Forall (fun e : Z * string => 0 < fst e /\ snd e <> "") log ->
  exists r, actualStartDate (applyProgressLog task log) = Some r
            /\ r <> "" /\ leastOf r (a :: map snd log).
Proof.
  induction log as [|[p d] log IH]; intros task a Ha Hne HF.
  - exists a. repeat split; auto; [now left|].
    intros x [<-|[]]. apply ltb_irrefl.
  - apply Forall_cons_1 in HF as [[Hp Hd] HF]. cbn [fst snd] in Hp, Hd.
    unfold applyProgressLog. cbn [fold_left fst snd].
    pose proof (progress_started_step task p d "" a Ha Hne Hp) as Hstep.
    destruct (IH _ _ Hstep (strMin_nonempty _ _ Hd Hne) HF) as (r & Hr & Hrne & Hin & Hlow).
    exists r. split; [exact Hr|]. split; [exact Hrne|]. split.
    + destruct Hin as [Hin|Hin].
      * destruct (strMin_cases d a) as [E|E]; rewrite E in Hin; subst r;
          cbn [map snd]; [right; now left | now left].
      * cbn [map snd]. right; right; exact Hin.
    + intros x Hx. cbn [map snd] in Hx.
      assert (Hm : Js.ltb (strMin d a) r = false) by (apply Hlow; now left).
      destruct Hx as [<-|[<-|Hx]].
      * apply (nlt_trans r (strMin d a) a); [exact Hm | apply strMin_r].
      * apply (nlt_trans r (strMin d a) d); [exact Hm | apply strMin_l].
      * apply Hlow. now right.
Qed.

(** C1.  For a task whose actualStartDate is unset, handleProgressUpdate
    with 0 < progress < 100 sets the status to in-progress and defaults
    actualStartDate to the task's planStartDate.  For a task whose
    actualStartDate is set, an update with positive progress whose date
    precedes it pulls actualStartDate to the update date and any other date
    leaves it; the same holds when the two dates are read as calendar
    days.  Over any sequence of updates with positive progress,
    actualStartDate is the least of the first recorded start and the dates
    of the updates that follow it; for a task on which no work is recorded
    the first recorded start is its plan start, whatever the date of the
    first update.  An update with progress 0 clears a recorded
    actualStartDate, and the starting-work flag -1 sets it to the update
    date. *)
Theorem C1_progress_start_date
    (tasks : list Task) (taskId : string) (task : Task)
    (p : Z) (updateDate reason : string) :
  findTask tasks taskId = Some task ->
  let upd := progressUpdateData task p updateDate reason in
  let task' := updateTask task upd in
  handleProgressUpdate tasks taskId p updateDate reason = Some (taskId, upd)
  /\ (Js.truthy (actualStartDate task) = false -> 0 < p < 100 ->
        u_status upd = InProgress
        /\ u_actualStartDate upd = Some (planStartDate task)
        /\ status task' = InProgress
        /\ actualStartDate task' = Some (planStartDate task))
  /\ (forall a, actualStartDate task = Some a -> a <> "" -> 0 < p ->
        (Js.ltb updateDate a = true ->
           u_actualStartDate upd = Some updateDate
           /\ actualStartDate task' = Some updateDate)
        /\ (Js.ltb updateDate a = false ->
           u_actualStartDate upd = None /\ actualStartDate task' = Some a))
  /\ (forall a da du, actualStartDate task = Some a -> 0 < p ->
        isoDay a = Some da -> isoDay updateDate = Some du -> du < da ->
        actualStartDate task' = Some updateDate)
  /\ (forall a log, actualStartDate task = Some a -> a <> "" ->
        Forall (fun e : Z * string => 0 < fst e /\ snd e <> "") log ->
        exists r, actualStartDate (applyProgressLog task log) = Some r
                  /\ leastOf r (a :: map snd log))
  /\ (forall p0 d0 log, Js.truthy (actualStartDate task) = false ->
        planStartDate task <> "" -> 0 < p0 ->
        Forall (fun e : Z * string => 0 < fst e /\ snd e <> "") log ->
        exists r, actualStartDate (applyProgressLog task ((p0, d0) :: log)) = Some r
                  /\ leastOf r (planStartDate task :: map snd log))
  /\ (p = 0 -> status task' = NotStarted /\ actualStartDate task' = Some "")
  /\ (p = -1 -> status task' = InProgress /\ actualStartDate task' = Some updateDate).
Proof.
  intros Hfind upd task'. subst upd task'.
  split; [unfold handleProgressUpdate; now rewrite Hfind|].
  split; [|split; [|split; [|split; [|split; [|split]]]]].
  - intros Hs Hp.
    pose proof (progress_unstarted_step task p updateDate reason Hs ltac:(lia)) as Hf.
    pose proof (progress_status task p updateDate reason) as Hst.
    destruct (Z.eqb_spec p 100); [lia|].
    destruct (Z.ltb_spec 0 p); [|lia]. cbn [orb] in Hst.
    cbn [updateTask status actualStartDate]. rewrite Hf, Hst. auto.
  - intros a Ha Hne Hp.
    pose proof (progress_started_field task p updateDate reason a Ha Hne Hp) as Hf.
    cbn [updateTask actualStartDate]. rewrite Hf.
    split; intros ->; auto.
  - intros a da du Ha Hp Hda Hdu Hlt.
    rewrite (progress_started_step task p updateDate reason a Ha
               (isoDay_nonempty _ _ Hda) Hp).
    unfold strMin. now rewrite (proj2 (isoDay_ltb _ _ _ _ Hdu Hda) Hlt).
  - intros a log Ha Hne HF.
    destruct (progress_log_least log task a Ha Hne HF) as (r & Hr & _ & Hl). eauto.
  - intros p0 d0 log Hs Hplan Hp0 HF.
    pose proof (progress_unstarted_step task p0 d0 "" Hs Hp0) as Hf.
    change (applyProgressLog task ((p0, d0) :: log))
      with (applyProgressLog (updateTask task (progressUpdateData task p0 d0 "")) log).
    destruct (progress_log_least log
                (updateTask task (progressUpdateData task p0 d0 ""))
                (planStartDate task)) as (r & Hr & _ & Hl); [|exact Hplan|exact HF|eauto].
    cbn [updateTask actualStartDate]. now rewrite Hf.
  - intros ->. split; reflexivity.
  - intros ->. split; reflexivity.
Qed.

End ProgressUpdate.

Section ProgressWitnesses.

Lemma C1_progress_start_date_witness :
  (let upd := progressUpdateData sampleUnstarted 50 "2024-01-10" "" in
   handleProgressUpdate [sampleUnstarted] "t1" 50 "2024-01-10" "" = Some ("t1", upd)
   /\ u_status upd = InProgress
   /\ u_actualStartDate upd = Some "2024-01-01"
   /\ actualStartDate (updateTask sampleUnstarted upd) = Some "2024-01-01")
  /\ actualStartDate
       (updateTask sampleCompleted (progressUpdateData sampleCompleted 60 "2024-01-03" ""))
     = Some "2024-01-03"
  /\ exists r,
       actualStartDate
         (applyProgressLog sampleCompleted [(60, "2024-01-12"); (70, "2024-01-03"); (80, "2024-01-04")])
       = Some r
       /\ leastOf r ["2024-01-05"; "2024-01-12"; "2024-01-03"; "2024-01-04"].
Proof.
  pose proof (C1_progress_start_date [sampleUnstarted] "t1" sampleUnstarted 50
                "2024-01-10" "" eq_refl) as H1.
  pose proof (C1_progress_start_date [sampleCompleted] "t2" sampleCompleted 60
                "2024-01-03" "" eq_refl) as H2.
  cbv zeta in H1, H2.
  destruct H1 as (Hcall & Hunset & _).
  destruct H2 as (_ & _ & Hset & Hdays & Hlog & _).
  split; [|split].
  - destruct (Hunset eq_refl ltac:(lia)) as (Hs & Hf & _ & Ht). auto.
  - apply (Hdays "2024-01-05" 19727 19725 eq_refl ltac:(lia) eq_refl eq_refl ltac:(lia)).
  - apply (Hlog "2024-01-05"
             [(60, "2024-01-12"); (70, "2024-01-03"); (80, "2024-01-04")] eq_refl).
    + discriminate.
    + repeat constructor; cbn; try lia; discriminate.
Defined.

(** The claim C1 as it was stated fails in two places.  A recorded start
    is not pulled to an earlier update date when the progress is 0: it is
    cleared.  And the start is not the least of all the update dates: the
    first update of an unstarted task records the plan start, 2024-01-10
    here, whatever its own date, so after updates on 2024-01-05 and
    2024-01-08 the start is 2024-01-08, not 2024-01-05. *)
Lemma C1_start_not_least_update_date :
  (actualStartDate sampleCompleted = Some "2024-01-05"
   /\ Js.ltb "2024-01-03" "2024-01-05" = true
   /\ actualStartDate
        (updateTask sampleCompleted (progressUpdateData sampleCompleted 0 "2024-01-03" ""))
      = Some "")
  /\ (actualStartDate sampleLatePlan = None
      /\ actualStartDate (applyProgressLog sampleLatePlan [(50, "2024-01-05")])
         = Some "2024-01-10"
      /\ actualStartDate
           (applyProgressLog sampleLatePlan [(50, "2024-01-05"); (60, "2024-01-08")])
         = Some "2024-01-08"
      /\ Js.ltb "2024-01-05" "2024-01-08" = true
      /\ ~ leastOf "2024-01-08" ["2024-01-05"; "2024-01-08"]).
Proof.
  split; [repeat split; reflexivity|].
  repeat (split; [reflexivity|]).
  intros [_ Hleast]. specialize (Hleast "2024-01-05" (or_introl eq_refl)).
  vm_compute in Hleast. discriminate.
Qed.

(** C2, as stated, fails: regressing a completed task to progress 0
    clears actualStartDate although the update date does not precede
    it. *)
Lemma C2_regress_to_zero_clears_start :
  let task := sampleCompleted in
  let task' := updateTask task (progressUpdateData task 0 "2024-01-25" "") in
  status task = Completed /\ progress task = 100
  /\ actualStartDate task = Some "2024-01-05"
  /\ Js.ltb "2024-01-25" "2024-01-05" = false
  /\ status task' = NotStarted
  /\ actualStartDate task' = Some ""
  /\ actualStartDate task' <> actualStartDate task.
Proof. cbv zeta. repeat split; try reflexivity. discriminate. Qed.

(** C2 (amended).  After handleProgressUpdate with a non-empty update
    date: progress = 100 iff status = completed iff actualEndDate is set,
    and then it is the update date.  Moving to a progress other than 100
    leaves actualEndDate unset, clearing it where it was set.  With
    0 < progress < 100 the status is in-progress and a recorded
    actualStartDate becomes the earlier of itself and the update date.
    With progress 0 the status is not-started and actualStartDate is
    cleared; with the starting-work flag (-1) the stored progress is 0,
    the status in-progress and actualStartDate the update date. *)
Theorem C2_completion_invariant
    (tasks : list Task) (taskId : string) (task : Task)
    (p : Z) (updateDate reason : string) :
  findTask tasks taskId = Some task ->
  updateDate <> "" ->
  let upd := progressUpdateData task p updateDate reason in
  let task' := updateTask task upd in
  handleProgressUpdate tasks taskId p updateDate reason = Some (taskId, upd)
  /\ taskAfterProgressUpdate tasks taskId p updateDate reason = Some task'
  /\ (u_progress upd = 100 <-> u_status upd = Completed)
  /\ (u_status upd = Completed <-> u_actualEndDate upd = Some updateDate)
  /\ (progress task' = 100 <-> status task' = Completed)
  /\ (status task' = Completed <-> Js.truthy (actualEndDate task') = true)
  /\ (status task' = Completed -> actualEndDate task' = Some updateDate)
  /\ (p <> 100 -> Js.truthy (actualEndDate task) = true ->
        u_actualEndDate upd = Some "" /\ actualEndDate task' = Some "")
  /\ (0 < p < 100 ->
        status task' = InProgress
        /\ forall a, actualStartDate task = Some a -> a <> "" ->
             actualStartDate task' = Some (strMin updateDate a))
  /\ (p = 0 -> progress task' = 0 /\ status task' = NotStarted
               /\ actualStartDate task' = Some "")
  /\ (p = -1 -> progress task' = 0 /\ status task' = InProgress
                /\ actualStartDate task' = Some updateDate).
Proof.
  intros Hfind Hd upd task'. subst upd task'.
  split; [unfold handleProgressUpdate; now rewrite Hfind|].
  split; [unfold taskAfterProgressUpdate; now rewrite Hfind|].
  assert (Hend : u_actualEndDate (progressUpdateData task p updateDate reason) =
                 if p =? 100 then Some updateDate
                 else if Js.truthy (actualEndDate task) then Some "" else None).
  { unfold progressUpdateData; cbv zeta; cbn [u_actualEndDate].
    destruct (Z.eqb_spec p (-1)) as [->|]; reflexivity. }
  assert (Hprog : u_progress (progressUpdateData task p updateDate reason) =
                  if p =? -1 then 0 else p) by reflexivity.
  pose proof (progress_status task p updateDate reason) as Hst.
  cbn [updateTask progress status actualEndDate actualStartDate].
  rewrite Hend, Hst, Hprog.
  destruct (Z.eqb_spec p 100) as [->|Hp100].
  - cbn -[Js.truthy]. rewrite (truthy_Some _ Hd).
    repeat split; auto; try discriminate; try lia.
  - assert (Hns : (if (0 <? p) || (p =? -1) then InProgress else NotStarted) <> Completed)
      by (destruct ((0 <? p) || (p =? -1)); discriminate).
    assert (Hne : Js.truthy
              match (if Js.truthy (actualEndDate task) then Some "" else None) with
              | Some v => Some v | None => actualEndDate task end = false).
    { destruct (Js.truthy (actualEndDate task)) eqn:E; [reflexivity | exact E]. }
    assert (Hp : (if p =? -1 then 0 else p) <> 100)
      by (destruct (Z.eqb_spec p (-1)); lia).
    refine (conj _ (conj _ (conj _ (conj _ (conj _ (conj _ (conj _ (conj _ _)))))))).
    + split; intros E; exfalso; auto.
    + split; intros E; exfalso; auto.
      destruct (Js.truthy (actualEndDate task)); [|discriminate].
      injection E as E. congruence.
    + split; intros E; exfalso; auto.
    + split; intros E; exfalso; auto. congruence.
    + intros E. exfalso; auto.
    + intros _ ->. split; reflexivity.
    + intros Hr. split.
      * destruct (Z.ltb_spec 0 p); [reflexivity | lia].
      * intros a Ha Hane.
        apply (progress_started_step task p updateDate reason a Ha Hane). lia.
    + intros ->. repeat split; reflexivity.
    + intros ->. repeat split; reflexivity.
Qed.

Lemma C2_completion_invariant_witness :
  let task := sampleCompleted in
  let task' := updateTask task (progressUpdateData task 60 "2024-01-25" "") in
  taskAfterProgressUpdate [sampleUnstarted; task] "t2" 60 "2024-01-25" "" = Some task'
  /\ status task' = InProgress
  /\ actualEndDate task' = Some ""
  /\ actualStartDate task' = Some "2024-01-05".
Proof.
  cbv zeta.
  destruct (C2_completion_invariant [sampleUnstarted; sampleCompleted] "t2" sampleCompleted
              60 "2024-01-25" "" eq_refl ltac:(discriminate))
    as (_ & Hafter & _ & _ & _ & _ & _ & Hclear & Hmid & _).
  destruct (Hmid ltac:(lia)) as [Hs Hstart].
  destruct (Hclear ltac:(lia) eq_refl) as [_ He].
  split; [exact Hafter|]. split; [exact Hs|]. split; [exact He|].
  apply (Hstart "2024-01-05" eq_refl). discriminate.
Defined.

End ProgressWitnesses.

(* --------------------------------------------------------------------- *)
(** ** S-curve coordinates                                                *)
(* --------------------------------------------------------------------- *)

Section SCurve.
Import JsDate.

(** [differenceInDays] is the difference of the time values in days,
    truncated toward zero. *)
Lemma differenceInDays_quot a b :
  inner a -> inner b ->
  differenceInDays (Some a) (Some b) = Some (wholeDays a b).
Proof.
  unfold inner, wholeDays. intros Ha Hb.
  unfold differenceInDays. cbv zeta. f_equal.
  replace (getDate a - compareLocalAsc a b * Z.abs (differenceInCalendarDays a b))
    with (getDate a + - (compareLocalAsc a b * Z.abs (differenceInCalendarDays a b)))
    by lia.
  rewrite setDate_shift.
  unfold compareLocalAsc, differenceInCalendarDays, sign.
  pose proof (MakeDate_Day a) as Ea. pose proof (MakeDate_Day b) as Eb.
  pose proof (TimeWithinDay_range a) as Ra. pose proof (TimeWithinDay_range b) as Rb.
  unfold MakeDate in Ea, Eb.
  set (da := Day a) in *. set (db := Day b) in *.
  set (ta := TimeWithinDay a) in *. set (tb := TimeWithinDay b) in *.
  clearbody da db ta tb.
  unfold maxTime, msPerDay in *.
  destruct (Z.ltb_spec (a - b) 0) as [Hlt|Hge].
  - (* a before b *)
    assert (Hd : da <= db) by lia.
    rewrite (Z.abs_neq (da - db)) by lia.
    rewrite TimeClip_Some by (unfold maxTime; nia).
    replace (a + - (-1 * - (da - db)) * 86400000 - b) with (ta - tb) by lia.
    rewrite <- (Z.opp_involutive (a - b)), Z.quot_opp_l by lia.
    rewrite Z.quot_div_nonneg by lia.
    destruct (Z.ltb_spec (ta - tb) 0), (Z.ltb_spec 0 (ta - tb)); simpl;
      Z.div_mod_to_equations; lia.
  - destruct (Z.ltb_spec 0 (a - b)) as [Hgt|Heq].
    + assert (Hd : db <= da) by lia.
      rewrite (Z.abs_eq (da - db)) by lia.
      rewrite TimeClip_Some by (unfold maxTime; nia).
      replace (a + - (1 * (da - db)) * 86400000 - b) with (ta - tb) by lia.
      rewrite Z.quot_div_nonneg by lia.
      destruct (Z.ltb_spec (ta - tb) 0), (Z.ltb_spec 0 (ta - tb)); simpl;
        Z.div_mod_to_equations; lia.
    + replace (a - b) with 0 by lia. reflexivity.
Qed.

End SCurve.

Section SCurveMapping.
Import JsDate.

Lemma wholeDays_midnight dd ds :
  wholeDays (dd * msPerDay) (ds * msPerDay) = dd - ds.
Proof.
  unfold wholeDays. replace (dd * msPerDay - ds * msPerDay) with ((dd - ds) * msPerDay) by lia.
  apply Z.quot_mul. unfold msPerDay. lia.
Qed.

(** C3.  For a date d and a timeline start s, getX returns
    (d - s in whole days) * cellWidth at day zoom, that number of days over
    7 times cellWidth at week zoom and over 30.44 times cellWidth at month
    zoom: at each zoom level the value of the Coordinate Mapper contract
    dateToX.  The whole days are the difference of the two time values
    truncated toward zero, which between two midnights is the difference
    of the day numbers. *)
Theorem C3_getX_coordinate_mapper
    (cellWidth : Q) (items : list JsDate.t) (rangeStart : JsDate.t) (s d : Z) :
  timelineStart items rangeStart = Some s -> inner s -> inner d ->
  let start := timelineStart items rangeStart in
  let days := (d - s) ÷ msPerDay in
  getX "day" cellWidth start (Some d) = Some (inject_Z days * cellWidth)%Q
  /\ getX "week" cellWidth start (Some d) = Some (inject_Z days / 7 * cellWidth)%Q
  /\ getX "month" cellWidth start (Some d) = Some (inject_Z days / (3044 # 100) * cellWidth)%Q
  /\ (forall zoom, getX (zoomName zoom) cellWidth start (Some d)
                   = Some (dateToX d s zoom cellWidth))
  /\ ((3044 # 100) == 30 + 44 / 100)%Q
  /\ (forall dd ds, d = dd * msPerDay -> s = ds * msPerDay -> days = dd - ds).
Proof.
  intros Hs Is Id start days. subst start days. rewrite Hs.
  unfold getX. rewrite (differenceInDays_quot d s Id Is). unfold wholeDays.
  repeat split; try reflexivity.
  - intros [| |]; reflexivity.
  - intros dd ds -> ->. apply wholeDays_midnight.
Qed.

Lemma C3_getX_coordinate_mapper_witness :
  let s := 19723 * msPerDay in           (* 2024-01-01 *)
  let d := 19737 * msPerDay in           (* 2024-01-15 *)
  getX "day" 40 (timelineStart [Some s] None) (Some d) = Some (inject_Z 14 * 40)%Q
  /\ getX "week" 40 (timelineStart [Some s] None) (Some d) = Some (inject_Z 14 / 7 * 40)%Q
  /\ getX "month" 40 (timelineStart [Some s] None) (Some d)
     = Some (inject_Z 14 / (3044 # 100) * 40)%Q.
Proof.
  cbv zeta.
  destruct (C3_getX_coordinate_mapper 40 [Some (19723 * msPerDay)] None
              (19723 * msPerDay) (19737 * msPerDay) eq_refl)
    as (Hd & Hw & Hm & _).
  - unfold inner, maxTime, msPerDay. lia.
  - unfold inner, maxTime, msPerDay. lia.
  - split; [exact Hd|]. split; [exact Hw | exact Hm].
Defined.

End SCurveMapping.

(* --------------------------------------------------------------------- *)
(** ** Timeline header                                                    *)
(* --------------------------------------------------------------------- *)

Section HeaderWidths.

Context {A B : Type} (rel : B -> A -> bool).

Lemma sumZ_cons x l : sumZ (x :: l) = x + sumZ l.
Proof. reflexivity. Qed.

Lemma sum_zeros (groups : list B) : sumZ (map (fun _ => 0) groups) = 0.
Proof.
  induction groups as [|g groups IH]; [reflexivity|].
  cbn [map]. rewrite sumZ_cons, IH. reflexivity.
Qed.

(** Counting the related pairs by rows or by columns gives the same. *)
Lemma count_pairs (items : list A) (groups : list B) :
  sumZ (map (fun g => Z.of_nat (length (List.filter (rel g) items))) groups)
  = sumZ (map (fun i => Z.of_nat (length (List.filter (fun g => rel g i) groups))) items).
Proof.
  induction items as [|i items IH].
  - cbn [List.filter length Z.of_nat map]. apply sum_zeros.
  - cbn [map]. rewrite sumZ_cons, <- IH. clear IH.
    induction groups as [|g groups IHg]; [reflexivity|].
    cbn [map]. rewrite !sumZ_cons, IHg. cbn [List.filter].
    destruct (rel g i); cbn [length]; lia.
Qed.

Lemma sum_scaled (f : B -> Z) (c : Z) (groups : list B) :
  sumZ (map (fun g => f g * c) groups) = sumZ (map f groups) * c.
Proof.
  induction groups as [|g groups IH]; [reflexivity|].
  cbn [map]. rewrite !sumZ_cons, IH. lia.
Qed.

Lemma sum_ones (items : list A) (f : A -> Z) :
  (forall i, In i items -> f i = 1) -> sumZ (map f items) = Z.of_nat (length items).
Proof.
  induction items as [|i items IH]; intros H; [reflexivity|].
  cbn [map length]. rewrite sumZ_cons, (H i) by now left.
  rewrite IH by (intros; apply H; now right). lia.
Qed.

End HeaderWidths.

Section Header.

(** C4.  At day, week and month zoom the header width of a group is the
    number of timeline items that belong to it times cellWidth, where an
    item belongs to a group at day and week zoom when it has the group's
    month and year and at month zoom when it has the group's year.  When
    every item belongs to exactly one group, the widths of the groups add
    up to items.length * cellWidth. *)
Theorem C4_group_widths
    (zoom : Zoom) (items groups : list JsDate.t) (cellWidth : Z) :
  let vm := zoomName zoom in
  (forall g, groupWidth vm items cellWidth g
             = Z.of_nat (length (List.filter (belongsTo vm g) items)) * cellWidth)
  /\ (forall g item, belongsTo vm g item =
        match zoom with
        | ZoomMonth => sameYear item g
        | _ => sameMonth item g && sameYear item g
        end)
  /\ ((forall item, In item items ->
         length (List.filter (fun g => belongsTo vm g item) groups) = 1%nat) ->
      sumZ (groupWidths vm items groups cellWidth)
      = Z.of_nat (length items) * cellWidth).
Proof.
  intros vm. subst vm.
  assert (Hw : forall g, groupWidth (zoomName zoom) items cellWidth g
             = Z.of_nat (length (List.filter (belongsTo (zoomName zoom) g) items)) * cellWidth).
  { intros g. destruct zoom; reflexivity. }
  split; [exact Hw|]. split.
  - intros g item. destruct zoom; reflexivity.
  - intros Hone. unfold groupWidths.
    rewrite (map_ext _ _ Hw).
    rewrite (sum_scaled (fun g => Z.of_nat (length (List.filter (belongsTo (zoomName zoom) g) items)))).
    rewrite (count_pairs (belongsTo (zoomName zoom))).
    rewrite sum_ones; [reflexivity|].
    intros i Hi. now rewrite (Hone i Hi).
Qed.

Lemma C4_group_widths_witness :
  let day n := Some (n * JsDate.msPerDay) in
  (* 2024-01-30 .. 2024-02-02 under the groups January and February 2024 *)
  let items := [day 19752; day 19753; day 19754; day 19755] in
  let groups := [day 19723; day 19754] in
  groupWidths "day" items groups 40 = [80; 80]
  /\ sumZ (groupWidths "day" items groups 40) = 4 * 40.
Proof.
  cbv zeta.
  destruct (C4_group_widths ZoomDay
              [Some (19752 * JsDate.msPerDay); Some (19753 * JsDate.msPerDay);
               Some (19754 * JsDate.msPerDay); Some (19755 * JsDate.msPerDay)]
              [Some (19723 * JsDate.msPerDay); Some (19754 * JsDate.msPerDay)] 40)
    as (_ & _ & Hsum).
  split; [vm_compute; reflexivity|].
  apply Hsum. intros item Hin.
  repeat (destruct Hin as [<-|Hin]; [vm_compute; reflexivity|]). destruct Hin.
Defined.

End Header.

(* --------------------------------------------------------------------- *)
(** ** Formatting a date and reading it back                              *)
(* --------------------------------------------------------------------- *)

Section FormatRoundTrip.
Import JsDate.

Lemma below_by_check (P : Z -> bool) (bound : Z) :
  forallb (fun k => P (Z.of_nat k)) (seq 0 (Z.to_nat bound)) = true ->
  forall n, 0 <= n < bound -> P n = true.
Proof.
  intros H n Hn. rewrite forallb_forall in H.
  rewrite <- (Z2Nat.id n) by lia. apply H. apply in_seq. lia.
Qed.

Lemma addLeadingZeros_4 n :
  0 <= n < 10000 -> addLeadingZeros n 4 = String.string_of_list_ascii (digits4 n).
Proof.
  intros Hn. apply String.eqb_eq.
  apply (below_by_check
           (fun n => String.eqb (addLeadingZeros n 4) (String.string_of_list_ascii (digits4 n)))
           10000); [vm_compute; reflexivity | lia].
Qed.

Lemma addLeadingZeros_2 n :
  0 <= n < 100 -> addLeadingZeros n 2 = String.string_of_list_ascii (digits2 n).
Proof.
  intros Hn. apply String.eqb_eq.
  apply (below_by_check
           (fun n => String.eqb (addLeadingZeros n 2) (String.string_of_list_ascii (digits2 n)))
           100); [vm_compute; reflexivity | lia].
Qed.

Lemma digit_char_ok k :
  0 <= k <= 9 ->
  Js.is_digit (Js.digit_char k) = true /\ Js.digit_val (Js.digit_char k) = k.
Proof.
  intros Hk.
  assert (Hc : k = 0 \/ k = 1 \/ k = 2 \/ k = 3 \/ k = 4 \/ k = 5 \/ k = 6 \/ k = 7
               \/ k = 8 \/ k = 9) by lia.
  repeat (destruct Hc as [->|Hc]; [split; reflexivity|]). subst k. split; reflexivity.
Qed.

Lemma digits4_ok n :
  0 <= n < 10000 ->
  forallb Js.is_digit (digits4 n) = true /\ Js.digits_val (digits4 n) = n.
Proof.
  intros Hn. unfold digits4, Js.digits_val. cbn [forallb fold_left].
  destruct (digit_char_ok (n / 1000 mod 10)) as [-> ->]; [Z.div_mod_to_equations; lia|].
  destruct (digit_char_ok (n / 100 mod 10)) as [-> ->]; [Z.div_mod_to_equations; lia|].
  destruct (digit_char_ok (n / 10 mod 10)) as [-> ->]; [Z.div_mod_to_equations; lia|].
  destruct (digit_char_ok (n mod 10)) as [-> ->]; [Z.div_mod_to_equations; lia|].
  split; [reflexivity|]. Z.div_mod_to_equations. lia.
Qed.

Lemma digits2_ok n :
  0 <= n < 100 ->
  forallb Js.is_digit (digits2 n) = true /\ Js.digits_val (digits2 n) = n.
Proof.
  intros Hn. unfold digits2, Js.digits_val. cbn [forallb fold_left].
  destruct (digit_char_ok (n / 10 mod 10)) as [-> ->]; [Z.div_mod_to_equations; lia|].
  destruct (digit_char_ok (n mod 10)) as [-> ->]; [Z.div_mod_to_equations; lia|].
  split; [reflexivity|]. Z.div_mod_to_equations. lia.
Qed.

Lemma daysInMonth_le31 m L : (L = 0 \/ L = 1) -> daysInMonth m L <= 31.
Proof.
  intros HL. unfold daysInMonth.
  repeat match goal with |- context [match ?x with _ => _ end] => destruct x end; lia.
Qed.

(** For the years 1 to 9999, the formatted date is a calendar date
    string that denotes the day it was made from. *)
Lemma format_isoDay tv :
  1 <= getFullYear tv <= 9999 ->
  exists s, format_ymd (Some tv) = Some s /\ isoDay s = Some (Day tv)
            /\ match_ymd s = Some (digits4 (getFullYear tv), digits2 (getMonth tv + 1),
                                   digits2 (getDate tv)).
Proof.
  intros Hy. unfold format_ymd.
  destruct (Z.ltb_spec 0 (getFullYear tv)); [|lia].
  assert (Hm : 0 <= getMonth tv <= 11) by apply MonthFromDay_range.
  assert (Hd : 1 <= getDate tv <= daysInMonth (getMonth tv) (leapDays (getFullYear tv)))
    by apply DateFromDay_range.
  pose proof (daysInMonth_le31 (getMonth tv) _ (leapDays_01 (getFullYear tv))) as H31.
  rewrite addLeadingZeros_4, (addLeadingZeros_2 (getMonth tv + 1)),
    (addLeadingZeros_2 (getDate tv)) by lia.
  eexists. split; [reflexivity|].
  destruct (digits4_ok (getFullYear tv)) as [F4 V4]; [lia|].
  destruct (digits2_ok (getMonth tv + 1)) as [Fm Vm]; [lia|].
  destruct (digits2_ok (getDate tv)) as [Fd Vd]; [lia|].
  assert (M : match_ymd
    (String.string_of_list_ascii (digits4 (getFullYear tv)) +:+ "-" +:+
     String.string_of_list_ascii (digits2 (getMonth tv + 1)) +:+ "-" +:+
     String.string_of_list_ascii (digits2 (getDate tv)))
    = Some (digits4 (getFullYear tv), digits2 (getMonth tv + 1), digits2 (getDate tv))).
  { change (String.string_of_list_ascii (digits4 (getFullYear tv)) +:+ "-" +:+
            String.string_of_list_ascii (digits2 (getMonth tv + 1)) +:+ "-" +:+
            String.string_of_list_ascii (digits2 (getDate tv)))
      with (String.string_of_list_ascii
              (digits4 (getFullYear tv) ++ "-"%char :: digits2 (getMonth tv + 1)
               ++ "-"%char :: digits2 (getDate tv))).
    unfold match_ymd. rewrite String.list_ascii_of_string_of_list_ascii.
    unfold digits4, digits2 in *. cbn [app].
    cbn [forallb] in F4, Fm, Fd |- *.
    repeat match goal with H : _ && _ = true |- _ => apply andb_prop in H as [? H] end.
    repeat match goal with H : Js.is_digit _ = true |- _ => rewrite H; clear H end.
    reflexivity. }
  split; [|exact M].
  unfold isoDay. rewrite M, V4, Vm, Vd.
  replace (getMonth tv + 1 - 1) with (getMonth tv) by lia.
  assert (V : validateDate (getFullYear tv) (getMonth tv) (getDate tv) = true).
  { unfold validateDate.
    repeat (apply andb_true_intro; split); apply Z.leb_le; lia. }
  rewrite V. f_equal.
  unfold getFullYear, getMonth, getDate.
  rewrite <- (Z.add_0_r (DateFromDay (Day tv))), MakeDay_fields. lia.
Qed.

Lemma DayFromYear_le y1 y2 : y1 <= y2 -> DayFromYear y1 <= DayFromYear y2.
Proof. intros H. unfold DayFromYear. Z.div_mod_to_equations. lia. Qed.

(** Days from 0001-01-01 to 9999-12-31 have a year from 1 to 9999. *)
Lemma year_in_era d :
  -719162 <= d <= 2932896 -> 1 <= YearFromDay d <= 9999.
Proof.
  intros Hd. pose proof (YearFromDay_spec d) as [Hlo Hhi].
  assert (E1 : DayFromYear 1 = -719162) by reflexivity.
  assert (E2 : DayFromYear 10000 = 2932897) by reflexivity.
  split.
  - destruct (Z_lt_le_dec (YearFromDay d) 1) as [Hc|]; [|assumption].
    pose proof (DayFromYear_le (YearFromDay d + 1) 1 ltac:(lia)). lia.
  - destruct (Z_lt_le_dec 9999 (YearFromDay d)) as [Hc|]; [|assumption].
    pose proof (DayFromYear_le 10000 (YearFromDay d) ltac:(lia)). lia.
Qed.

(** Reading a formatted date back gives midnight of the same day. *)
Lemma parseISO_format other tv :
  -719162 <= Day tv <= 2932896 ->
  exists s, format_ymd (Some tv) = Some s
            /\ isoDay s = Some (Day tv)
            /\ JsDate.parseISO other s = Some (MakeDate (Day tv) 0).
Proof.
  intros Hd. destruct (format_isoDay tv (year_in_era _ Hd)) as (s & Hs & Hi & Hm).
  exists s. split; [exact Hs|]. split; [exact Hi|].
  unfold isoDay in Hi. unfold JsDate.parseISO. rewrite Hm in *.
  destruct (validateDate _ _ _); [|discriminate].
  injection Hi as ->. apply TimeClip_Some. unfold MakeDate, maxTime, msPerDay. lia.
Qed.

(** A calendar date string is parsed to midnight of the day it denotes. *)
Lemma parseISO_isoDay other s n :
  isoDay s = Some n -> -100000000 <= n <= 100000000 ->
  JsDate.parseISO other s = Some (MakeDate n 0).
Proof.
  unfold isoDay, JsDate.parseISO. intros H Hn.
  destruct (match_ymd s) as [[[y m] d]|]; [|discriminate].
  destruct (validateDate _ _ _); [|discriminate].
  injection H as ->. apply TimeClip_Some. unfold MakeDate, maxTime, msPerDay. lia.
Qed.

End FormatRoundTrip.

(* --------------------------------------------------------------------- *)
(** ** The four-week window                                               *)
(* --------------------------------------------------------------------- *)

Section FourWeekWindow.
Import JsDate.

Lemma WeekDay_range d : 0 <= WeekDay d <= 6.
Proof. unfold WeekDay. Z.div_mod_to_equations. lia. Qed.

(** [startOfWeek] with weeks starting on Monday: midnight of the Monday
    on or before the date. *)
Lemma startOfWeek_monday tv :
  - maxTime + 7 * msPerDay <= tv <= maxTime ->
  exists s, startOfWeek (Some tv) 1 = Some (MakeDate s 0)
            /\ WeekDay s = 1 /\ s <= Day tv <= s + 6.
Proof.
  intros Hr. unfold startOfWeek, getDay.
  pose proof (WeekDay_range (Day tv)) as Hw.
  set (diff := (if WeekDay (Day tv) <? 1 then 7 else 0) + WeekDay (Day tv) - 1).
  assert (Hdiff : 0 <= diff <= 6 /\ (Day tv - diff + 4) mod 7 = 1).
  { subst diff. unfold WeekDay in *.
    destruct (Z.ltb_spec ((Day tv + 4) mod 7) 1); Z.div_mod_to_equations; lia. }
  destruct Hdiff as [Hd Hmon].
  replace (getDate tv - diff) with (getDate tv + - diff) by lia.
  rewrite setDate_shift.
  rewrite TimeClip_Some by (unfold maxTime, msPerDay in *; lia).
  assert (HD : Day (tv + - diff * msPerDay) = Day tv - diff).
  { unfold Day, msPerDay. Z.div_mod_to_equations. lia. }
  exists (Day tv - diff).
  unfold setHours. cbn [Z.mul Z.add]. rewrite HD.
  rewrite TimeClip_Some.
  - unfold WeekDay. repeat split; [exact Hmon | lia | lia].
  - pose proof (MakeDate_Day tv) as E. pose proof (TimeWithinDay_range tv) as R.
    unfold MakeDate, maxTime, msPerDay in *. lia.
Qed.

(** [endOfWeek] with weeks starting on Monday: the last millisecond of
    the Sunday on or after the date. *)
Lemma endOfWeek_sunday tv :
  - maxTime <= tv <= maxTime - 7 * msPerDay ->
  exists e, endOfWeek (Some tv) 1 = Some (MakeDate e (msPerDay - 1))
            /\ WeekDay e = 0 /\ e - 6 <= Day tv <= e.
Proof.
  intros Hr. unfold endOfWeek, getDay.
  pose proof (WeekDay_range (Day tv)) as Hw.
  set (diff := (if WeekDay (Day tv) <? 1 then -7 else 0) + 6 - (WeekDay (Day tv) - 1)).
  assert (Hdiff : 0 <= diff <= 6 /\ (Day tv + diff + 4) mod 7 = 0).
  { subst diff. unfold WeekDay in *.
    destruct (Z.ltb_spec ((Day tv + 4) mod 7) 1); Z.div_mod_to_equations; lia. }
  destruct Hdiff as [Hd Hsun].
  rewrite setDate_shift.
  rewrite TimeClip_Some by (unfold maxTime, msPerDay in *; lia).
  assert (HD : Day (tv + diff * msPerDay) = Day tv + diff).
  { unfold Day, msPerDay. Z.div_mod_to_equations. lia. }
  exists (Day tv + diff).
  unfold setHours. rewrite HD.
  change (((23 * 60 + 59) * 60 + 59) * 1000 + 999) with (msPerDay - 1).
  rewrite TimeClip_Some.
  - unfold WeekDay. repeat split; [exact Hsun | lia | lia].
  - pose proof (MakeDate_Day tv) as E. pose proof (TimeWithinDay_range tv) as R.
    unfold MakeDate, maxTime, msPerDay in *. lia.
Qed.

Lemma Day_shift tv k : Day (tv + k * msPerDay) = Day tv + k.
Proof. unfold Day, msPerDay. Z.div_mod_to_equations. lia. Qed.

(** C9.  In the four-week window the view mode that the effect leaves
    is day, whatever was selected, and day is the only allowed mode.  The
    range starts at the Monday of the week that holds the day one week
    before today and ends at the Sunday of the week that holds the day two
    weeks after today, four whole weeks from Monday to Sunday; its two
    strings are the formatted dates of that Monday and Sunday, and the
    effective range is this one whatever the selected project's dates
    are.  The clock is taken between 1970 and the year 9998. *)
Theorem C9_four_week_window (h : Host) :
  clockInEra h ->
  (forall chartViewMode, viewModeEffect FourWeeks chartViewMode = "day")
  /\ allowedViewModes FourWeeks = ["day"]
  /\ exists s e startStr endStr,
       fourWeekStart h = Some (MakeDate s 0)
       /\ fourWeekEnd h = Some (MakeDate e (msPerDay - 1))
       /\ WeekDay s = 1 /\ s <= Day (now h) - 7 <= s + 6
       /\ WeekDay e = 0 /\ e - 6 <= Day (now h) + 14 <= e
       /\ e = s + 27
       /\ fourWeekRange h = Some {| startDate := startStr; endDate := endStr |}
       /\ isoDay startStr = Some s /\ isoDay endStr = Some e
       /\ forall selectedProject,
            effectiveStartDate FourWeeks {| startDate := startStr; endDate := endStr |}
              selectedProject = Some startStr
            /\ effectiveEndDate FourWeeks {| startDate := startStr; endDate := endStr |}
                 selectedProject = Some endStr.
Proof.
  unfold clockInEra. intros Hc.
  split.
  { intros m. unfold viewModeEffect. destruct (String.eqb_spec m "day"); cbn; auto. }
  split; [reflexivity|].
  unfold fourWeekRange, fourWeekStart, fourWeekEnd, subWeeks, addWeeks.
  rewrite !addDays_spec by (unfold maxTime; lia).
  rewrite !TimeClip_Some by (unfold maxTime, msPerDay; lia).
  destruct (startOfWeek_monday (now h + - (1) * 7 * msPerDay)) as (s & Hs & Hsw & Hsr);
    [unfold maxTime, msPerDay; lia|].
  destruct (endOfWeek_sunday (now h + 2 * 7 * msPerDay)) as (e & He & Hew & Her);
    [unfold maxTime, msPerDay; lia|].
  rewrite Hs, He.
  replace (- (1) * 7) with (-7) in Hsr by lia. replace (2 * 7) with 14 in Her by lia.
  rewrite Day_shift in Hsr, Her.
  assert (Hnow : 0 <= Day (now h) <= 2932531).
  { unfold Day, msPerDay. Z.div_mod_to_equations. lia. }
  destruct (parseISO_format (parseISO_other h) (MakeDate s 0)) as (ss & Hfs & His & _).
  { rewrite Day_MakeDate by (unfold msPerDay; lia). lia. }
  destruct (parseISO_format (parseISO_other h) (MakeDate e (msPerDay - 1))) as (es & Hfe & Hie & _).
  { rewrite Day_MakeDate by (unfold msPerDay; lia). lia. }
  rewrite Day_MakeDate in His, Hie by (unfold msPerDay; lia).
  exists s, e, ss, es. rewrite Hfs, Hfe.
  repeat split; auto; try lia.
  unfold WeekDay in Hsw, Hew. Z.div_mod_to_equations. lia.
Qed.

Lemma C9_four_week_window_witness :
  (* the clock reads Wednesday 2024-01-17, 10:00 *)
  let h := sampleHost in
  viewModeEffect FourWeeks "month" = "day"
  /\ fourWeekRange h = Some {| startDate := "2024-01-08"; endDate := "2024-02-04" |}
  /\ WeekDay 19730 = 1 /\ WeekDay 19757 = 0.
Proof.
  cbv zeta.
  destruct (C9_four_week_window sampleHost) as (Hv & _ & s & e & ss & es & Hs & He & H).
  - unfold clockInEra. cbn. lia.
  - split; [apply Hv|]. split; [vm_compute; reflexivity|]. split; reflexivity.
Defined.

End FourWeekWindow.

(* --------------------------------------------------------------------- *)
(** ** Adding a subtask                                                   *)
(* --------------------------------------------------------------------- *)

Section AddSubTask.
Import JsDate.

Lemma or_default_empty o : Js.or_default o "" = default "" o.
Proof.
  destruct o as [s|]; cbn; [|reflexivity].
  destruct (String.eqb_spec s ""); congruence.
Qed.

Lemma today_Some h : exists s, today h = Some s.
Proof. unfold today, format_ymd. eauto. Qed.

(** The fold keeps the greatest end date seen, in the order of strings. *)
Lemma fold_max_end (l : list Task) : forall acc,
  let m := fold_left (fun acc t => if Js.gtb (planEndDate t) acc then planEndDate t else acc)
                     l acc in
  (m = acc \/ In m (map planEndDate l))
  /\ Js.ltb m acc = false
  /\ forall t, In t l -> Js.ltb m (planEndDate t) = false.
Proof.
  induction l as [|t l IH]; intros acc; cbn [fold_left map].
  - cbv zeta. split; [now left|]. split; [apply ltb_irrefl|]. intros ? [].
  - cbv zeta.
    set (acc' := if Js.gtb (planEndDate t) acc then planEndDate t else acc).
    destruct (IH acc') as (Hin & Hacc & Hall). cbv zeta in Hin, Hacc, Hall.
    assert (Ha : Js.ltb acc' acc = false /\ Js.ltb acc' (planEndDate t) = false
                 /\ (acc' = acc \/ acc' = planEndDate t)).
    { subst acc'. unfold Js.gtb. destruct (Js.ltb acc (planEndDate t)) eqn:E.
      - split; [now apply ltb_asym|]. split; [apply ltb_irrefl|]. now right.
      - split; [apply ltb_irrefl|]. split; [exact E|]. now left. }
    destruct Ha as (Ha1 & Ha2 & Ha3).
    split; [|split].
    + destruct Hin as [Hin|Hin]; [|right; now right].
      rewrite Hin. destruct Ha3 as [->| ->]; [now left | right; now left].
    + apply (nlt_trans acc acc' _ Ha1 Hacc).
    + intros t' [<-|Ht']; [|now apply Hall].
      apply (nlt_trans (planEndDate t) acc' _ Ha2 Hacc).
Qed.

Lemma maxEndDate_greatest first rest :
  let m := maxEndDate first (first :: rest) in
  In m (map planEndDate (first :: rest))
  /\ forall t, In t (first :: rest) -> Js.ltb m (planEndDate t) = false.
Proof.
  cbv zeta. unfold maxEndDate.
  destruct (fold_max_end (first :: rest) (planEndDate first)) as (Hin & _ & Hall).
  cbv zeta in Hin, Hall. split; [|exact Hall].
  destruct Hin as [->|Hin]; [now left | exact Hin].
Qed.

(** C10.  handleAddSubTask, for a parent it finds, opens the form with
    the parent's id, category, subcategory and subsubcategory (an absent
    one as the empty string) and type task.  The default planStartDate is:
    with at least one non-group child, all of whose planEndDate are
    calendar dates from 0001-01-01 to 9999-12-30, the day after the latest
    of these; with no such child and a non-empty planStartDate of the
    parent, that date; otherwise today's date. *)
Theorem C10_subtask_defaults
    (h : Host) (tasks : list Task) (parentId : string) (parent : Task) :
  findTask tasks parentId = Some parent ->
  exists init,
    handleAddSubTask h tasks parentId = Some init
    /\ i_parentTaskId init = parentId
    /\ i_type init = "task"
    /\ i_category init = category parent
    /\ i_subcategory init = default "" (subcategory parent)
    /\ i_subsubcategory init = default "" (subsubcategory parent)
    /\ (forall child, In child (siblingTasks tasks parentId) <->
          In child tasks /\ parentTaskId child = Some parentId
          /\ ttype child <> Some "group")
    /\ (siblingTasks tasks parentId <> [] ->
        (forall child, In child (siblingTasks tasks parentId) ->
           exists n, isoDay (planEndDate child) = Some n /\ -719162 <= n < 2932896) ->
        exists latest,
          (exists child, In child (siblingTasks tasks parentId)
                         /\ isoDay (planEndDate child) = Some latest)
          /\ (forall child n, In child (siblingTasks tasks parentId) ->
                isoDay (planEndDate child) = Some n -> n <= latest)
          /\ isoDay (i_planStartDate init) = Some (latest + 1))
    /\ (siblingTasks tasks parentId = [] -> planStartDate parent <> "" ->
        i_planStartDate init = planStartDate parent)
    /\ (siblingTasks tasks parentId = [] -> planStartDate parent = "" ->
        today h = Some (i_planStartDate init)).
Proof.
  intros Hfind. unfold handleAddSubTask. rewrite Hfind.
  destruct (today_Some h) as (td & Htd).
  assert (Hsome : exists start, subTaskDefaultStart h tasks parentId parent = Some start).
  { unfold subTaskDefaultStart. rewrite Htd.
    destruct (siblingTasks tasks parentId) as [|first rest].
    - destruct (negb _); eauto.
    - destruct (format_ymd _); eauto. }
  destruct Hsome as (start & Hstart). rewrite Hstart.
  eexists. split; [reflexivity|]. cbn [i_parentTaskId i_type i_category i_subcategory
    i_subsubcategory i_planStartDate].
  rewrite !or_default_empty.
  do 5 (split; [reflexivity|]).
  split.
  { intros child. unfold siblingTasks. rewrite filter_In.
    rewrite andb_true_iff, negb_true_iff, bool_decide_eq_true, bool_decide_eq_false.
    tauto. }
  unfold subTaskDefaultStart in Hstart. rewrite Htd in Hstart.
  destruct (siblingTasks tasks parentId) as [|first rest] eqn:Hsib.
  - split; [congruence|].
    destruct (String.eqb_spec (planStartDate parent) ""); cbn [negb] in Hstart;
      injection Hstart as <-; split; intros _ Hp; congruence.
  - split; [|split; discriminate].
    intros _ Hvalid.
    destruct (maxEndDate_greatest first rest) as (Hin & Hmax). cbv zeta in Hin, Hmax, Hstart.
    set (m := maxEndDate first (first :: rest)) in *.
    apply in_map_iff in Hin as (cm & Hcm & Hcin).
    destruct (Hvalid cm Hcin) as (latest & Hl & Hrange). rewrite Hcm in Hl.
    exists latest. split; [exists cm; rewrite Hcm; auto|]. split.
    + intros child n Hc Hn.
      destruct (Z_le_gt_dec n latest) as [|Hgt]; [assumption|exfalso].
      apply Z.gt_lt in Hgt.
      apply (isoDay_ltb _ _ _ _ Hl Hn) in Hgt. rewrite (Hmax child Hc) in Hgt. discriminate.
    + unfold hostParseISO in Hstart.
      rewrite (parseISO_isoDay _ _ _ Hl) in Hstart by lia.
      rewrite addDays_spec in Hstart by (unfold MakeDate, maxTime, msPerDay; lia).
      rewrite TimeClip_Some in Hstart by (unfold MakeDate, maxTime, msPerDay; lia).
      destruct (parseISO_format (parseISO_other h) (MakeDate latest 0 + 1 * msPerDay))
        as (s & Hs & Hi & _).
      { rewrite Day_shift, Day_MakeDate by (unfold msPerDay; lia). lia. }
      rewrite Hs in Hstart. injection Hstart as <-.
      rewrite Hi, Day_shift, Day_MakeDate by (unfold msPerDay; lia). reflexivity.
Qed.

End AddSubTask.

Section AddSubTaskWitness.

Lemma C10_subtask_defaults_witness :
  exists init,
    handleAddSubTask sampleHost sampleTree "g1" = Some init
    /\ i_category init = "Structure"
    /\ i_subcategory init = "Concrete"
    /\ i_subsubcategory init = ""
    /\ isoDay (i_planStartDate init) = Some 19764.   (* 2024-02-11 *)
Proof.
  destruct (C10_subtask_defaults sampleHost sampleTree "g1" sampleGroup eq_refl)
    as (init & Hcall & _ & _ & Hcat & Hsub & Hsubsub & _ & Hchildren & _).
  exists init. split; [exact Hcall|]. split; [exact Hcat|].
  split; [exact Hsub|]. split; [exact Hsubsub|].
  destruct Hchildren as (latest & (child & Hin & Hday) & Hmax & Hstart).
  - discriminate.
  - intros child Hin. vm_compute in Hin.
    destruct Hin as [<-|[<-|[]]]; eexists; (split; [vm_compute; reflexivity | lia]).
  - assert (Hge : 19763 <= latest).
    { apply (Hmax (sampleChild "c2" "2024-02-10")); [|reflexivity].
      vm_compute. right. now left. }
    vm_compute in Hin. destruct Hin as [<-|[<-|[]]]; vm_compute in Hday;
      injection Hday as Hday; subst latest; [lia | exact Hstart].
Defined.

End AddSubTaskWitness.

(* --------------------------------------------------------------------- *)
(** ** CSV import                                                         *)
(* --------------------------------------------------------------------- *)

Section ImportRows.
Import JsDate.

(** A row without a name is skipped and changes nothing. *)
Lemma importRow_unnamed h cm st row :
  Js.truthy (rowName row) = false -> importRow h cm st row = inr st.
Proof.
  unfold importRow, Js.truthy. destruct (rowName row) as [nm|]; [|reflexivity].
  destruct (String.eqb nm ""); [reflexivity | discriminate].
Qed.

Lemma importRow_named h cm st row st' :
  Js.truthy (rowName row) = true ->
  importRow h cm st row = inr st' ->
  exists nm planStart planEnd,
    rowName row = Some nm
    /\ rowPlanStart h row = Some planStart
    /\ planEndFor h planStart (rowDuration row) = Some planEnd
    /\ st' = {| activeGroup := rowScope h st row;
                count := S (count st);
                lastTaskId := if String.eqb (rowType row) "group" then lastTaskId st
                              else Some (getNewTaskId h (count st));
                tasksToCreate :=
                  tasksToCreate st ++ [rowDraft h cm st row nm planStart planEnd] |}.
Proof.
  intros Hn. apply truthy_inv in Hn as (nm & Hnm & Hne).
  unfold importRow. rewrite Hnm.
  destruct (String.eqb_spec nm ""); [contradiction|].
  destruct (rowPlanStart h row) as [ps|] eqn:Eps; [|discriminate].
  destruct (planEndFor h ps (rowDuration row)) as [pe|] eqn:Epe; [|discriminate].
  intros H. exists nm, ps, pe. do 3 (split; [reflexivity || assumption|]).
  unfold rowScope, rowDraft. cbv zeta.
  destruct (String.eqb (rowType row) "group").
  - injection H as <-. reflexivity.
  - destruct (activeGroup st) as [[gid gcat]|] eqn:Eg.
    + destruct (String.eqb gcat (rowCategory row)); injection H as <-; reflexivity.
    + injection H as <-. reflexivity.
Qed.

Lemma importRow_success h cm st row nm planStart planEnd :
  rowName row = Some nm -> nm <> "" ->
  rowPlanStart h row = Some planStart ->
  planEndFor h planStart (rowDuration row) = Some planEnd ->
  exists st', importRow h cm st row = inr st'
    /\ tasksToCreate st' = tasksToCreate st ++ [rowDraft h cm st row nm planStart planEnd]
    /\ count st' = S (count st)
    /\ activeGroup st' = rowScope h st row.
Proof.
  intros Hnm Hne Hps Hpe. unfold importRow. rewrite Hnm.
  destruct (String.eqb_spec nm ""); [contradiction|].
  rewrite Hps, Hpe. unfold rowScope, rowDraft. cbv zeta.
  destruct (String.eqb (rowType row) "group").
  - eexists. split; [reflexivity|]. repeat split.
  - destruct (activeGroup st) as [[gid gcat]|] eqn:Eg.
    + destruct (String.eqb gcat (rowCategory row)); eexists; (split; [reflexivity|]);
        repeat split.
    + eexists. split; [reflexivity|]. repeat split.
Qed.

(** The end date exists when the start is a calendar date and the end
    stays within the range of [Date]. *)
Lemma planEndFor_Some h planStart n duration :
  isoDay planStart = Some n ->
  -100000000 <= n <= 100000000 ->
  -100000000 <= n + (duration - 1) <= 100000000 ->
  planEndFor h planStart duration
  = format_ymd (Some (MakeDate (n + (duration - 1)) 0)).
Proof.
  intros Hn Hr1 Hr2. unfold planEndFor, hostParseISO.
  rewrite (parseISO_isoDay _ _ _ Hn Hr1).
  rewrite addDays_spec by (unfold MakeDate, maxTime, msPerDay; lia).
  rewrite TimeClip_Some by (unfold MakeDate, maxTime, msPerDay; lia).
  f_equal. f_equal. unfold MakeDate. lia.
Qed.

(** While a scope is open, rows of its category that are not groups are
    attached to it and leave it open. *)
Lemma importRows_in_scope h cm gid gcat rows : forall st st',
  activeGroup st = Some (gid, gcat) ->
  Forall (fun r => rowType r <> "group" /\ rowCategory r = gcat) rows ->
  importRows h cm st rows = inr st' ->
  activeGroup st' = Some (gid, gcat)
  /\ exists added, tasksToCreate st' = tasksToCreate st ++ added
       /\ Forall (fun d => d_parentTaskId d = Some gid) added.
Proof.
  induction rows as [|row rows IH]; intros st st' Hg HF Hrun.
  - cbn in Hrun. injection Hrun as <-. split; [exact Hg|].
    exists []. split; [now rewrite app_nil_r | constructor].
  - apply Forall_cons_1 in HF as [[Hty Hcat] HF]. cbn [importRows] in Hrun.
    destruct (importRow h cm st row) as [msg|st1] eqn:Hrow; [discriminate|].
    assert (Hty' : String.eqb (rowType row) "group" = false)
      by (apply String.eqb_neq; exact Hty).
    destruct (Js.truthy (rowName row)) eqn:Hn.
    + destruct (importRow_named _ _ _ _ _ Hn Hrow) as (nm & ps & pe & _ & _ & _ & ->).
      assert (Hsc : rowScope h st row = Some (gid, gcat)).
      { unfold rowScope. rewrite Hty', Hg, Hcat, String.eqb_refl. reflexivity. }
      apply IH in Hrun as (Hg' & added & Hadd & Hall); [|exact Hsc|exact HF].
      split; [exact Hg'|].
      exists (rowDraft h cm st row nm ps pe :: added).
      cbn [tasksToCreate] in Hadd. rewrite Hadd, <- app_assoc. split; [reflexivity|].
      constructor; [|exact Hall].
      unfold rowDraft. cbn [d_parentTaskId]. rewrite Hty', Hg, Hcat, String.eqb_refl.
      reflexivity.
    + rewrite (importRow_unnamed _ _ _ _ Hn) in Hrow. injection Hrow as <-.
      apply (IH _ _ Hg HF Hrun).
Qed.

End ImportRows.

Section ImportScope.
Import JsDate.

(** C5.  A named row of type group opens a scope with the id generated
    for it and its category, whatever scope was open before, and has no
    parent itself.  A named row that is not a group is attached to the
    open scope and leaves it open when its category is the scope's
    category; with another category, or with no scope open, it gets no
    parentTaskId and no scope is open after it.  Hence every row that
    follows a group row, as long as the rows are not groups and have the
    group's category, receives the group's id as parentTaskId.  A row
    whose plan start is a calendar date and whose end date is within the
    range of Date is processed. *)
Theorem C5_import_group_scope (h : Host) (cm : Z) (st : ImportState) (row : Row) :
  Js.truthy (rowName row) = true ->
  let newId := getNewTaskId h (count st) in
  (forall st', importRow h cm st row = inr st' ->
     exists draft,
       tasksToCreate st' = tasksToCreate st ++ [draft]
       /\ d_id draft = Some newId
       /\ (rowType row = "group" ->
             activeGroup st' = Some (newId, rowCategory row)
             /\ d_parentTaskId draft = None)
       /\ (rowType row <> "group" ->
             forall gid gcat, activeGroup st = Some (gid, gcat) ->
               (rowCategory row = gcat ->
                  d_parentTaskId draft = Some gid /\ activeGroup st' = Some (gid, gcat))
               /\ (rowCategory row <> gcat ->
                  d_parentTaskId draft = None /\ activeGroup st' = None))
       /\ (rowType row <> "group" -> activeGroup st = None ->
             d_parentTaskId draft = None /\ activeGroup st' = None))
  /\ (forall planStart n, rowPlanStart h row = Some planStart ->
        isoDay planStart = Some n ->
        -100000000 <= n + (rowDuration row - 1) <= 100000000 ->
        exists st', importRow h cm st row = inr st')
  /\ (forall rows st' st'',
        importRow h cm st row = inr st' -> rowType row = "group" ->
        Forall (fun r => rowType r <> "group" /\ rowCategory r = rowCategory row) rows ->
        importRows h cm st' rows = inr st'' ->
        exists added, tasksToCreate st'' = tasksToCreate st' ++ added
          /\ Forall (fun d => d_parentTaskId d = Some newId) added).
Proof.
  intros Hn newId. subst newId. split; [|split].
  - intros st' Hrow.
    destruct (importRow_named _ _ _ _ _ Hn Hrow) as (nm & ps & pe & _ & _ & _ & ->).
    eexists. split; [reflexivity|]. split; [reflexivity|].
    cbn [activeGroup d_parentTaskId rowDraft]. unfold rowScope.
    split; [|split].
    + intros ->. cbn. auto.
    + intros Hty gid gcat Hg. apply String.eqb_neq in Hty. rewrite Hty, Hg. split.
      * intros ->. rewrite String.eqb_refl. auto.
      * intros Hc. destruct (String.eqb_spec gcat (rowCategory row)); [congruence|auto].
    + intros Hty Hg. apply String.eqb_neq in Hty. rewrite Hty, Hg. auto.
  - intros ps n Hps Hday Hrange.
    apply truthy_inv in Hn as (nm & Hnm & Hne).
    assert (Hn100 : -100000000 <= n <= 100000000).
    { apply isoDay_inv in Hday as (y & m & d & Hm & Hv & ->).
      apply match_ymd_inv in Hm as (y1&y2&y3&y4&m1&m2&d1&d2 & _ & -> & -> & -> & HF).
      repeat match goal with
      | H : Forall _ (_ :: _) |- _ => apply Forall_cons_1 in H as [? H]
      end.
      apply validateDate_inv in Hv as [Hmr Hdr]. rewrite MakeDay_valid by assumption.
      pose proof (leapDays_01 (Js.digits_val [y1; y2; y3; y4])) as HL.
      pose proof (monthStart_year _ _ Hmr HL) as HM.
      assert (Hy : 0 <= Js.digits_val [y1; y2; y3; y4] <= 9999).
      { unfold Js.digits_val, Js.digit_val. cbn [fold_left]. lia. }
      pose proof (DayFromYear_le 0 _ (proj1 Hy)) as L0.
      pose proof (DayFromYear_le _ 9999 (proj2 Hy)) as L1.
      change (DayFromYear 0) with (-719528) in L0.
      change (DayFromYear 9999) with 2932532 in L1. lia. }
    pose proof (planEndFor_Some h ps n (rowDuration row) Hday Hn100 Hrange) as Hpe.
    unfold format_ymd in Hpe.
    destruct (importRow_success h cm st row nm ps _ Hnm Hne Hps Hpe) as (st' & Hst & _).
    eauto.
  - intros rows st' st'' Hrow Hty HF Hrun.
    destruct (importRow_named _ _ _ _ _ Hn Hrow) as (nm & ps & pe & _ & _ & _ & ->).
    eapply importRows_in_scope in Hrun as (_ & added & Hadd & Hall); [| |exact HF].
    + exists added. split; [exact Hadd | exact Hall].
    + cbn [activeGroup]. unfold rowScope. rewrite Hty. reflexivity.
Qed.

Lemma C5_import_group_scope_witness :
  let st0 := initialImportState [] in
  exists st1 st2 st3,
    importRow sampleHost 0 st0 sampleGroupRow = inr st1
    /\ activeGroup st1 = Some ("id0", "Structure")
    /\ importRows sampleHost 0 st1 [sampleTaskRow "Footing"; sampleTaskRow "Columns"] = inr st2
    /\ map d_parentTaskId (tasksToCreate st2) = [None; Some "id0"; Some "id0"]
    /\ importRow sampleHost 0 st2 sampleOtherRow = inr st3
    /\ map d_parentTaskId (tasksToCreate st3) = [None; Some "id0"; Some "id0"; None]
    /\ activeGroup st3 = None.
Proof.
  cbv zeta.
  destruct (C5_import_group_scope sampleHost 0 (initialImportState []) sampleGroupRow eq_refl)
    as (Hstep & Htotal & Hseq). cbv zeta in Hstep, Htotal, Hseq.
  destruct (Htotal "2024-03-01" 19783 eq_refl eq_refl) as (st1 & H1);
    [vm_compute; split; discriminate|].
  destruct (Hstep st1 H1) as (draft & Hd & _ & Hgroup & _).
  destruct (Hgroup eq_refl) as (Hscope & Hparent).
  destruct (importRows sampleHost 0 st1 [sampleTaskRow "Footing"; sampleTaskRow "Columns"])
    as [msg|st2] eqn:H2.
  { exfalso. vm_compute in H1. injection H1 as <-. vm_compute in H2. discriminate. }
  destruct (Hseq [sampleTaskRow "Footing"; sampleTaskRow "Columns"] st1 st2 H1 eq_refl)
    as (added & Hadd & Hall).
  - repeat constructor; try discriminate.
  - exact H2.
  - destruct (importRow sampleHost 0 st2 sampleOtherRow) as [msg|st3] eqn:H3.
    { exfalso. vm_compute in H1. injection H1 as <-. vm_compute in H2.
      injection H2 as <-. vm_compute in H3. discriminate. }
    exists st1, st2, st3.
    split; [exact H1|]. split; [exact Hscope|]. split; [exact H2|].
    vm_compute in H1. injection H1 as <-. vm_compute in H2. injection H2 as <-.
    split; [reflexivity|]. split; [exact H3|].
    vm_compute in H3. injection H3 as <-.
    split; reflexivity.
Defined.

End ImportScope.

Section ImportDates.
Import JsDate.

Local Abbreviation str := String.string_of_list_ascii.

Lemma digit_not_space c : Js.is_digit c = true -> Js.is_space c = false.
Proof.
  intros H. apply is_digit_code in H. unfold Js.is_space. cbv zeta.
  destruct (Z.leb_spec 9 (Js.code c)), (Z.leb_spec (Js.code c) 13),
    (Z.eqb_spec (Js.code c) 32), (Z.eqb_spec (Js.code c) 160); cbn; try reflexivity; lia.
Qed.

Lemma digit_not_char c x :
  Js.is_digit c = true -> (Js.code x < 48 \/ 57 < Js.code x) -> Ascii.eqb c x = false.
Proof.
  intros H Hx. apply is_digit_code in H. apply Ascii.eqb_neq. intros ->. lia.
Qed.

(** The guard at the head of [parseDateString] passes when the trimmed
    cell is neither empty nor a lone dash. *)
Lemma parseDateString_guard val :
  Js.trim val <> "" -> Js.trim val <> "-" ->
  String.eqb val "" || String.eqb val "-" || String.eqb (Js.trim val) "" = false.
Proof.
  intros H1 H2.
  destruct (String.eqb_spec val ""); [subst; contradiction H1; reflexivity|].
  destruct (String.eqb_spec val "-"); [subst; contradiction H2; reflexivity|].
  destruct (String.eqb_spec (Js.trim val) ""); [contradiction|reflexivity].
Qed.

Lemma parseInt_two_digits y1 y2 :
  Js.is_digit y1 = true -> Js.is_digit y2 = true ->
  Js.parseInt (str [y1; y2]) = Some (10 * Js.digit_val y1 + Js.digit_val y2).
Proof.
  intros H1 H2. unfold Js.parseInt. cbn [String.string_of_list_ascii Js.trim_start].
  rewrite (digit_not_space _ H1).
  rewrite (digit_not_char y1 "-" H1), (digit_not_char y1 "+" H1) by (left; reflexivity).
  cbn [Js.span_digits]. rewrite H1, H2. cbn [Js.span_digits fst].
  unfold Js.digits_val. cbn [fold_left]. apply f_equal. lia.
Qed.

Ltac use_digits HF :=
  cbn [forallb] in HF;
  repeat (let H := fresh "Hdig" in apply andb_prop in HF as [H HF]);
  cbn [forallb];
  repeat match goal with H : Js.is_digit _ = true |- _ => rewrite !H; clear H end.

(** parseDateString returns a cell of the shape YYYY-MM-DD as it
    is (trimmed), turns DD/MM/YYYY into YYYY-MM-DD, turns DD/MM/YY into
    20YY-MM-DD when YY < 50 and 19YY-MM-DD otherwise, and returns the date
    of any other cell that the engine's date parser accepts.  It returns
    nothing exactly for an empty cell, a lone dash, a blank cell, and a cell
    of none of the shapes that the date parser rejects.  For such a cell
    the row's plan start is today's date and the named row is created, the
    import going on, when the duration keeps the end date within the range
    of Date.  The clock is taken between 1970 and the year 9998. *)
Theorem import_dates_accepted (h : Host) :
  (forall val y1 y2 y3 y4 m1 m2 d1 d2,
     forallb Js.is_digit [y1; y2; y3; y4; m1; m2; d1; d2] = true ->
     Js.trim val = str [y1; y2; y3; y4; "-"; m1; m2; "-"; d1; d2]%char ->
     parseDateString h val = Some (Js.trim val))
  /\ (forall val y1 y2 y3 y4 m1 m2 d1 d2,
     forallb Js.is_digit [y1; y2; y3; y4; m1; m2; d1; d2] = true ->
     Js.trim val = str [d1; d2; "/"; m1; m2; "/"; y1; y2; y3; y4]%char ->
     parseDateString h val = Some (str [y1; y2; y3; y4; "-"; m1; m2; "-"; d1; d2]%char))
  /\ (forall val y1 y2 m1 m2 d1 d2,
     forallb Js.is_digit [y1; y2; m1; m2; d1; d2] = true ->
     Js.trim val = str [d1; d2; "/"; m1; m2; "/"; y1; y2]%char ->
     let yy := 10 * Js.digit_val y1 + Js.digit_val y2 in
     (yy < 50 -> parseDateString h val
                 = Some (str ["2"; "0"; y1; y2; "-"; m1; m2; "-"; d1; d2]%char))
     /\ (50 <= yy -> parseDateString h val
                     = Some (str ["1"; "9"; y1; y2; "-"; m1; m2; "-"; d1; d2]%char)))
  /\ (forall val tv,
     Js.trim val <> "" -> val <> "-" ->
     match_ymd (Js.trim val) = None -> match_dmy4 (Js.trim val) = None ->
     match_dmy2 (Js.trim val) = None ->
     Date_parse h (Js.trim val) = Some tv ->
     parseDateString h val = Some (toISODate tv))
  /\ (forall val,
     parseDateString h val = None <->
     (val = "" \/ val = "-" \/ Js.trim val = ""
      \/ (match_ymd (Js.trim val) = None /\ match_dmy4 (Js.trim val) = None
          /\ match_dmy2 (Js.trim val) = None /\ Date_parse h (Js.trim val) = None)))
  /\ (clockInEra h ->
      forall cm st row,
        Js.truthy (rowName row) = true ->
        parseDateString h
          (Js.or_default (Js.or_else (row !! "Plan Start") (row !! "Start")) "") = None ->
        -100000000 <= Day (now h) + (rowDuration row - 1) <= 100000000 ->
        exists st' draft,
          importRow h cm st row = inr st'
          /\ tasksToCreate st' = tasksToCreate st ++ [draft]
          /\ count st' = S (count st)
          /\ today h = Some (d_planStartDate draft)
          /\ isoDay (d_planStartDate draft) = Some (Day (now h))).
Proof.
  split; [|split; [|split; [|split; [|split]]]].
  - intros val y1 y2 y3 y4 m1 m2 d1 d2 HF Ht.
    unfold parseDateString.
    rewrite parseDateString_guard by (rewrite Ht; discriminate).
    assert (M : is_Some (match_ymd (Js.trim val))).
    { rewrite Ht. unfold match_ymd. rewrite String.list_ascii_of_string_of_list_ascii.
      use_digits HF. cbn. eauto. }
    rewrite (bool_decide_eq_true_2 _ M). reflexivity.
  - intros val y1 y2 y3 y4 m1 m2 d1 d2 HF Ht.
    unfold parseDateString.
    rewrite parseDateString_guard by (rewrite Ht; discriminate).
    assert (M : match_ymd (Js.trim val) = None).
    { rewrite Ht. unfold match_ymd. rewrite String.list_ascii_of_string_of_list_ascii.
      cbn [forallb]. change (Js.is_digit "/") with false.
      rewrite !andb_false_r. reflexivity. }
    rewrite M. rewrite bool_decide_eq_false_2 by (intros [? ?]; discriminate).
    rewrite Ht. unfold match_dmy4. rewrite String.list_ascii_of_string_of_list_ascii.
    use_digits HF. reflexivity.
  - intros val y1 y2 m1 m2 d1 d2 HF Ht yy.
    assert (P : parseDateString h val =
                Some ((if yy <? 50 then "20" +:+ str [y1; y2] else "19" +:+ str [y1; y2])
                      +:+ "-" +:+ str [m1; m2] +:+ "-" +:+ str [d1; d2])).
    { unfold parseDateString.
      rewrite parseDateString_guard by (rewrite Ht; discriminate).
      assert (M : match_ymd (Js.trim val) = None) by (rewrite Ht; reflexivity).
      rewrite M. rewrite bool_decide_eq_false_2 by (intros [? ?]; discriminate).
      rewrite Ht.
      assert (M4 : match_dmy4 (str [d1; d2; "/"; m1; m2; "/"; y1; y2]%char) = None)
        by reflexivity.
      rewrite M4. unfold match_dmy2. rewrite String.list_ascii_of_string_of_list_ascii.
      assert (H1 : Js.is_digit y1 = true /\ Js.is_digit y2 = true).
      { cbn [forallb] in HF. apply andb_prop in HF as [? HF].
        apply andb_prop in HF as [? HF]. auto. }
      destruct H1 as [H1 H2]. pose proof (parseInt_two_digits y1 y2 H1 H2) as HP.
      use_digits HF. cbn [andb Ascii.eqb Bool.eqb String.string_of_list_ascii].
      cbn [String.string_of_list_ascii] in HP. rewrite HP. reflexivity. }
    rewrite P. split; intros Hy.
    + destruct (Z.ltb_spec yy 50); [reflexivity | lia].
    + destruct (Z.ltb_spec yy 50); [lia | reflexivity].
  - intros val tv Hne Hdash M1 M2 M3 HD.
    unfold parseDateString.
    destruct (String.eqb_spec val ""); [subst; contradiction Hne; reflexivity|].
    destruct (String.eqb_spec val "-"); [contradiction|].
    destruct (String.eqb_spec (Js.trim val) ""); [contradiction|].
    cbn [orb]. rewrite M1, M2, M3, HD.
    rewrite bool_decide_eq_false_2 by (intros [? ?]; discriminate). reflexivity.
  - intros val. unfold parseDateString.
    destruct (String.eqb_spec val ""); [cbn; tauto|].
    destruct (String.eqb_spec val "-"); [cbn; tauto|].
    destruct (String.eqb_spec (Js.trim val) ""); [cbn; tauto|].
    cbn [orb].
    destruct (match_ymd (Js.trim val)) as [p|] eqn:M1.
    { rewrite bool_decide_eq_true_2 by eauto.
      split; [discriminate|]. intros [?|[?|[?|[? _]]]]; congruence. }
    rewrite bool_decide_eq_false_2 by (intros [? ?]; discriminate).
    destruct (match_dmy4 (Js.trim val)) as [[[? ?] ?]|] eqn:M2.
    { split; [discriminate|]. intros [?|[?|[?|(_ & ? & _)]]]; congruence. }
    destruct (match_dmy2 (Js.trim val)) as [[[? ?] ?]|] eqn:M3.
    { split; [discriminate|]. intros [?|[?|[?|(_ & _ & ? & _)]]]; congruence. }
    destruct (Date_parse h (Js.trim val)) as [tv|] eqn:HD.
    { split; [discriminate|]. intros [?|[?|[?|(_ & _ & _ & ?)]]]; congruence. }
    split; auto 10.
  - intros Hc cm st row Hn Hcell Hrange. unfold clockInEra in Hc.
    assert (Hnow : 0 <= Day (now h) <= 2932531).
    { unfold Day, msPerDay. Z.div_mod_to_equations. lia. }
    destruct (parseISO_format (parseISO_other h) (now h)) as (td & Htd & Hiso & _); [lia|].
    assert (Hps : rowPlanStart h row = Some td).
    { unfold rowPlanStart. rewrite Hcell. exact Htd. }
    apply truthy_inv in Hn as (nm & Hnm & Hne).
    pose proof (planEndFor_Some h td _ (rowDuration row) Hiso ltac:(lia) Hrange) as Hpe.
    unfold format_ymd in Hpe.
    destruct (importRow_success h cm st row nm td _ Hnm Hne Hps Hpe)
      as (st' & Hrow & Hadd & Hcount & _).
    exists st'. eexists. split; [exact Hrow|]. split; [exact Hadd|].
    split; [exact Hcount|]. cbn [rowDraft d_planStartDate]. split; [exact Htd | exact Hiso].
Qed.

End ImportDates.

Section ImportWitnesses.
Import JsDate.

Lemma import_dates_accepted_witness :
  parseDateString sampleHost " 2024-01-10 " = Some "2024-01-10"
  /\ parseDateString sampleHost "15/03/2024" = Some "2024-03-15"
  /\ parseDateString sampleHost "15/03/24" = Some "2024-03-15"
  /\ parseDateString sampleHost "15/03/75" = Some "1975-03-15"
  /\ parseDateString sampleHost "soon" = None
  /\ exists st' draft,
       importRow sampleHost 0 (initialImportState []) sampleUndatedRow = inr st'
       /\ tasksToCreate st' = [draft]
       /\ d_planStartDate draft = "2024-01-17".
Proof.
  destruct (import_dates_accepted sampleHost) as (Hymd & Hdmy4 & Hdmy2 & _ & Hnone & Hrow).
  split; [|split; [|split; [|split; [|split]]]].
  - eapply Hymd; cycle 1; reflexivity.
  - eapply Hdmy4; cycle 1; reflexivity.
  - eapply (proj1 (Hdmy2 "15/03/24" "2"%char "4"%char "0"%char "3"%char "1"%char "5"%char
                     eq_refl eq_refl)).
    vm_compute; first [reflexivity | discriminate].
  - eapply (proj2 (Hdmy2 "15/03/75" "7"%char "5"%char "0"%char "3"%char "1"%char "5"%char
                     eq_refl eq_refl)).
    vm_compute; first [reflexivity | discriminate].
  - apply Hnone. right; right; right. repeat split; reflexivity.
  - destruct (Hrow ltac:(unfold clockInEra; cbn; lia) 0 (initialImportState [])
                sampleUndatedRow eq_refl eq_refl)
      as (st' & draft & H1 & H2 & _ & H3 & _).
    + vm_compute. split; discriminate.
    + exists st', draft. split; [exact H1|]. split; [exact H2|].
      assert (E : today sampleHost = Some "2024-01-17") by (vm_compute; reflexivity).
      rewrite E in H3. now injection H3 as <-.
Defined.

(** A cell of the shape YYYY-MM-DD is kept as it is also when it is no
    calendar date; [format] then throws and the import ends. *)
Lemma import_impossible_date_aborts h tasks :
  parseDateString h "2024-13-45" = Some "2024-13-45"
  /\ handleImportFile h tasks [sampleImpossibleRow] = ImportFailed "Invalid time value".
Proof. split; reflexivity. Qed.

(** C6.  A date cell that has the shape of a date and names no
    calendar day is not replaced by today's date: parseDateString returns
    31/02/2024 as 2024-02-31, which parseISO reads as an invalid date, and
    formatting the end date throws.  The named row is not created and the
    whole import fails with the message Invalid time value, nothing being
    written, although the file without that row is imported.  The same
    plan start through handleAddTask creates the task, the failure being
    caught there. *)
Theorem C6_import_malformed_date_aborts (h : Host) (tasks : list Task) :
  parseDateString h "31/02/2024" = Some "2024-02-31"
  /\ hostParseISO h "2024-02-31" = None
  /\ rowNamed sampleMalformedRow = true
  /\ handleImportFile h tasks [sampleTaskRow "Footing"; sampleMalformedRow]
     = ImportFailed "Invalid time value"
  /\ (exists batches,
        handleImportFile h tasks [sampleTaskRow "Footing"] = ImportCompleted 1 batches)
  /\ handleAddTask h "project" []
       (list_to_map [("name", "Columns"); ("planStartDate", "2024-02-31");
                     ("duration", "5")]) false
     = Some {| d_id := None; d_name := "Columns";
               d_category := ""; d_subcategory := None; d_subsubcategory := None;
               d_type := "task";
               d_planStartDate := "2024-02-31"; d_planEndDate := "2024-02-31";
               d_planDuration := 5; d_status := NotStarted; d_order := 1;
               d_parentTaskId := None; d_predecessors := None |}.
Proof.
  split; [reflexivity|]. split; [reflexivity|]. split; [reflexivity|].
  split; [reflexivity|]. split; [eexists; reflexivity|]. vm_compute. reflexivity.
Qed.

(** What the import does with rows that carry no name. *)
Lemma importRows_unnamed h cm st data :
  Forall (fun r => Js.truthy (rowName r) = false) data ->
  importRows h cm st data = inr st.
Proof.
  induction 1 as [|row data Hrow _ IH]; cbn [importRows]; [reflexivity|].
  now rewrite (importRow_unnamed _ _ _ _ Hrow).
Qed.

Lemma handleImportFile_no_valid_rows h tasks data :
  data <> [] -> Forall (fun r => Js.truthy (rowName r) = false) data ->
  handleImportFile h tasks data = ImportCompleted 0 [].
Proof.
  intros Hne HF. unfold handleImportFile. destruct data as [|row data]; [contradiction|].
  rewrite (importRows_unnamed _ _ _ _ HF). reflexivity.
Qed.

(** The form path: the duration is at least one day and the end date is
    the start plus the duration less one day. *)
Lemma handleAddTask_plan_interval h project tasks data autoLink draft n :
  handleAddTask h project tasks data autoLink = Some draft ->
  isoDay (d_planStartDate draft) = Some n -> -719162 <= n ->
  n + d_planDuration draft - 1 <= 2932896 ->
  1 <= d_planDuration draft
  /\ isoDay (d_planEndDate draft) = Some (n + d_planDuration draft - 1).
Proof.
  unfold handleAddTask. destruct (String.eqb project ""); [discriminate|].
  set (dur := Z.max 1 _).
  destruct (match data !! "planStartDate" with Some s => Some s | None => today h end)
    as [ps|]; [|discriminate].
  intros [= <-]. cbn [d_planStartDate d_planDuration d_planEndDate].
  intros Hn Hlo Hhi. split; [lia|].
  assert (Hn100 : n <= 2932896) by lia.
  rewrite (planEndFor_Some h ps n dur Hn) by lia.
  destruct (parseISO_format (parseISO_other h) (MakeDate (n + (dur - 1)) 0))
    as (s & Hs & Hi & _).
  { rewrite Day_MakeDate by (unfold msPerDay; lia). lia. }
  rewrite Hs, Hi, Day_MakeDate by (unfold msPerDay; lia). f_equal. lia.
Qed.

(** C7.  On the import path a row with a negative duration is created
    with a plan end before its plan start: from 2024-01-10 and duration
    -5 the end is 2024-01-04.  The same start and duration through
    handleAddTask give duration 1 and end 2024-01-10. *)
Theorem C7_import_end_before_start (h : Host) :
  handleImportFile h [] [sampleNegativeRow]
  = ImportCompleted 1
      [[ {| d_id := Some (getNewTaskId h 0); d_name := "Excavation";
            d_category := "Imported"; d_subcategory := None; d_subsubcategory := None;
            d_type := "task";
            d_planStartDate := "2024-01-10"; d_planEndDate := "2024-01-04";
            d_planDuration := -5; d_status := NotStarted; d_order := 1;
            d_parentTaskId := None; d_predecessors := None |} ]]
  /\ Js.ltb "2024-01-04" "2024-01-10" = true
  /\ isoDay "2024-01-04" = Some 19726 /\ isoDay "2024-01-10" = Some 19732
  /\ handleAddTask h "project" []
       (list_to_map [("name", "Excavation"); ("planStartDate", "2024-01-10");
                     ("duration", "-5")]) false
     = Some {| d_id := None; d_name := "Excavation";
               d_category := ""; d_subcategory := None; d_subsubcategory := None;
               d_type := "task";
               d_planStartDate := "2024-01-10"; d_planEndDate := "2024-01-10";
               d_planDuration := 1; d_status := NotStarted; d_order := 1;
               d_parentTaskId := None; d_predecessors := None |}.
Proof. repeat split; vm_compute; reflexivity. Qed.

(** C8.  A parsed file without rows fails with the message "File is
    empty or invalid"; a file whose only row has no task name creates
    nothing and is reported as completed with 0 records. *)
Theorem C8_import_zero_valid_rows (h : Host) (tasks : list Task) :
  handleImportFile h tasks [] = ImportFailed "File is empty or invalid"
  /\ Js.truthy (rowName sampleUnnamedRow) = false
  /\ handleImportFile h tasks [sampleUnnamedRow] = ImportCompleted 0 [].
Proof.
  split; [reflexivity|]. split; [reflexivity|].
  apply handleImportFile_no_valid_rows; [discriminate|].
  repeat constructor.
Qed.

End ImportWitnesses.

(* ===================================================================== *)
(** * Part III.  Further properties of the sources                        *)
(* ===================================================================== *)

(* --------------------------------------------------------------------- *)
(** ** Categories and project selection                                   *)
(* --------------------------------------------------------------------- *)

Section Categories.

Lemma existsb_eqb_In v (l : list string) :
  existsb (String.eqb v) l = true <-> In v l.
Proof.
  rewrite existsb_exists. split.
  - intros (x & Hx & E). apply String.eqb_eq in E. now subst.
  - intros H. exists v. split; [exact H | apply String.eqb_refl].
Qed.

Lemma setValues_fold_spec values : forall seen,
  let r := fold_left (fun seen v => if existsb (String.eqb v) seen then seen else seen ++ [v])
                     values seen in
  (NoDup seen -> NoDup r) /\ (forall x, In x r <-> In x seen \/ In x values).
Proof.
  induction values as [|v values IH]; intros seen; cbn [fold_left].
  - cbv zeta. split; [auto|]. intros x. cbn. tauto.
  - cbv zeta. destruct (existsb (String.eqb v) seen) eqn:E.
    + destruct (IH seen) as [Hn Hi]. cbv zeta in Hn, Hi. split; [exact Hn|].
      intros x. rewrite Hi. apply existsb_eqb_In in E. cbn. split; [tauto|].
      intros [H|[<-|H]]; auto.
    + destruct (IH (seen ++ [v])) as [Hn Hi]. cbv zeta in Hn, Hi. split.
      * intros Hs. apply Hn. apply NoDup_ListNoDup. apply NoDup_ListNoDup in Hs.
        apply List.NoDup_app; [exact Hs | repeat constructor; intros [] | ].
        intros x Hx [<-|[]]. apply existsb_eqb_In in Hx. congruence.
      * intros x. rewrite Hi, in_app_iff. cbn. tauto.
Qed.

Lemma setValues_snoc values v :
  setValues (values ++ [v]) =
  if existsb (String.eqb v) (setValues values) then setValues values
  else setValues values ++ [v].
Proof. unfold setValues. rewrite fold_left_app. reflexivity. Qed.

(** X1.  existingCategories lists every non-empty category of the tasks
    exactly once, and nothing else; a further task adds its category at
    the end when it is non-empty and new, and changes nothing otherwise. *)
Theorem existingCategories_distinct (tasks : list Task) :
  NoDup (existingCategories tasks)
  /\ (forall c, In c (existingCategories tasks) <->
                c <> "" /\ exists t, In t tasks /\ category t = c)
  /\ (forall t, existingCategories (tasks ++ [t]) =
        if String.eqb (category t) ""
           || existsb (String.eqb (category t)) (existingCategories tasks)
        then existingCategories tasks
        else existingCategories tasks ++ [category t]).
Proof.
  unfold existingCategories.
  destruct (setValues_fold_spec (map category tasks) []) as [Hn Hi]. cbv zeta in Hn, Hi.
  fold (setValues (map category tasks)) in Hn, Hi.
  split; [|split].
  - apply NoDup_ListNoDup. apply List.NoDup_filter. apply NoDup_ListNoDup.
    apply Hn. constructor.
  - intros c. rewrite filter_In, Hi, negb_true_iff, String.eqb_neq, in_map_iff.
    cbn. split.
    + intros [[[]|(t & E & Ht)] Hc]. eauto.
    + intros (Hc & t & Ht & E). eauto.
  - intros t. rewrite map_app. cbn [map]. rewrite setValues_snoc.
    destruct (String.eqb_spec (category t) "") as [E|E]; cbn [orb].
    + destruct (existsb _ (setValues _)); [reflexivity|].
      rewrite List.filter_app. cbn [List.filter]. rewrite E. cbn. apply app_nil_r.
    + assert (Hx : existsb (String.eqb (category t))
                     (List.filter (fun c => negb (String.eqb c "")) (setValues (map category tasks)))
                   = existsb (String.eqb (category t)) (setValues (map category tasks))).
      { apply eq_true_iff_eq. rewrite !existsb_eqb_In, filter_In, negb_true_iff, String.eqb_neq.
        tauto. }
      rewrite Hx. destruct (existsb _ (setValues _)); [reflexivity|].
      rewrite List.filter_app. cbn [List.filter].
      destruct (String.eqb_spec (category t) ""); [contradiction|reflexivity].
Qed.

(** X2.  Once the projects are loaded, no project is selected exactly
    when there is no project at all or when the page was given a project
    parameter that no project has as its id; without a parameter the first
    project is selected. *)
Theorem selectedProject_after_load (param : option string) (projects : list Project) :
  let selected := selectedProject projects (selectedProjectIdAfterLoad param projects) in
  (selected = None <->
     projects = [] \/
     (Js.truthy param = true /\ forall p, In p projects -> Some (p_id p) <> param))
  /\ (Js.truthy param = false -> selected = head projects)
  /\ (forall p, selected = Some p -> In p projects).
Proof.
  cbv zeta. unfold selectedProject, selectedProjectIdAfterLoad.
  destruct projects as [|first rest].
  - cbn. repeat split; auto; discriminate.
  - destruct (Js.truthy param) eqn:Ht.
    + apply truthy_inv in Ht as (s & -> & Hs). cbn [default].
      split; [|split; [discriminate|]].
      * split.
        -- intros Hnone. right. split; [reflexivity|]. intros p Hp [= E].
           apply (find_none _ _ Hnone) in Hp. rewrite E, String.eqb_refl in Hp. discriminate.
        -- intros [?|[_ Hall]]; [discriminate|].
           destruct (List.find _ _) as [p|] eqn:Hf; [|reflexivity].
           apply find_some in Hf as [Hin E]. apply String.eqb_eq in E.
           exfalso. apply (Hall p Hin). now rewrite E.
      * intros p Hf. now apply find_some in Hf.
    + cbn [List.find]. rewrite String.eqb_refl. cbn [head].
      split; [|split; [reflexivity|]].
      * split; [discriminate|]. intros [?|[? _]]; discriminate.
      * intros p [= <-]. now left.
Qed.

End Categories.

(* --------------------------------------------------------------------- *)
(** ** More on progress updates                                           *)
(* --------------------------------------------------------------------- *)

Section ProgressMore.

(** An update that agrees with the stored task leaves it as it is. *)
Lemma updateTask_fixed t u :
  progress t = u_progress u -> status t = u_status u ->
  progressUpdatedAt t = Some (u_progressUpdatedAt u) ->
  actualStartDate (updateTask t u) = actualStartDate t ->
  actualEndDate (updateTask t u) = actualEndDate t ->
  remarks (updateTask t u) = remarks t ->
  updateTask t u = t.
Proof.
  destruct t. unfold updateTask. cbn. intros -> -> -> -> -> ->. reflexivity.
Qed.

Lemma truthy_empty_end task p d r :
  p <> 100 ->
  Js.truthy (actualEndDate (updateTask task (progressUpdateData task p d r))) = false.
Proof.
  intros Hp. cbn [updateTask actualEndDate].
  unfold progressUpdateData; cbv zeta; cbn [u_actualEndDate].
  destruct (Z.eqb_spec p (-1)) as [->|]; cbn [Z.eqb Pos.eqb].
  - destruct (Js.truthy (actualEndDate task)) eqn:E; [reflexivity | exact E].
  - destruct (Z.eqb_spec p 100); [contradiction|].
    destruct (Js.truthy (actualEndDate task)) eqn:E; [reflexivity | exact E].
Qed.

(** X3.  Sending the same progress update again to the task it produced
    changes nothing, except in one case: work was not started, the progress
    is positive and the update date precedes a non-empty plan start; then
    the first update records the plan start and the second pulls the start
    to the update date.  The update date is non-empty. *)
Theorem progress_update_repeat (task : Task) (p : Z) (d r : string) :
  d <> "" ->
  let t1 := updateTask task (progressUpdateData task p d r) in
  let t2 := updateTask t1 (progressUpdateData t1 p d r) in
  let exception :=
    Js.truthy (actualStartDate task) = false /\ 0 < p
    /\ planStartDate task <> "" /\ Js.ltb d (planStartDate task) = true in
  (~ exception -> t2 = t1)
  /\ (exception -> actualStartDate t1 = Some (planStartDate task)
                   /\ actualStartDate t2 = Some d).
Proof.
  intros Hd t1 t2 exception. subst t1 t2 exception.
  set (u1 := progressUpdateData task p d r).
  set (t1 := updateTask task u1).
  assert (Hst : u_status (progressUpdateData t1 p d r) = u_status u1)
    by (subst u1; rewrite !progress_status; reflexivity).
  assert (Hpr : u_progress (progressUpdateData t1 p d r) = u_progress u1) by reflexivity.
  assert (Hrm : u_remarks (progressUpdateData t1 p d r) = u_remarks u1) by reflexivity.
  assert (Hup : u_progressUpdatedAt (progressUpdateData t1 p d r) = u_progressUpdatedAt u1)
    by reflexivity.
  assert (Hend : actualEndDate (updateTask t1 (progressUpdateData t1 p d r))
                 = actualEndDate t1).
  { destruct (Z.eq_dec p 100) as [->|Hp].
    - reflexivity.
    - pose proof (truthy_empty_end task p d r Hp) as E. fold u1 t1 in E.
      cbn [updateTask actualEndDate].
      assert (F : u_actualEndDate (progressUpdateData t1 p d r) = None).
      { unfold progressUpdateData; cbv zeta; cbn [u_actualEndDate].
        destruct (Z.eqb_spec p (-1)) as [->|]; cbn [Z.eqb Pos.eqb];
          [|destruct (Z.eqb_spec p 100); [contradiction|]]; now rewrite E. }
      now rewrite F. }
  assert (Hrem : remarks (updateTask t1 (progressUpdateData t1 p d r)) = remarks t1).
  { cbn [updateTask remarks]. rewrite Hrm. subst t1. cbn [updateTask remarks].
    destruct (u_remarks u1); reflexivity. }
  assert (Heq : actualStartDate (updateTask t1 (progressUpdateData t1 p d r))
                = actualStartDate t1 ->
                updateTask t1 (progressUpdateData t1 p d r) = t1).
  { intros Hs.
    apply updateTask_fixed;
      [now rewrite Hpr | now rewrite Hst | now rewrite Hup | exact Hs | exact Hend | exact Hrem]. }
  split.
  - intros Hex. apply Heq.
    destruct (Z.eq_dec p (-1)) as [->|Hm1]; [reflexivity|].
    destruct (Z_le_gt_dec p 0) as [Hle|Hgt].
    + destruct (Z.eq_dec p 0) as [->|H0]; [reflexivity|].
      cbn [updateTask actualStartDate]. unfold progressUpdateData; cbv zeta.
      cbn [u_actualStartDate].
      destruct (Z.eqb_spec p (-1)); [contradiction|].
      destruct (Z.eqb_spec p 0); [contradiction|].
      destruct (Z.ltb_spec 0 p); [lia|]. reflexivity.
    + assert (Hp : 0 < p) by lia.
      destruct (Js.truthy (actualStartDate task)) eqn:Ht.
      * apply truthy_inv in Ht as (a & Ha & Hne).
        pose proof (progress_started_step task p d r a Ha Hne Hp) as S1. fold u1 t1 in S1.
        rewrite (progress_started_step t1 p d r _ S1 (strMin_nonempty _ _ Hd Hne) Hp).
        refine (eq_trans _ (eq_sym S1)).
        f_equal. unfold strMin at 1. now rewrite strMin_l.
      * pose proof (progress_unstarted_step task p d r Ht Hp) as F1. fold u1 in F1.
        assert (S1 : actualStartDate t1 = Some (planStartDate task))
          by (subst t1; cbn [updateTask actualStartDate]; now rewrite F1).
        destruct (String.eqb_spec (planStartDate task) "") as [E|E].
        -- cbn [updateTask actualStartDate].
           rewrite (progress_unstarted_step t1 p d r
                      (eq_trans (f_equal Js.truthy S1)
                                (f_equal (fun s => Js.truthy (Some s)) E)) Hp).
           refine (eq_trans _ (eq_sym S1)). reflexivity.
        -- rewrite (progress_started_step t1 p d r _ S1 E Hp).
           refine (eq_trans _ (eq_sym S1)). f_equal.
           unfold strMin. destruct (Js.ltb d (planStartDate task)) eqn:L; [|reflexivity].
           exfalso. apply Hex. auto.
  - intros (Ht & Hp & E & L).
    pose proof (progress_unstarted_step task p d r Ht Hp) as F1. fold u1 in F1.
    assert (S1 : actualStartDate t1 = Some (planStartDate task))
      by (subst t1; cbn [updateTask actualStartDate]; now rewrite F1).
    split; [exact S1|].
    rewrite (progress_started_step t1 p d r _ S1 E Hp). unfold strMin. now rewrite L.
Qed.

Lemma progress_update_repeat_witness :
  let t1 := updateTask sampleCompleted (progressUpdateData sampleCompleted 60 "2024-01-25" "late") in
  updateTask t1 (progressUpdateData t1 60 "2024-01-25" "late") = t1.
Proof.
  cbv zeta.
  destruct (progress_update_repeat sampleCompleted 60 "2024-01-25" "late" ltac:(discriminate))
    as [Hsame _].
  apply Hsame. intros (Hc & _). discriminate.
Defined.

(** X4.  Completing a task (progress 100, non-empty update date) records
    the update date as actualEndDate; the recorded actualStartDate is not
    after it when work had started, and when work had not started it is the
    plan start, which is not after the end exactly when the plan start does
    not follow the update date. *)
Theorem progress_complete_start_end (task : Task) (d r : string) :
  d <> "" ->
  let t1 := updateTask task (progressUpdateData task 100 d r) in
  status t1 = Completed
  /\ actualEndDate t1 = Some d
  /\ (forall a, actualStartDate task = Some a -> a <> "" ->
        exists s, actualStartDate t1 = Some s /\ Js.ltb d s = false)
  /\ (Js.truthy (actualStartDate task) = false ->
        actualStartDate t1 = Some (planStartDate task))
  /\ (forall a da dd, actualStartDate task = Some a -> isoDay a = Some da ->
        isoDay d = Some dd ->
        exists s ds, actualStartDate t1 = Some s /\ isoDay s = Some ds /\ ds <= dd).
Proof.
  intros Hd t1. subst t1. split; [reflexivity|]. split; [reflexivity|].
  split; [|split].
  - intros a Ha Hne. exists (strMin d a).
    split; [apply (progress_started_step task 100 d r a Ha Hne); lia | apply strMin_l].
  - intros Ht. cbn [updateTask actualStartDate].
    rewrite (progress_unstarted_step task 100 d r Ht) by lia. reflexivity.
  - intros a da dd Ha Hda Hdd.
    rewrite (progress_started_step task 100 d r a Ha (isoDay_nonempty _ _ Hda)) by lia.
    unfold strMin. destruct (Js.ltb d a) eqn:L.
    + exists d, dd. repeat split; auto. lia.
    + exists a, da. repeat split; auto.
      destruct (Z_le_gt_dec da dd) as [|Hgt]; [assumption|exfalso].
      apply Z.gt_lt in Hgt. apply (isoDay_ltb _ _ _ _ Hdd Hda) in Hgt. congruence.
Qed.

Lemma progress_complete_start_end_witness :
  let t1 := updateTask sampleCompleted (progressUpdateData sampleCompleted 100 "2024-01-03" "") in
  actualEndDate t1 = Some "2024-01-03"
  /\ exists s, actualStartDate t1 = Some s /\ Js.ltb "2024-01-03" s = false.
Proof.
  cbv zeta.
  destruct (progress_complete_start_end sampleCompleted "2024-01-03" "" ltac:(discriminate))
    as (_ & He & Hs & _).
  split; [exact He|]. apply (Hs "2024-01-05" eq_refl). discriminate.
Defined.

End ProgressMore.

(* --------------------------------------------------------------------- *)
(** ** More on adding a task                                              *)
(* --------------------------------------------------------------------- *)

Section AddTaskMore.
Import JsDate.

Lemma fold_max_ge (l : list Z) : forall acc,
  acc <= fold_left Z.max l acc /\ forall x, In x l -> x <= fold_left Z.max l acc.
Proof.
  induction l as [|y l IH]; intros acc; cbn [fold_left].
  - split; [lia | intros ? []].
  - destruct (IH (Z.max acc y)) as [H1 H2]. split; [lia|].
    intros x [<-|Hx]; [lia | now apply H2].
Qed.

Lemma currentMaxOrder_ge tasks t : In t tasks -> order t <= currentMaxOrder tasks.
Proof.
  destruct tasks as [|t0 rest]; [intros []|]. cbn [currentMaxOrder].
  destruct (fold_max_ge (map order rest) (order t0)) as [H1 H2].
  intros [<-|Hin]; [exact H1|]. apply H2. now apply in_map.
Qed.

Lemma last_map {A B} (f : A -> B) (l : list A) :
  last (map f l) = option_map f (last l).
Proof.
  induction l as [|x [|y l] IH]; [reflexivity | reflexivity |].
  change (map f (x :: y :: l)) with (f x :: f y :: map f l).
  rewrite !last_cons_cons. exact IH.
Qed.

Lemma last_In {A} (l : list A) x : last l = Some x -> In x l.
Proof. intros H. apply list_elem_of_In. eapply last_Some_elem_of; eauto. Qed.

(** X5.  A task added through the form is ordered after every existing
    task (order 1 in an empty project), is not started, and has a duration
    of at least one day. *)
Theorem handleAddTask_order_after_all
    (h : Host) (project : string) (tasks : list Task) (data : gmap string string)
    (autoLink : bool) (draft : TaskDraft) :
  handleAddTask h project tasks data autoLink = Some draft ->
  (forall t, In t tasks -> order t < d_order draft)
  /\ (tasks = [] -> d_order draft = 1)
  /\ d_status draft = NotStarted
  /\ 1 <= d_planDuration draft
  /\ project <> "".
Proof.
  unfold handleAddTask. destruct (String.eqb_spec project ""); [discriminate|].
  destruct (match data !! "planStartDate" with Some s => Some s | None => today h end)
    as [ps|]; [|discriminate].
  intros [= <-]. cbn [d_order d_status d_planDuration].
  repeat split; auto; try lia.
  - intros t Ht. pose proof (currentMaxOrder_ge tasks t Ht). lia.
  - intros ->. reflexivity.
Qed.

Lemma handleAddTask_order_after_all_witness :
  exists draft,
    handleAddTask sampleHost "p1" sampleTree
      (list_to_map [("name", "Slab"); ("duration", "0")]) true = Some draft
    /\ d_order draft = 5 /\ d_planDuration draft = 1.
Proof.
  assert (H : exists draft, handleAddTask sampleHost "p1" sampleTree
      (list_to_map [("name", "Slab"); ("duration", "0")]) true = Some draft)
    by (eexists; vm_compute; reflexivity).
  destruct H as (draft & H). exists draft. split; [exact H|].
  destruct (handleAddTask_order_after_all _ _ _ _ _ _ H) as (Hord & _ & _ & Hdur & _).
  vm_compute in H. injection H as <-. split; reflexivity.
Defined.

(** X6.  The task that handleAddTask links as predecessor is always an
    existing task with a non-empty id: with a parent given, the last task
    of that parent, and without one, the last task of the project.  No
    predecessor is set when linking is off, when the parent has no task
    yet, or when the project is empty. *)
Theorem handleAddTask_predecessor
    (h : Host) (project : string) (tasks : list Task) (data : gmap string string)
    (autoLink : bool) (draft : TaskDraft) :
  handleAddTask h project tasks data autoLink = Some draft ->
  let parent := Js.or_default (data !! "parentTaskId") "" in
  let siblings := List.filter (fun t => bool_decide (parentTaskId t = Some parent)) tasks in
  (forall ps, d_predecessors draft = Some ps ->
     autoLink = true
     /\ exists t, ps = [id t] /\ In t tasks /\ id t <> ""
          /\ (parent <> "" -> parentTaskId t = Some parent /\ last siblings = Some t)
          /\ (parent = "" -> last tasks = Some t))
  /\ (autoLink = false -> d_predecessors draft = None)
  /\ (parent <> "" -> siblings = [] -> d_predecessors draft = None)
  /\ (tasks = [] -> d_predecessors draft = None)
  /\ (parent <> "" -> d_parentTaskId draft = Some parent)
  /\ (parent = "" -> d_parentTaskId draft = None).
Proof.
  unfold handleAddTask. destruct (String.eqb_spec project ""); [discriminate|].
  destruct (match data !! "planStartDate" with Some s => Some s | None => today h end)
    as [ps0|]; [|discriminate].
  intros [= <-]. cbv zeta. cbn [d_predecessors d_parentTaskId].
  set (parent := Js.or_default (data !! "parentTaskId") "").
  set (siblings := List.filter (fun t => bool_decide (parentTaskId t = Some parent)) tasks).
  assert (Hopt : optional (data !! "parentTaskId")
                 = if String.eqb parent "" then None else Some parent).
  { subst parent. unfold optional, Js.or_default, Js.truthy.
    destruct (data !! "parentTaskId") as [s|]; [|reflexivity].
    destruct (String.eqb_spec s ""); cbn [negb].
    - reflexivity.
    - destruct (String.eqb_spec s ""); [contradiction|reflexivity]. }
  refine (conj _ (conj _ (conj _ (conj _ (conj _ _))))).
  - intros ps Hps. destruct autoLink; [|discriminate]. split; [reflexivity|].
    destruct (String.eqb_spec parent "") as [E|E]; cbn [negb] in Hps.
    + destruct (Js.truthy (last (map id tasks))) eqn:Ht; [|discriminate].
      apply truthy_inv in Ht as (i & Hl & Hi). rewrite Hl in Hps. injection Hps as <-.
      rewrite last_map in Hl. destruct (last tasks) as [t|] eqn:Lt; [|discriminate].
      injection Hl as <-. exists t.
      split; [reflexivity|]. split; [now apply last_In|]. split; [exact Hi|].
      split; [intros; contradiction | auto].
    + destruct (Js.truthy (last (map id siblings))) eqn:Ht; [|discriminate].
      apply truthy_inv in Ht as (i & Hl & Hi). rewrite Hl in Hps. injection Hps as <-.
      rewrite last_map in Hl. destruct (last siblings) as [t|] eqn:Lt; [|discriminate].
      injection Hl as <-. pose proof (last_In _ _ Lt) as Hin.
      apply filter_In in Hin as [Hin Hp]. apply bool_decide_eq_true in Hp.
      exists t.
      split; [reflexivity|]. split; [exact Hin|]. split; [exact Hi|].
      split; [auto | intros; contradiction].
  - intros ->. reflexivity.
  - intros Hp Hs. destruct autoLink; [|reflexivity].
    destruct (String.eqb_spec parent ""); [contradiction|]. cbn [negb].
    fold siblings. rewrite Hs. reflexivity.
  - intros ->. destruct autoLink; [|reflexivity]. destruct (negb _); reflexivity.
  - intros Hp. rewrite Hopt. destruct (String.eqb_spec parent ""); [contradiction|reflexivity].
  - intros Hp. rewrite Hopt, Hp. reflexivity.
Qed.

Lemma handleAddTask_predecessor_witness :
  exists draft,
    handleAddTask sampleHost "p1" sampleTree
      (list_to_map [("name", "Slab"); ("parentTaskId", "g1")]) true = Some draft
    /\ d_predecessors draft = Some ["g2"]
    /\ d_parentTaskId draft = Some "g1".
Proof.
  assert (H : exists draft, handleAddTask sampleHost "p1" sampleTree
      (list_to_map [("name", "Slab"); ("parentTaskId", "g1")]) true = Some draft)
    by (eexists; vm_compute; reflexivity).
  destruct H as (draft & H). exists draft. split; [exact H|].
  destruct (handleAddTask_predecessor _ _ _ _ _ _ H) as (_ & _ & _ & _ & Hpar & _).
  split; [|apply Hpar; discriminate].
  vm_compute in H. injection H as <-. reflexivity.
Defined.

(** X7.  For a plan start that is a calendar date, handleAddTask stores
    as plan end the date duration - 1 days later, so the end is never
    before the start, in days and in the order of the strings; the dates
    lie between 0001-01-01 and 9999-12-31.  When the plan start cannot be
    read as a date, the plan end is the plan start string itself. *)
Theorem handleAddTask_end_not_before_start
    (h : Host) (project : string) (tasks : list Task) (data : gmap string string)
    (autoLink : bool) (draft : TaskDraft) :
  handleAddTask h project tasks data autoLink = Some draft ->
  (forall n, isoDay (d_planStartDate draft) = Some n -> -719162 <= n ->
     n + d_planDuration draft - 1 <= 2932896 ->
     isoDay (d_planEndDate draft) = Some (n + d_planDuration draft - 1)
     /\ n <= n + d_planDuration draft - 1
     /\ Js.ltb (d_planEndDate draft) (d_planStartDate draft) = false)
  /\ (hostParseISO h (d_planStartDate draft) = None ->
      d_planEndDate draft = d_planStartDate draft).
Proof.
  intros H. split.
  - intros n Hn Hlo Hhi.
    destruct (handleAddTask_plan_interval _ _ _ _ _ _ _ H Hn Hlo Hhi) as [Hd He].
    split; [exact He|]. split; [lia|].
    destruct (Js.ltb (d_planEndDate draft) (d_planStartDate draft)) eqn:L; [|reflexivity].
    apply (isoDay_ltb _ _ _ _ He Hn) in L. lia.
  - revert H. unfold handleAddTask. destruct (String.eqb project ""); [discriminate|].
    destruct (match data !! "planStartDate" with Some s => Some s | None => today h end)
      as [ps|]; [|discriminate].
    intros [= <-]. cbn [d_planStartDate d_planEndDate]. intros Hp.
    unfold planEndFor. rewrite Hp. reflexivity.
Qed.

Lemma handleAddTask_end_not_before_start_witness :
  exists draft,
    handleAddTask sampleHost "p1" []
      (list_to_map [("planStartDate", "2024-02-27"); ("duration", "4")]) false = Some draft
    /\ isoDay (d_planEndDate draft) = Some (19780 + 4 - 1)
    /\ d_planEndDate draft = "2024-03-01".
Proof.
  assert (H : exists draft, handleAddTask sampleHost "p1" []
      (list_to_map [("planStartDate", "2024-02-27"); ("duration", "4")]) false = Some draft)
    by (eexists; vm_compute; reflexivity).
  destruct H as (draft & H). exists draft. split; [exact H|].
  destruct (handleAddTask_end_not_before_start _ _ _ _ _ _ H) as (Hv & _).
  vm_compute in H. injection H as <-.
  destruct (Hv 19780 eq_refl ltac:(lia) ltac:(cbn; lia)) as (He & _).
  split; [exact He | reflexivity].
Defined.

End AddTaskMore.

(* --------------------------------------------------------------------- *)
(** ** More on the CSV import                                             *)
(* --------------------------------------------------------------------- *)

Section ImportMore.
Import JsDate.

(** The three ways an iteration can go. *)
Lemma importRow_cases h cm st row :
  (rowNamed row = false -> importRow h cm st row = inr st)
  /\ (rowNamed row = true -> rowDatable h row = false ->
      importRow h cm st row = inl "Invalid time value")
  /\ (rowNamed row = true -> rowDatable h row = true ->
      exists st', importRow h cm st row = inr st').
Proof.
  unfold rowNamed, rowDatable. split; [apply importRow_unnamed|]. split.
  - intros Hn Hd. apply truthy_inv in Hn as (nm & Hnm & Hne).
    unfold importRow. rewrite Hnm. destruct (String.eqb_spec nm ""); [contradiction|].
    destruct (rowPlanStart h row) as [ps|]; [|reflexivity].
    destruct (planEndFor h ps (rowDuration row)); [discriminate|reflexivity].
  - intros Hn Hd. apply truthy_inv in Hn as (nm & Hnm & Hne).
    destruct (rowPlanStart h row) as [ps|] eqn:Hps; [|discriminate].
    destruct (planEndFor h ps (rowDuration row)) as [pe|] eqn:Hpe; [|discriminate].
    destruct (importRow_success h cm st row nm ps pe Hnm Hne Hps Hpe) as (st' & H & _).
    eauto.
Qed.

Lemma importRows_failure h cm data : forall st msg,
  importRows h cm st data = inl msg <->
  msg = "Invalid time value"
  /\ exists row, In row data /\ rowNamed row = true /\ rowDatable h row = false.
Proof.
  induction data as [|row data IH]; intros st msg; cbn [importRows].
  - split; [discriminate|]. intros (_ & ? & [] & _).
  - destruct (importRow_cases h cm st row) as (Hu & Hf & Hs).
    destruct (rowNamed row) eqn:Hn.
    + destruct (rowDatable h row) eqn:Hd.
      * destruct (Hs eq_refl eq_refl) as (st' & ->). rewrite IH. split.
        -- intros (-> & r & Hr & Hrn & Hrd). split; [reflexivity|]. exists r. cbn. auto.
        -- intros (-> & r & [<-|Hr] & Hrn & Hrd); [congruence|]. eauto.
      * rewrite (Hf eq_refl eq_refl). split.
        -- intros [= <-]. split; [reflexivity|]. exists row. cbn. auto.
        -- intros (-> & _). reflexivity.
    + rewrite (Hu eq_refl), IH. split.
      * intros (-> & r & Hr & Hrn & Hrd). split; [reflexivity|]. exists r. cbn. auto.
      * intros (-> & r & [<-|Hr] & Hrn & Hrd); [congruence|]. eauto.
Qed.

(** X8.  The import fails exactly when the parsed file has no row, or
    when some named row cannot be dated (its plan start is no date, or its
    end date leaves the range of Date); one such row anywhere in the file
    fails the whole import, with the message Invalid time value, and
    nothing is written.  Otherwise it completes. *)
Theorem handleImportFile_failure (h : Host) (tasks : list Task) (data : list Row) :
  (forall msg, handleImportFile h tasks data = ImportFailed msg <->
     (data = [] /\ msg = "File is empty or invalid")
     \/ (msg = "Invalid time value"
         /\ exists row, In row data /\ rowNamed row = true /\ rowDatable h row = false))
  /\ ((exists n batches, handleImportFile h tasks data = ImportCompleted n batches) <->
      data <> [] /\ forall row, In row data -> rowNamed row = true -> rowDatable h row = true).
Proof.
  unfold handleImportFile. destruct data as [|row0 data].
  - split.
    + intros msg. split.
      * intros [= <-]. auto.
      * intros [[_ ->]|(_ & ? & [] & _)]. reflexivity.
    + split; [intros (? & ? & ?); discriminate | intros [? _]; congruence].
  - set (rows := row0 :: data).
    pose proof (importRows_failure h (currentMaxOrder tasks) rows (initialImportState tasks))
      as HF.
    destruct (importRows h (currentMaxOrder tasks) (initialImportState tasks) rows)
      as [m|st] eqn:E.
    + destruct (proj1 (HF m) eq_refl) as (-> & r & Hr & Hrn & Hrd). split.
      * intros msg. split.
        -- intros [= <-]. right. eauto.
        -- intros [[? _]|(-> & _)]; [discriminate | reflexivity].
      * split; [intros (? & ? & ?); discriminate|].
        intros [_ Hall]. rewrite (Hall r Hr Hrn) in Hrd. discriminate.
    + split.
      * intros msg. split; [discriminate|].
        intros [[? _]|(-> & Hex)]; [discriminate|].
        pose proof (proj2 (HF "Invalid time value") (conj eq_refl Hex)) as C. discriminate.
      * split; [|eauto].
        intros _. split; [discriminate|]. intros r Hr Hrn.
        destruct (rowDatable h r) eqn:Hrd; [reflexivity|].
        pose proof (proj2 (HF "Invalid time value")
                      (conj eq_refl (ex_intro _ r (conj Hr (conj Hrn Hrd))))) as C.
        discriminate.
Qed.

(** *** The batches *)

Lemma chunksFuel_spec size : (0 < size)%nat -> forall fuel l,
  (length l <= fuel)%nat ->
  concat (chunksFuel fuel size l) = l
  /\ Forall (fun b => (1 <= length b <= size)%nat) (chunksFuel fuel size l)
  /\ forall i b, chunksFuel fuel size l !! i = Some b ->
       (S i < length (chunksFuel fuel size l))%nat -> length b = size.
Proof.
  intros Hs. induction fuel as [|f IH]; intros l Hl.
  - destruct l; [|cbn in Hl; lia]. cbn. repeat split; [constructor | intros ? ? H; discriminate].
  - destruct l as [|x l]; [cbn; repeat split; [constructor | intros ? ? H; discriminate]|].
    cbn [chunksFuel].
    set (l0 := x :: l) in *.
    assert (Hd : (length (drop size l0) <= f)%nat) by (rewrite length_drop; lia).
    destruct (IH (drop size l0) Hd) as (Hc & Hall & Hfull).
    split; [|split].
    + cbn [concat]. rewrite Hc. apply take_drop.
    + constructor; [|exact Hall]. rewrite length_take. subst l0. cbn [length]. lia.
    + intros [|i] b Hb Hlen.
      * cbn in Hb. injection Hb as <-. cbn [length] in Hlen.
        assert (Hne : drop size l0 <> []).
        { intros E. rewrite E in Hlen. destruct f; cbn in Hlen; lia. }
        rewrite length_take.
        assert (length (drop size l0) <> 0)%nat by (destruct (drop size l0); cbn; congruence).
        rewrite length_drop in H. lia.
      * cbn in Hb. cbn [length] in Hlen. apply (Hfull i b Hb). lia.
Qed.

Lemma chunks_spec l :
  concat (chunks 450 l) = l
  /\ Forall (fun b => (1 <= length b <= 450)%nat) (chunks 450 l)
  /\ forall i b, chunks 450 l !! i = Some b ->
       (S i < length (chunks 450 l))%nat -> length b = 450%nat.
Proof. unfold chunks. apply chunksFuel_spec; lia. Qed.

(** *** Invariants of the loop *)

Lemma lastLinkable_snoc init drafts d :
  lastLinkable init (drafts ++ [d]) =
  if String.eqb (d_type d) "group" then lastLinkable init drafts else d_id d.
Proof. unfold lastLinkable. rewrite fold_left_app. reflexivity. Qed.

Lemma rowType_group_or_task row : rowType row = "group" \/ rowType row = "task".
Proof. unfold rowType. destruct (String.eqb _ "group"); auto. Qed.

Lemma importRow_numbered h cm st row st' :
  importNumbered h cm st -> importRow h cm st row = inr st' -> importNumbered h cm st'.
Proof.
  intros [Hc Hall] Hrow. destruct (rowNamed row) eqn:Hn.
  - destruct (importRow_named _ _ _ _ _ Hn Hrow) as (nm & ps & pe & Hnm & _ & _ & ->).
    assert (Hne : nm <> "").
    { apply truthy_inv in Hn as (nm' & Hnm' & Hne). congruence. }
    split; cbn [count tasksToCreate].
    + rewrite length_app. cbn [length]. lia.
    + intros i d Hd. apply lookup_snoc_Some in Hd as [[_ Hd]|[-> <-]]; [now apply Hall|].
      rewrite <- Hc. cbn [rowDraft d_id d_order d_status d_name d_type].
      repeat split; auto. apply rowType_group_or_task.
  - rewrite (importRow_unnamed _ _ _ _ Hn) in Hrow. injection Hrow as <-. now split.
Qed.

Lemma importRow_chained h cm init st row st' :
  importChained init st -> importRow h cm st row = inr st' -> importChained init st'.
Proof.
  intros [Hl Hall] Hrow. destruct (rowNamed row) eqn:Hn.
  - destruct (importRow_named _ _ _ _ _ Hn Hrow) as (nm & ps & pe & _ & _ & _ & ->).
    split; cbn [lastTaskId tasksToCreate].
    + rewrite lastLinkable_snoc. cbn [rowDraft d_type d_id].
      destruct (String.eqb (rowType row) "group"); [exact Hl | reflexivity].
    + intros j d Hd. apply lookup_snoc_Some in Hd as [[Hj Hd]|[-> <-]].
      * rewrite take_app_le by lia. now apply Hall.
      * rewrite take_app_length. cbn [rowDraft d_predecessors d_type]. rewrite <- Hl.
        unfold linkTo. destruct (String.eqb (rowType row) "group").
        -- rewrite andb_false_r. reflexivity.
        -- rewrite andb_true_r. reflexivity.
  - rewrite (importRow_unnamed _ _ _ _ Hn) in Hrow. injection Hrow as <-. now split.
Qed.

Lemma groupBefore_mono drafts extra j j' gid gcat :
  groupBefore drafts j gid gcat -> (j <= j')%nat -> (j <= length drafts)%nat ->
  groupBefore (drafts ++ extra) j' gid gcat.
Proof.
  intros (i & g & Hi & Hg & H1 & H2 & H3) Hj Hlen. exists i, g.
  split; [lia|]. split; [|auto]. rewrite lookup_app_l; [exact Hg | lia].
Qed.

Lemma importRow_parented h cm st row st' :
  importNumbered h cm st ->
  importParented st -> importRow h cm st row = inr st' -> importParented st'.
Proof.
  intros [Hc _] [Hg Hall] Hrow. destruct (rowNamed row) eqn:Hn.
  - destruct (importRow_named _ _ _ _ _ Hn Hrow) as (nm & ps & pe & _ & _ & _ & ->).
    set (new := rowDraft h cm st row nm ps pe).
    split; cbn [activeGroup tasksToCreate].
    + intros gid gcat Hsc. rewrite length_app. cbn [length]. unfold rowScope in Hsc.
      destruct (String.eqb_spec (rowType row) "group") as [Ht|Ht].
      * injection Hsc as <- <-. exists (length (tasksToCreate st)), new.
        split; [lia|]. split; [apply lookup_snoc_Some; right; auto|].
        subst new. cbn [rowDraft d_id d_type d_category]. rewrite Hc. auto.
      * destruct (activeGroup st) as [[g0 c0]|] eqn:Ea; [|discriminate].
        destruct (String.eqb c0 (rowCategory row)); [|discriminate].
        injection Hsc as <- <-.
        apply (groupBefore_mono _ _ _ _ _ _ (Hg _ _ eq_refl)); lia.
    + intros j d pid Hd Hp. apply lookup_snoc_Some in Hd as [[Hj Hd]|[-> <-]].
      * destruct (Hall j d pid Hd Hp) as [Ht Hb]. split; [exact Ht|].
        apply (groupBefore_mono _ _ _ _ _ _ Hb); lia.
      * subst new. cbn [rowDraft d_parentTaskId d_type d_category] in Hp |- *.
        destruct (String.eqb_spec (rowType row) "group") as [Ht|Ht]; [discriminate|].
        split; [destruct (rowType_group_or_task row); congruence|].
        destruct (activeGroup st) as [[g0 c0]|] eqn:Ea; [|discriminate].
        destruct (String.eqb_spec c0 (rowCategory row)) as [Ec|Ec]; [|discriminate].
        injection Hp as <-. rewrite <- Ec.
        apply (groupBefore_mono _ _ _ _ _ _ (Hg _ _ eq_refl)); [lia|lia].
  - rewrite (importRow_unnamed _ _ _ _ Hn) in Hrow. injection Hrow as <-. now split.
Qed.

Lemma importRows_invariants h cm init data : forall st st',
  importNumbered h cm st -> importChained init st -> importParented st ->
  importRows h cm st data = inr st' ->
  importNumbered h cm st' /\ importChained init st' /\ importParented st'
  /\ (count st' = count st + length (List.filter rowNamed data))%nat.
Proof.
  induction data as [|row data IH]; intros st st' H1 H2 H3 Hrun; cbn [importRows] in Hrun.
  - injection Hrun as <-. split; [exact H1|]. split; [exact H2|]. split; [exact H3|].
    cbn [List.filter length]. lia.
  - destruct (importRow h cm st row) as [m|st1] eqn:Hrow; [discriminate|].
    pose proof (importRow_numbered _ _ _ _ _ H1 Hrow) as N1.
    pose proof (importRow_chained _ _ _ _ _ _ H2 Hrow) as C1.
    pose proof (importRow_parented _ _ _ _ _ H1 H3 Hrow) as P1.
    destruct (IH _ _ N1 C1 P1 Hrun) as (N & C & P & Hcount).
    split; [exact N|]. split; [exact C|]. split; [exact P|].
    rewrite Hcount. cbn [List.filter]. destruct (rowNamed row) eqn:Hn.
    + destruct (importRow_named _ _ _ _ _ Hn Hrow) as (? & ? & ? & _ & _ & _ & ->).
      cbn [count length]. lia.
    + rewrite (importRow_unnamed _ _ _ _ Hn) in Hrow. injection Hrow as <-. lia.
Qed.

Lemma initial_invariants h tasks :
  importNumbered h (currentMaxOrder tasks) (initialImportState tasks)
  /\ importChained (last (map id tasks)) (initialImportState tasks)
  /\ importParented (initialImportState tasks).
Proof.
  repeat split; cbn; try discriminate; intros; try discriminate.
Qed.

(** What a completed import has built. *)
Lemma handleImportFile_completed h tasks data n batches :
  handleImportFile h tasks data = ImportCompleted n batches ->
  exists st,
    importRows h (currentMaxOrder tasks) (initialImportState tasks) data = inr st
    /\ n = count st /\ batches = chunks 450 (tasksToCreate st)
    /\ concat batches = tasksToCreate st
    /\ importNumbered h (currentMaxOrder tasks) st
    /\ importChained (last (map id tasks)) st
    /\ importParented st
    /\ n = length (List.filter rowNamed data).
Proof.
  unfold handleImportFile. destruct data as [|row0 data]; [discriminate|].
  destruct (importRows _ _ _ (row0 :: data)) as [m|st] eqn:E; [discriminate|].
  intros [= <- <-]. exists st.
  destruct (initial_invariants h tasks) as (I1 & I2 & I3).
  destruct (importRows_invariants _ _ _ _ _ _ I1 I2 I3 E) as (N & C & P & Hc).
  split; [reflexivity|]. split; [reflexivity|]. split; [reflexivity|].
  split; [apply chunks_spec|]. split; [exact N|]. split; [exact C|]. split; [exact P|].
  rewrite Hc. reflexivity.
Qed.

End ImportMore.

Section ImportResults.
Import JsDate.

(** X9.  A completed import reports as many records as it wrote, one
    for each row with a name and none for the others.  The record at
    position i carries the i-th generated id, a non-empty name, the status
    not-started and the order currentMaxOrder + i + 1, so the imported
    tasks are ordered after every existing task, in the order of the file. *)
Theorem handleImportFile_numbering
    (h : Host) (tasks : list Task) (data : list Row) (n : nat)
    (batches : list (list TaskDraft)) :
  handleImportFile h tasks data = ImportCompleted n batches ->
  let drafts := concat batches in
  n = length drafts
  /\ n = length (List.filter rowNamed data)
  /\ forall i d, drafts !! i = Some d ->
       d_id d = Some (getNewTaskId h i)
       /\ d_name d <> ""
       /\ d_status d = NotStarted
       /\ d_order d = currentMaxOrder tasks + Z.of_nat i + 1
       /\ (forall t, In t tasks -> order t < d_order d)
       /\ (forall j d', drafts !! j = Some d' -> (i < j)%nat -> d_order d < d_order d').
Proof.
  intros H. destruct (handleImportFile_completed _ _ _ _ _ H)
    as (st & _ & -> & _ & Hcat & [Hc Hall] & _ & _ & Hn).
  cbv zeta. rewrite Hcat. split; [exact Hc|]. split; [exact Hn|].
  intros i d Hd. destruct (Hall i d Hd) as (Hid & Ho & Hs & Hnm & _).
  repeat split; auto.
  - intros t Ht. pose proof (currentMaxOrder_ge tasks t Ht). lia.
  - intros j d' Hd' Hij. destruct (Hall j d' Hd') as (_ & Ho' & _). lia.
Qed.

(** X10.  The drafts of a completed import are written in batches that
    keep their order: no batch is empty, none has more than 450 drafts,
    and every batch but the last has exactly 450. *)
Theorem handleImportFile_batches
    (h : Host) (tasks : list Task) (data : list Row) (n : nat)
    (batches : list (list TaskDraft)) :
  handleImportFile h tasks data = ImportCompleted n batches ->
  Forall (fun b => (1 <= length b <= 450)%nat) batches
  /\ (forall i b, batches !! i = Some b -> (S i < length batches)%nat ->
        length b = 450%nat)
  /\ length (concat batches) = n
  /\ (n = 0%nat <-> batches = []).
Proof.
  intros H. destruct (handleImportFile_completed _ _ _ _ _ H)
    as (st & _ & -> & -> & Hcat & [Hc _] & _).
  destruct (chunks_spec (tasksToCreate st)) as (Hcc & Hall & Hfull).
  split; [exact Hall|]. split; [exact Hfull|]. split; [now rewrite Hcat|].
  rewrite Hc. split.
  - intros H0. destruct (tasksToCreate st); [reflexivity | discriminate].
  - intros E. rewrite E in Hcc. cbn in Hcc. now rewrite <- Hcc.
Qed.

(** X11.  In a completed import a parentTaskId is only given to task
    rows, and it always names a group row written earlier in the same
    import, of the same category as the task row. *)
Theorem handleImportFile_parents
    (h : Host) (tasks : list Task) (data : list Row) (n : nat)
    (batches : list (list TaskDraft)) :
  handleImportFile h tasks data = ImportCompleted n batches ->
  let drafts := concat batches in
  forall j d pid, drafts !! j = Some d -> d_parentTaskId d = Some pid ->
    d_type d = "task"
    /\ exists i g, (i < j)%nat /\ drafts !! i = Some g
         /\ d_id g = Some pid /\ d_type g = "group"
         /\ d_category g = d_category d.
Proof.
  intros H. destruct (handleImportFile_completed _ _ _ _ _ H)
    as (st & _ & _ & _ & Hcat & _ & _ & [_ Hp] & _).
  cbv zeta. rewrite Hcat. exact Hp.
Qed.

(** X12.  In a completed import the rows are chained in file order: a
    task row has as its only predecessor the nearest task row before it,
    the first task row the last existing task, and none when there is no
    such id; a group row has no predecessor and is passed over by the
    chain.  In particular a task row right after a task row is linked to
    it. *)
Theorem handleImportFile_chain
    (h : Host) (tasks : list Task) (data : list Row) (n : nat)
    (batches : list (list TaskDraft)) :
  handleImportFile h tasks data = ImportCompleted n batches ->
  let drafts := concat batches in
  (forall j d, drafts !! j = Some d ->
     d_predecessors d =
       if String.eqb (d_type d) "group" then None
       else linkTo (lastLinkable (last (map id tasks)) (take j drafts)))
  /\ (forall j d d', drafts !! j = Some d -> drafts !! S j = Some d' ->
        d_type d = "task" -> d_type d' = "task" -> getNewTaskId h j <> "" ->
        d_predecessors d' = Some [getNewTaskId h j])
  /\ (forall j d d' d'', drafts !! j = Some d -> drafts !! S j = Some d' ->
        drafts !! S (S j) = Some d'' ->
        d_type d = "task" -> d_type d' = "group" -> d_type d'' = "task" ->
        getNewTaskId h j <> "" ->
        d_predecessors d' = None /\ d_predecessors d'' = Some [getNewTaskId h j]).
Proof.
  intros H. destruct (handleImportFile_completed _ _ _ _ _ H)
    as (st & _ & _ & _ & Hcat & [_ Hnum] & [_ Hch] & _).
  cbv zeta. rewrite Hcat. split; [exact Hch|].
  assert (Hstep : forall j d, tasksToCreate st !! j = Some d -> d_type d = "task" ->
            getNewTaskId h j <> "" ->
            linkTo (lastLinkable (last (map id tasks)) (take (S j) (tasksToCreate st)))
            = Some [getNewTaskId h j]).
  { intros j d Hd Ht Hne. rewrite (take_S_r _ _ _ Hd), lastLinkable_snoc, Ht.
    destruct (Hnum j d Hd) as (-> & _). cbn. unfold linkTo.
    rewrite (truthy_Some _ Hne). reflexivity. }
  split.
  - intros j d d' Hd Hd' Ht Ht' Hne. rewrite (Hch _ _ Hd'), Ht'. cbn.
    now apply (Hstep j d).
  - intros j d d' d'' Hd Hd' Hd'' Ht Ht' Ht'' Hne.
    split; [rewrite (Hch _ _ Hd'), Ht'; reflexivity|].
    rewrite (Hch _ _ Hd''), Ht''. cbn.
    rewrite (take_S_r _ _ _ Hd'), lastLinkable_snoc, Ht'. cbn.
    now apply (Hstep j d).
Qed.

(** The sample file imported into the sample project. *)
Lemma sampleImport_completed :
  exists batches,
    handleImportFile sampleHost sampleTree sampleFile = ImportCompleted 4 batches
    /\ map d_type (concat batches) = ["group"; "task"; "task"; "task"].
Proof. eexists. split; vm_compute; reflexivity. Defined.

Lemma handleImportFile_numbering_witness :
  exists batches,
    handleImportFile sampleHost sampleTree sampleFile = ImportCompleted 4 batches
    /\ length (concat batches) = 4%nat
    /\ forall i d, concat batches !! i = Some d ->
         d_order d = 4 + Z.of_nat i + 1 /\ d_id d = Some (getNewTaskId sampleHost i).
Proof.
  destruct sampleImport_completed as (batches & H & _). exists batches.
  split; [exact H|].
  destruct (handleImportFile_numbering _ _ _ _ _ H) as (Hn & _ & Hall).
  split; [now rewrite <- Hn|]. intros i d Hd.
  destruct (Hall i d Hd) as (Hid & _ & _ & Ho & _). split; [exact Ho | exact Hid].
Defined.

Lemma handleImportFile_batches_witness :
  exists batches,
    handleImportFile sampleHost sampleTree sampleFile = ImportCompleted 4 batches
    /\ Forall (fun b => (1 <= length b <= 450)%nat) batches
    /\ length (concat batches) = 4%nat.
Proof.
  destruct sampleImport_completed as (batches & H & _). exists batches.
  split; [exact H|].
  destruct (handleImportFile_batches _ _ _ _ _ H) as (Hall & _ & Hlen & _). auto.
Defined.

Lemma handleImportFile_parents_witness :
  exists batches d,
    handleImportFile sampleHost sampleTree sampleFile = ImportCompleted 4 batches
    /\ concat batches !! 2%nat = Some d
    /\ d_parentTaskId d = Some "id0"
    /\ d_type d = "task"
    /\ exists i g, (i < 2)%nat /\ concat batches !! i = Some g
         /\ d_id g = Some "id0" /\ d_type g = "group".
Proof.
  destruct sampleImport_completed as (batches & H & _).
  pose proof (handleImportFile_parents _ _ _ _ _ H) as Hp. cbv zeta in Hp.
  assert (Hd : exists d, concat batches !! 2%nat = Some d /\ d_parentTaskId d = Some "id0").
  { vm_compute in H. injection H as <-. eexists. split; reflexivity. }
  destruct Hd as (d & Hd & Hpar). exists batches, d.
  split; [exact H|]. split; [exact Hd|]. split; [exact Hpar|].
  destruct (Hp _ _ _ Hd Hpar) as (Ht & i & g & Hi & Hg & Hid & Hgt & _).
  split; [exact Ht|]. exists i, g. auto.
Defined.

Lemma handleImportFile_chain_witness :
  exists batches d,
    handleImportFile sampleHost sampleTree sampleFile = ImportCompleted 4 batches
    /\ concat batches !! 2%nat = Some d
    /\ d_predecessors d = Some ["id1"].
Proof.
  destruct sampleImport_completed as (batches & H & _).
  destruct (handleImportFile_chain _ _ _ _ _ H) as (_ & Hnext & _).
  assert (Hd : exists d1 d2, concat batches !! 1%nat = Some d1
                 /\ concat batches !! 2%nat = Some d2
                 /\ d_type d1 = "task" /\ d_type d2 = "task").
  { vm_compute in H. injection H as <-. do 2 eexists. repeat split; reflexivity. }
  destruct Hd as (d1 & d2 & H1 & H2 & T1 & T2). exists batches, d2.
  split; [exact H|]. split; [exact H2|].
  apply (Hnext 1%nat d1 d2 H1 H2 T1 T2). discriminate.
Defined.

Lemma handleImportFile_failure_witness :
  handleImportFile sampleHost sampleTree (sampleFile ++ [sampleImpossibleRow])
  = ImportFailed "Invalid time value".
Proof.
  apply (proj1 (handleImportFile_failure sampleHost sampleTree
                  (sampleFile ++ [sampleImpossibleRow]))).
  right. split; [reflexivity|]. exists sampleImpossibleRow.
  split; [apply in_or_app; right; now left|]. split; reflexivity.
Defined.

End ImportResults.

Section WeekLabels.
Import JsDate.

Lemma filter_take_le {A} (p : A -> bool) (l : list A) (n m : nat) :
  (n <= m)%nat ->
  (length (List.filter p (take n l)) <= length (List.filter p (take m l)))%nat.
Proof.
  intros Hnm. rewrite <- (take_drop n (take m l)).
  rewrite take_take, Nat.min_l by exact Hnm.
  rewrite List.filter_app, length_app. lia.
Qed.

Lemma filter_take_all {A} (p : A -> bool) (l : list A) (n : nat) :
  (length (List.filter p (take n l)) <= length (List.filter p l))%nat.
Proof.
  rewrite <- (take_drop n l) at 2. rewrite List.filter_app, length_app. lia.
Qed.

Lemma filter_take_S {A} (p : A -> bool) (l : list A) (k : nat) (x : A) :
  l !! k = Some x ->
  length (List.filter p (take (S k) l))
  = (length (List.filter p (take k l)) + (if p x then 1 else 0))%nat.
Proof.
  intros Hk. rewrite (take_S_r _ _ _ Hk), List.filter_app, length_app. cbn.
  now destruct (p x).
Qed.

Lemma sameMonthYear_refl x : sameMonth (Some x) (Some x) && sameYear (Some x) (Some x) = true.
Proof. cbn. now rewrite !Z.eqb_refl. Qed.

Lemma sameMonthYear_ext a b w :
  sameMonth a b && sameYear a b = true ->
  sameMonth w a && sameYear w a = sameMonth w b && sameYear w b.
Proof.
  destruct a as [a|], b as [b|], w as [w|]; cbn; try discriminate; try reflexivity.
  intros H. apply andb_prop in H as [Hm Hy].
  apply Z.eqb_eq in Hm, Hy. now rewrite Hm, Hy.
Qed.

Lemma filter_none {A} (p : A -> bool) (l : list A) :
  (forall k y, l !! k = Some y -> p y = false) -> List.filter p l = [].
Proof.
  induction l as [|x l IH]; intros H; [reflexivity|]. cbn.
  rewrite (H 0%nat x eq_refl). apply IH. intros k y Hk. exact (H (S k) y Hk).
Qed.

(** X13.  In week view the labels number the weeks of each month 1, 2,
    3, ... in the order of the timeline.  The label of a valid item is at
    least 1 and at most the number of cells that the header of its month
    spans; it is that number for the last item of the month; and of two
    items of one month the later has the larger label, larger by one when
    they are neighbours.  An item whose date is invalid is labelled 0. *)
Theorem weekInMonth_numbers_each_month
    (items : list JsDate.t) (i : nat) (a : Z) :
  items !! i = Some (Some a) ->
  (1 <= weekInMonth items i (Some a))%nat
  /\ Z.of_nat (weekInMonth items i (Some a)) <= groupWidth "week" items 1 (Some a)
  /\ ((forall j b, items !! j = Some b -> (i < j)%nat ->
         sameMonth b (Some a) && sameYear b (Some a) = false) ->
      Z.of_nat (weekInMonth items i (Some a)) = groupWidth "week" items 1 (Some a))
  /\ (forall j b, items !! j = Some b -> (i < j)%nat ->
        sameMonth (Some a) b && sameYear (Some a) b = true ->
        (weekInMonth items i (Some a) < weekInMonth items j b)%nat
        /\ (j = S i -> weekInMonth items j b = S (weekInMonth items i (Some a))))
  /\ (forall j, items !! j = Some None -> weekInMonth items j None = 0%nat).
Proof.
  intros Hi. unfold weekInMonth.
  assert (Hself : forall k x, items !! k = Some (Some x) ->
            length (List.filter (fun week => sameMonth week (Some x) && sameYear week (Some x))
                      (take (S k) items))
            = S (length (List.filter (fun week => sameMonth week (Some x) && sameYear week (Some x))
                      (take k items)))).
  { intros k x Hk. erewrite filter_take_S; [|exact Hk].
    rewrite sameMonthYear_refl. lia. }
  assert (Hw : groupWidth "week" items 1 (Some a)
               = Z.of_nat (length (List.filter
                   (fun item => sameMonth item (Some a) && sameYear item (Some a)) items))).
  { change (groupWidth "week" items 1 (Some a)) with
      (Z.of_nat (length (List.filter
         (fun item => sameMonth item (Some a) && sameYear item (Some a)) items)) * 1).
    lia. }
  split; [rewrite (Hself _ _ Hi); lia|]. split; [|split; [|split]].
  - rewrite Hw. apply inj_le. apply filter_take_all.
  - intros Hlast. rewrite Hw. f_equal.
    rewrite <- (take_drop (S i) items) at 2. rewrite List.filter_app, length_app.
    rewrite (filter_none _ (drop (S i) items)); [cbn; lia|].
    intros k y Hk. rewrite lookup_drop in Hk. apply (Hlast _ _ Hk). lia.
  - intros j b Hj Hij Hsame. destruct b as [b|]; [|discriminate].
    rewrite (Hself _ _ Hj).
    assert (E : forall l,
              List.filter (fun week => sameMonth week (Some b) && sameYear week (Some b)) l
              = List.filter (fun week => sameMonth week (Some a) && sameYear week (Some a)) l).
    { intros l. apply List.filter_ext. intros w. symmetry.
      now apply sameMonthYear_ext. }
    rewrite E. split.
    + pose proof (filter_take_le
        (fun week => sameMonth week (Some a) && sameYear week (Some a)) items (S i) j Hij).
      lia.
    + intros ->. reflexivity.
  - intros j Hj.
    assert (E : forall l, List.filter (fun week => sameMonth week None && sameYear week None) l = []).
    { intros l. induction l as [|w l IH]; [reflexivity|]. cbn.
      destruct w; cbn; exact IH. }
    rewrite !E. reflexivity.
Qed.

Lemma weekInMonth_numbers_each_month_witness :
  map (fun i => weekInMonth sampleWeeks i (default None (sampleWeeks !! i)))
      [0; 1; 2; 3; 4; 5]%nat = [1; 2; 3; 4; 5; 1]%nat
  /\ Z.of_nat (weekInMonth sampleWeeks 4 (Some (19751 * 86400000)))
     = groupWidth "week" sampleWeeks 1 (Some (19751 * 86400000)).
Proof.
  split; [reflexivity|].
  assert (H : sampleWeeks !! 4%nat = Some (Some (19751 * 86400000))) by reflexivity.
  destruct (weekInMonth_numbers_each_month sampleWeeks 4 _ H) as (_ & _ & Hlast & _).
  apply Hlast. intros j b Hj Hij.
  destruct j as [|[|[|[|[|[|j]]]]]]; try lia; cbn in Hj; [|discriminate].
  injection Hj as <-. reflexivity.
Defined.

End WeekLabels.

Section SCurveMore.
Import JsDate.

Lemma getY_factor h v : (getY h v == h - h * v * (1 # 100))%Q.
Proof. unfold getY. field. Qed.

Lemma getY_bounds h v :
  (0 <= h)%Q -> (0 <= v)%Q -> (v <= 100)%Q -> (0 <= getY h v)%Q /\ (getY h v <= h)%Q.
Proof. intros Hh H0 H1. rewrite getY_factor. split; nra. Qed.

(** X14.  The vertical scale of the S-curve puts 0 percent on the bottom
    edge and 100 percent on the top edge, keeps every percentage between
    0 and 100 inside the chart, and never draws a larger percentage below
    a smaller one. *)
Theorem getY_scale (h v v' : Q) :
  (0 <= h)%Q ->
  (getY h 0 == h)%Q
  /\ (getY h 100 == 0)%Q
  /\ ((0 <= v)%Q -> (v <= 100)%Q -> (0 <= getY h v)%Q /\ (getY h v <= h)%Q)
  /\ ((v <= v')%Q -> (getY h v' <= getY h v)%Q).
Proof.
  intros Hh. split; [unfold getY; field|]. split; [unfold getY; field|]. split.
  - intros H0 H1. now apply getY_bounds.
  - intros Hv. rewrite !getY_factor. nra.
Qed.

Lemma getY_scale_witness :
  (getY 200 0 == 200)%Q /\ (getY 200 100 == 0)%Q
  /\ (getY 200 60 <= getY 200 30)%Q.
Proof.
  assert (H : (0 <= 200)%Q) by (vm_compute; discriminate).
  destruct (getY_scale 200 30 60 H) as (H0 & H1 & _ & Hm).
  split; [exact H0|]. split; [exact H1|]. apply Hm. vm_compute; discriminate.
Defined.

(** The value of [getX] for valid dates: the whole days, over the
    divisor of the view mode, times the cell width. *)
Lemma getX_inner vm cw s d :
  inner s -> inner d ->
  exists x, getX vm cw (Some s) (Some d) = Some x
    /\ (x == inject_Z (wholeDays d s)
              / (if String.eqb vm "day" then 1
                 else if String.eqb vm "week" then 7 else 3044 # 100) * cw)%Q.
Proof.
  intros Hs Hd. unfold getX. rewrite (differenceInDays_quot d s Hd Hs).
  destruct (String.eqb vm "day"); [|destruct (String.eqb vm "week")];
    eexists; (split; [reflexivity|]); try reflexivity.
  field.
Qed.

Lemma divisor_pos vm :
  (0 < (if String.eqb vm "day" then 1
        else if String.eqb vm "week" then 7 else 3044 # 100))%Q.
Proof. destruct (String.eqb vm "day"); [|destruct (String.eqb vm "week")]; reflexivity. Qed.

Lemma wholeDays_mono a b s : a <= b -> wholeDays a s <= wholeDays b s.
Proof.
  intros H. unfold wholeDays. apply Z.quot_le_mono; [reflexivity | lia].
Qed.

Lemma scaled_mono (k1 k2 : Z) (f cw : Q) :
  (0 < f)%Q -> (0 <= cw)%Q -> k1 <= k2 ->
  (inject_Z k1 / f * cw <= inject_Z k2 / f * cw)%Q.
Proof.
  intros Hf Hcw Hk. apply Qmult_le_compat_r; [|exact Hcw].
  unfold Qdiv. apply Qmult_le_compat_r; [now rewrite <- Zle_Qle|].
  apply Qinv_le_0_compat. now apply Qlt_le_weak.
Qed.

(** X15.  At every zoom level the horizontal position of the timeline's
    start is 0 and a later date is never drawn to the left of an earlier
    one (for a cell width that is not negative): the curves do not run
    backwards. *)
Theorem getX_monotone (vm : string) (cw : Q) (s d1 d2 : Z) :
  inner s -> inner d1 -> inner d2 -> (0 <= cw)%Q -> d1 <= d2 ->
  exists x0 x1 x2,
    getX vm cw (Some s) (Some s) = Some x0
    /\ getX vm cw (Some s) (Some d1) = Some x1
    /\ getX vm cw (Some s) (Some d2) = Some x2
    /\ (x0 == 0)%Q /\ (x1 <= x2)%Q
    /\ (s <= d1 -> (0 <= x1)%Q).
Proof.
  intros Hs H1 H2 Hcw Hd.
  destruct (getX_inner vm cw s s Hs Hs) as (x0 & E0 & V0).
  destruct (getX_inner vm cw s d1 Hs H1) as (x1 & E1 & V1).
  destruct (getX_inner vm cw s d2 Hs H2) as (x2 & E2 & V2).
  exists x0, x1, x2. repeat (split; [assumption|]).
  pose proof (divisor_pos vm) as Hf.
  assert (Z0 : wholeDays s s = 0).
  { unfold wholeDays. rewrite Z.sub_diag. reflexivity. }
  split; [|split].
  - rewrite V0, Z0. unfold Qdiv. ring.
  - rewrite V1, V2. apply scaled_mono; auto using wholeDays_mono.
  - intros Hsd. rewrite V1.
    apply Qle_trans with
      (inject_Z (wholeDays s s) / (if String.eqb vm "day" then 1
                 else if String.eqb vm "week" then 7 else 3044 # 100) * cw)%Q.
    + rewrite Z0. unfold Qdiv. apply Qle_lteq. right. ring.
    + apply scaled_mono; auto using wholeDays_mono.
Qed.

Lemma wholeDays_shift s k : wholeDays (s + k * msPerDay) s = k.
Proof.
  unfold wholeDays. replace (s + k * msPerDay - s) with (k * msPerDay) by lia.
  apply Z.quot_mul. unfold msPerDay. lia.
Qed.

Lemma inner_range tv : inner tv -> - maxTime <= tv <= maxTime.
Proof. unfold inner, msPerDay, maxTime. lia. Qed.

(** X16.  In day view a date that is i days after the start of the
    timeline is drawn on the grid line of the item at index i, and in week
    view a date that is i weeks after it: the points of the curve sit on
    the grid of the header cells. *)
Theorem getX_on_grid (cw : Q) (s : Z) (i : nat) :
  inner s -> inner (s + Z.of_nat i * 7 * msPerDay) ->
  (exists x, getX "day" cw (Some s) (addDays (Some s) (Z.of_nat i)) = Some x
             /\ (x == gridX (Z.of_nat i) cw)%Q)
  /\ (exists x, getX "week" cw (Some s) (addWeeks (Some s) (Z.of_nat i)) = Some x
                /\ (x == gridX (Z.of_nat i) cw)%Q).
Proof.
  intros Hs Hw.
  assert (Hd : inner (s + Z.of_nat i * msPerDay)).
  { unfold inner, msPerDay in *. lia. }
  split.
  - rewrite (addDays_spec s _ (inner_range s Hs)).
    rewrite (TimeClip_Some _ (inner_range _ Hd)).
    destruct (getX_inner "day" cw s _ Hs Hd) as (x & E & V).
    exists x. split; [exact E|]. rewrite V, wholeDays_shift. unfold gridX. cbn. field.
  - unfold addWeeks. rewrite (addDays_spec s _ (inner_range s Hs)).
    rewrite (TimeClip_Some _ (inner_range _ Hw)).
    destruct (getX_inner "week" cw s _ Hs Hw) as (x & E & V).
    exists x. split; [exact E|]. rewrite V, wholeDays_shift. unfold gridX. cbn.
    rewrite inject_Z_mult. field.
Qed.

Lemma getX_on_grid_witness :
  exists x, getX "week" 40 (Some (19723 * 86400000))
              (addWeeks (Some (19723 * 86400000)) 3) = Some x
            /\ (x == 120)%Q.
Proof.
  assert (Hs : inner (19723 * 86400000)) by (unfold inner, maxTime, msPerDay; lia).
  assert (Hw : inner (19723 * 86400000 + Z.of_nat 3 * 7 * msPerDay))
    by (unfold inner, maxTime, msPerDay; lia).
  destruct (proj2 (getX_on_grid 40 _ 3 Hs Hw)) as (x & E & V).
  exists x. split; [exact E|]. rewrite V. reflexivity.
Defined.

(** X17.  In month view the divisor 30.44 is an approximation: a date
    lies exactly on the grid line of index i only when i is a multiple of
    25 and the date is that many times 761 days from the start.  In
    particular no date after the start lies on one of the grid lines 1 to
    24. *)
Theorem getX_month_off_grid (vm : string) (cw x : Q) (s d i : Z) :
  vm <> "day" -> vm <> "week" ->
  inner s -> inner d -> ~ (cw == 0)%Q ->
  getX vm cw (Some s) (Some d) = Some x ->
  (x == gridX i cw)%Q ->
  exists k, i = 25 * k /\ wholeDays d s = 761 * k.
Proof.
  intros Hday Hweek Hs Hd Hcw E Hx.
  destruct (getX_inner vm cw s d Hs Hd) as (x' & E' & V).
  rewrite E in E'. injection E' as <-.
  apply String.eqb_neq in Hday, Hweek. rewrite Hday, Hweek in V.
  rewrite V in Hx. unfold gridX in Hx.
  apply Qmult_inj_r in Hx; [|exact Hcw].
  assert (H : (inject_Z (wholeDays d s) * 100 == inject_Z i * 3044)%Q).
  { rewrite <- Hx. field. }
  change 100%Q with (inject_Z 100) in H. change 3044%Q with (inject_Z 3044) in H.
  rewrite <- !inject_Z_mult in H. unfold Qeq in H. cbn [Qnum Qden inject_Z] in H.
  assert (Hdiv : (25 | i)).
  { apply (Z.gauss 25 761); [|reflexivity]. exists (wholeDays d s). lia. }
  destruct Hdiv as [k ->]. exists k. lia.
Qed.

Lemma getX_month_off_grid_witness :
  exists k, 25 = 25 * k
    /\ wholeDays (19723 * 86400000 + 761 * 86400000) (19723 * 86400000) = 761 * k.
Proof.
  assert (Hs : inner (19723 * 86400000)) by (unfold inner, maxTime, msPerDay; lia).
  assert (Hd : inner (19723 * 86400000 + 761 * 86400000))
    by (unfold inner, maxTime, msPerDay; lia).
  apply (getX_month_off_grid "month" 40 (inject_Z 761 / (3044 # 100) * 40) _ _ 25
           ltac:(discriminate) ltac:(discriminate) Hs Hd ltac:(discriminate)).
  - vm_compute. reflexivity.
  - vm_compute. reflexivity.
Defined.

Lemma Qle_bool_false x y : (y < x)%Q -> Qle_bool x y = false.
Proof.
  intros H. destruct (Qle_bool x y) eqn:E; [|reflexivity].
  apply Qle_bool_iff in E. exfalso. exact (Qlt_not_le _ _ H E).
Qed.

(** X18.  The reference line is placed by whole days counted toward
    zero.  A reference date less than one day away from the start of the
    timeline, before it as well as after it, is drawn on the left edge; a
    reference date a day or more before the start is not drawn, nor is an
    invalid one. *)
Theorem reference_line_left_edge (vm : string) (cw width : Q) (s r : Z) :
  inner s -> inner r -> (0 < cw)%Q -> (0 <= width)%Q ->
  (s - msPerDay < r < s + msPerDay ->
     (exists x, getX vm cw (Some s) (Some r) = Some x /\ (x == 0)%Q)
     /\ referenceLineDrawn (getX vm cw (Some s) (Some r)) width = true)
  /\ (r <= s - msPerDay ->
        referenceLineDrawn (getX vm cw (Some s) (Some r)) width = false)
  /\ referenceLineDrawn (getX vm cw (Some s) None) width = false.
Proof.
  intros Hs Hr Hcw Hwd.
  destruct (getX_inner vm cw s r Hs Hr) as (x & E & V).
  pose proof (divisor_pos vm) as Hf.
  split; [|split].
  - intros Hnear.
    assert (Z0 : wholeDays r s = 0).
    { unfold wholeDays, msPerDay in *. Z.quot_rem_to_equations. lia. }
    assert (X0 : (x == 0)%Q).
    { rewrite V, Z0. unfold Qdiv. ring. }
    split; [exists x; auto|]. rewrite E. cbn.
    apply andb_true_intro. split; apply Qle_bool_iff; rewrite X0;
      [apply Qle_refl | exact Hwd].
  - intros Hbefore. rewrite E. cbn.
    assert (Zn : wholeDays r s <= -1).
    { unfold wholeDays, msPerDay in *. Z.quot_rem_to_equations. lia. }
    rewrite Qle_bool_false; [reflexivity|]. rewrite V.
    apply Qle_lt_trans with
      (inject_Z (-1) / (if String.eqb vm "day" then 1
                 else if String.eqb vm "week" then 7 else 3044 # 100) * cw)%Q.
    + apply scaled_mono; auto. now apply Qlt_le_weak.
    + set (f := if String.eqb vm "day" then 1%Q
                 else if String.eqb vm "week" then 7%Q else (3044 # 100)%Q) in *.
      assert (Hq : (0 < cw / f)%Q).
      { apply Qlt_shift_div_l; [exact Hf|]. now rewrite Qmult_0_l. }
      assert (Heq : (inject_Z (-1) / f * cw == - (cw / f))%Q).
      { change (inject_Z (-1)) with (-1 # 1). field.
        intros C. rewrite C in Hf. exact (Qlt_irrefl _ Hf). }
      rewrite Heq. lra.
  - unfold getX. cbn. reflexivity.
Qed.

Lemma reference_line_left_edge_witness :
  referenceLineDrawn
    (getX "day" 40 (Some (19723 * 86400000)) (Some (19723 * 86400000 - 82800000))) 800
  = true.
Proof.
  assert (Hs : inner (19723 * 86400000)) by (unfold inner, maxTime, msPerDay; lia).
  assert (Hr : inner (19723 * 86400000 - 82800000)) by (unfold inner, maxTime, msPerDay; lia).
  apply (reference_line_left_edge "day" 40 800 _ _ Hs Hr
           ltac:(reflexivity) ltac:(discriminate)).
  unfold msPerDay. lia.
Defined.

Lemma last_filter_In {A} (p : A -> bool) (l : list A) (x : A) :
  last (List.filter p l) = Some x -> In x l /\ p x = true.
Proof.
  intros H. apply last_Some_elem_of, list_elem_of_In in H.
  now apply List.filter_In in H.
Qed.

Lemma sameTime_eq a b : sameTime a b = true -> a = b.
Proof.
  destruct a, b; cbn; try discriminate. intros H. apply Z.eqb_eq in H. now subst.
Qed.

(** X19.  The plan value of the legend and of the plan label is taken
    from a point of the series whenever the series is not empty, and is
    missing only for the empty series.  When there is an actual point and
    its date is valid, the plan point is the first point of the series
    with that date, so the two labels stand at the same date; when no
    point is actual and the last point has a valid date, the plan point
    has the date of the last point. *)
Theorem planAtAnchorPoint_anchor
    (points : list SCurveDataPoint) (maxActualDate : JsDate.t) :
  (planAtAnchorPoint points maxActualDate = None <-> points = [])
  /\ (forall p, planAtAnchorPoint points maxActualDate = Some p -> In p points)
  /\ (forall q tv, lastActualPoint points maxActualDate = Some q ->
        pt_date q = Some tv ->
        dateLe (Some tv) maxActualDate = true
        /\ exists i p, planAtAnchorPoint points maxActualDate = Some p
             /\ points !! i = Some p /\ pt_date p = Some tv
             /\ forall j p', (j < i)%nat -> points !! j = Some p' ->
                   pt_date p' <> Some tv)
  /\ (forall q tv, lastActualPoint points maxActualDate = None ->
        last points = Some q -> pt_date q = Some tv ->
        exists p, planAtAnchorPoint points maxActualDate = Some p
          /\ pt_date p = Some tv).
Proof.
  assert (Hfind : forall anchor tv q, anchor = Some tv -> In q points ->
            pt_date q = Some tv ->
            exists i p, List.find (fun p => sameTime (pt_date p) anchor) points = Some p
              /\ points !! i = Some p /\ pt_date p = Some tv
              /\ forall j p', (j < i)%nat -> points !! j = Some p' ->
                    pt_date p' <> Some tv).
  { intros anchor tv q -> Hq Hdate. clear maxActualDate.
    induction points as [|x l IH]; [destruct Hq|]. cbn.
    destruct (sameTime (pt_date x) (Some tv)) eqn:Ex.
    - exists 0%nat, x. split; [reflexivity|]. split; [reflexivity|].
      split; [now apply sameTime_eq|]. intros j p' Hj. lia.
    - destruct Hq as [->|Hq].
      + rewrite Hdate in Ex. cbn in Ex. rewrite Z.eqb_refl in Ex. discriminate.
      + destruct (IH Hq) as (i & p & Hf & Hi & Hd & Hfirst).
        exists (S i), p. split; [exact Hf|]. split; [exact Hi|]. split; [exact Hd|].
        intros [|j] p' Hj Hp'.
        * injection Hp' as <-. intros C. rewrite C in Ex. cbn in Ex.
          rewrite Z.eqb_refl in Ex. discriminate.
        * apply (Hfirst j p'); [lia | exact Hp']. }
  split; [|split; [|split]].
  - split.
    + intros H. unfold planAtAnchorPoint, planAnchorDate in H.
      destruct (lastActualPoint points maxActualDate) as [q|] eqn:Eq.
      * destruct (List.find _ points); [discriminate|].
        destruct (last (List.filter _ points)); [discriminate|].
        now apply last_None in H.
      * destruct (last points) as [q|] eqn:El; [|now apply last_None in El].
        cbn in H. destruct (List.find _ points); [discriminate|].
        destruct (last (List.filter _ points)); [discriminate|].
        discriminate.
    + intros ->. reflexivity.
  - intros p H. unfold planAtAnchorPoint in H.
    destruct (planAnchorDate points maxActualDate) as [anchor|]; [|discriminate].
    destruct (List.find _ points) as [p1|] eqn:Ef.
    + injection H as <-. now apply List.find_some in Ef.
    + destruct (last (List.filter _ points)) as [p2|] eqn:El.
      * injection H as <-. now apply last_filter_In in El.
      * now apply last_Some_elem_of, list_elem_of_In in H.
  - intros q tv Hq Hdate. pose proof Hq as Hq'. unfold lastActualPoint, actualPoints in Hq'.
    apply last_filter_In in Hq' as [Hin Hle]. rewrite Hdate in Hle.
    split; [exact Hle|].
    destruct (Hfind (Some tv) tv q eq_refl Hin Hdate) as (i & p & Hf & Hrest).
    exists i, p. split; [|exact Hrest].
    unfold planAtAnchorPoint, planAnchorDate. rewrite Hq, Hdate, Hf. reflexivity.
  - intros q tv Hnone Hlast Hdate.
    assert (Hin : In q points) by now apply last_Some_elem_of, list_elem_of_In in Hlast.
    destruct (Hfind (Some tv) tv q eq_refl Hin Hdate) as (i & p & Hf & _ & Hd & _).
    exists p. split; [|exact Hd].
    unfold planAtAnchorPoint, planAnchorDate. rewrite Hnone, Hlast. cbn.
    rewrite Hdate, Hf. reflexivity.
Qed.

(** X20.  The plan label is moved below its point when the point is
    within 24 of the top edge, so for every percentage from 0 to 100 the
    top of its box is at least 4 below the top edge and its text sits 11
    below the top of the box.  The actual label is always below its point:
    when the percentage times the height is below 2100, its box, 16 high,
    reaches past the bottom edge of the chart. *)
Theorem label_boxes (h v : Q) :
  (0 <= h)%Q -> (0 <= v)%Q -> (v <= 100)%Q ->
  (4 <= planLabelY (getY h v))%Q
  /\ (planTextY (getY h v) == planLabelY (getY h v) + 11)%Q
  /\ ((getY h v < 24)%Q -> (getY h v < planLabelY (getY h v))%Q)
  /\ ((24 <= getY h v)%Q ->
        (planLabelY (getY h v) + labelHeight < getY h v)%Q)
  /\ ((v * h < 2100)%Q -> (h < actualLabelY (getY h v) + labelHeight)%Q).
Proof.
  intros Hh H0 H1.
  destruct (getY_bounds h v Hh H0 H1) as [Hy0 Hyh].
  unfold planLabelY, planTextY, actualLabelY, labelHeight.
  destruct (Qlt_le_dec (getY h v) 24) as [Hlt|Hge].
  - split; [lra|]. split; [ring|]. split; [intros _; lra|].
    split; [intros C; lra|]. intros Hvh. rewrite getY_factor. nra.
  - split; [lra|]. split; [ring|]. split; [intros C; lra|].
    split; [intros _; lra|]. intros Hvh. rewrite getY_factor. nra.
Qed.

Lemma label_boxes_witness :
  (4 <= planLabelY (getY 200 95))%Q
  /\ (200 < actualLabelY (getY 200 5) + labelHeight)%Q.
Proof.
  split.
  - apply (label_boxes 200 95); vm_compute; discriminate.
  - reflexivity.
Defined.

End SCurveMore.

Section ExportCells.

Lemma append_cons c s t : String c s +:+ t = String c (s +:+ t).
Proof. reflexivity. Qed.

Lemma append_nil t : "" +:+ t = t.
Proof. reflexivity. Qed.

Lemma append_assoc_str a b c : (a +:+ b) +:+ c = a +:+ (b +:+ c).
Proof.
  induction a as [|x a IH]; [reflexivity|]. rewrite !append_cons. now rewrite IH.
Qed.

(** Reading back a doubled text that is closed by a quote, when what
    follows does not start with a quote. *)
Lemma scanQuotedBody_doubleQuotes s rest :
  (forall r, rest <> String dquote r) ->
  scanQuotedBody (doubleQuotes s +:+ String dquote rest) = Some (s, rest).
Proof.
  intros Hrest. induction s as [|c s IH].
  - rewrite append_nil. cbn [doubleQuotes scanQuotedBody]. rewrite Ascii.eqb_refl.
    destruct rest as [|c' r']; [reflexivity|].
    destruct (Ascii.eqb_spec c' dquote) as [->|Hc]; [|reflexivity].
    now destruct (Hrest r').
  - cbn [doubleQuotes]. destruct (Ascii.eqb_spec c dquote) as [->|Hc].
    + rewrite !append_cons. cbn [scanQuotedBody]. rewrite !Ascii.eqb_refl, IH.
      reflexivity.
    + rewrite append_cons. cbn [scanQuotedBody].
      destruct (Ascii.eqb_spec c dquote) as [E|_]; [contradiction|].
      rewrite IH. reflexivity.
Qed.

Lemma scanQuoted_csvQuoted x rest :
  (forall r, rest <> String dquote r) ->
  scanQuoted (csvQuoted x +:+ rest) = Some (Js.or_default x "", rest).
Proof.
  intros Hrest. unfold csvQuoted. rewrite append_cons. cbn [scanQuoted].
  rewrite Ascii.eqb_refl.
  rewrite <- (scanQuotedBody_doubleQuotes _ _ Hrest). f_equal.
  rewrite append_assoc_str. rewrite append_cons, append_nil. reflexivity.
Qed.

(** X21.  The quoting of the export cells loses nothing: a quoted cell
    starts and ends with a double quote, and when two quoted cells, each
    followed by text that does not start with a double quote (a comma, a
    line break or nothing), give the same characters, the cells have the
    same text and are followed by the same text.  A missing value is
    written as the empty text. *)
Theorem csvQuoted_unambiguous (x y : option string) (rest rest' : string) :
  (forall r, rest <> String dquote r) ->
  (forall r, rest' <> String dquote r) ->
  csvQuoted x +:+ rest = csvQuoted y +:+ rest' ->
  Js.or_default x "" = Js.or_default y "" /\ rest = rest'.
Proof.
  intros Hr Hr' E.
  pose proof (scanQuoted_csvQuoted x rest Hr) as Hx.
  rewrite E, (scanQuoted_csvQuoted y rest' Hr') in Hx.
  injection Hx as -> ->. split; reflexivity.
Qed.

Lemma csvQuoted_unambiguous_witness :
  Js.or_default (Some (String "a" (String dquote ","))) "" 
  = Js.or_default (Some (String "a" (String dquote ","))) "" /\ ",x" = ",x".
Proof.
  apply csvQuoted_unambiguous; [discriminate | discriminate | reflexivity].
Defined.

End ExportCells.

Section Auth.

Lemma find_first {A} (p : A -> bool) (l : list A) (x : A) :
  List.find p l = Some x ->
  exists i, l !! i = Some x /\ p x = true
    /\ forall j y, (j < i)%nat -> l !! j = Some y -> p y = false.
Proof.
  induction l as [|a l IH]; [discriminate|]. cbn.
  destruct (p a) eqn:Ea.
  - intros [= <-]. exists 0%nat. split; [reflexivity|]. split; [exact Ea|].
    intros j y Hj. lia.
  - intros H. destruct (IH H) as (i & Hi & Hp & Hfirst).
    exists (S i). split; [exact Hi|]. split; [exact Hp|].
    intros [|j] y Hj Hy; [now injection Hy as <-|].
    apply (Hfirst j y); [lia | exact Hy].
Qed.

Lemma find_none_iff {A} (p : A -> bool) (l : list A) :
  List.find p l = None <-> forall x, In x l -> p x = false.
Proof.
  split; [apply List.find_none|].
  intros H. destruct (List.find p l) as [x|] eqn:E; [|reflexivity].
  apply List.find_some in E as [Hin Hp]. rewrite (H x Hin) in Hp. discriminate.
Qed.

(** X22.  Signing in succeeds exactly when some member's email equals
    the typed one after trimming and lowering both.  The user is then the
    first such member of the list and is written to the storage; in every
    other case, an error of the member service included, the state and the
    storage are left as they were, and the failure reports the cleaned
    email and the number of members. *)
Theorem login_first_matching_member
    (js : Json) (members : string + list Member) (email : string) (st : AuthState) :
  let r := login js members email st in
  (loginSuccess (fst r) = true <->
     exists ms m, members = inr ms /\ In m ms /\ emailMatches email m = true)
  /\ (loginSuccess (fst r) = true ->
        exists ms i m, members = inr ms /\ ms !! i = Some m
          /\ emailMatches email m = true
          /\ (forall j m', (j < i)%nat -> ms !! j = Some m' ->
                emailMatches email m' = false)
          /\ snd r = {| user := Some m; loading := loading st;
                        storedUser := Some (stringify js m) |})
  /\ (loginSuccess (fst r) = false ->
        snd r = st
        /\ forall ms, members = inr ms ->
             fst r = LoginNotFound (cleanEmail email) (length ms)).
Proof.
  cbv zeta. unfold login. destruct members as [msg|ms].
  - cbn. split; [|split].
    + split; [discriminate|]. intros (ms & m & C & _). discriminate.
    + discriminate.
    + intros _. split; [reflexivity|]. intros ms C. discriminate.
  - change (findMember ms (cleanEmail email)) with (List.find (emailMatches email) ms).
    destruct (List.find (emailMatches email) ms) as [m|] eqn:Ef; cbn.
    + destruct (find_first _ _ _ Ef) as (i & Hi & Hp & Hfirst).
      split; [|split].
      * split; [|reflexivity]. intros _. exists ms, m.
        split; [reflexivity|]. split; [|exact Hp].
        now apply List.find_some in Ef.
      * intros _. exists ms, i, m. repeat (split; [assumption || reflexivity|]).
        reflexivity.
      * discriminate.
    + split; [|split].
      * split; [discriminate|]. intros (ms' & m & [= <-] & Hin & Hp).
        rewrite (proj1 (find_none_iff _ _) Ef m Hin) in Hp. discriminate.
      * discriminate.
      * intros _. split; [reflexivity|]. intros ms' [= <-]. reflexivity.
Qed.

(** X23.  A typed email that is blank (empty, or white space only)
    signs in whenever some member record has no email, as the first
    member whose email is missing or blank. *)
Theorem login_blank_email
    (js : Json) (ms : list Member) (email : string) (st : AuthState) (m : Member) :
  Js.trim email = "" -> In m ms -> m_email m = None ->
  fst (login js (inr ms) email st) = LoginSucceeded
  /\ exists m', user (snd (login js (inr ms) email st)) = Some m'
       /\ In m' ms /\ cleanEmail (Js.or_default (m_email m') "") = "".
Proof.
  intros Hblank Hin Hnone.
  assert (Hc : cleanEmail email = "").
  { unfold cleanEmail. rewrite Hblank. reflexivity. }
  unfold login.
  change (findMember ms (cleanEmail email)) with (List.find (emailMatches email) ms).
  destruct (List.find (emailMatches email) ms) as [m'|] eqn:Ef.
  - split; [reflexivity|]. exists m'. split; [reflexivity|].
    apply List.find_some in Ef as [Hin' Hp]. split; [exact Hin'|].
    unfold emailMatches in Hp. apply String.eqb_eq in Hp. now rewrite Hp.
  - exfalso. pose proof (proj1 (find_none_iff _ _) Ef m Hin) as Hp.
    unfold emailMatches in Hp. rewrite Hnone, Hc in Hp. cbn in Hp. discriminate.
Qed.

Lemma login_blank_email_witness :
  fst (login sampleJson (inr [sampleMember; sampleMemberNoEmail]) "   "
         (initialAuth None)) = LoginSucceeded.
Proof.
  apply (login_blank_email sampleJson [sampleMember; sampleMemberNoEmail] "   "
           (initialAuth None) sampleMemberNoEmail);
    [reflexivity | right; now left | reflexivity].
Defined.

(** X24.  A session survives a reload: when the stored text of the
    signed-in member is not empty and is read back as that member, a
    provider created over the storage left by a successful sign-in restores
    the same user.  After signing out a new provider restores no user.  A
    stored text that cannot be read is removed from the storage and no user
    is restored.  In every case loading ends. *)
Theorem session_restore
    (js : Json) (members : string + list Member) (email : string)
    (st : AuthState) (m : Member) (s : string) :
  (forall u, user (snd (login js members email st)) = Some u ->
     stringify js u <> "" /\ parse js (stringify js u) = Some (Some u)) ->
  (loginSuccess (fst (login js members email st)) = true ->
     restoreSession js (initialAuth (storedUser (snd (login js members email st))))
     = {| user := user (snd (login js members email st)); loading := false;
          storedUser := storedUser (snd (login js members email st)) |}
     /\ isAuthenticated
          (restoreSession js (initialAuth (storedUser (snd (login js members email st)))))
        = true)
  /\ restoreSession js (initialAuth (storedUser (logout st)))
     = {| user := None; loading := false; storedUser := None |}
  /\ (s <> "" -> parse js s = None ->
      restoreSession js (initialAuth (Some s))
      = {| user := None; loading := false; storedUser := None |})
  /\ (forall stored, loading (restoreSession js (initialAuth stored)) = false).
Proof.
  intros Hjs. split; [|split; [|split]].
  - unfold login in *. destruct members as [msg|ms]; [discriminate|].
    destruct (findMember ms (cleanEmail email)) as [u|]; [|discriminate].
    intros _. cbn [snd fst user storedUser loading] in *.
    destruct (Hjs u eq_refl) as [Hne Hrt].
    unfold restoreSession, initialAuth. cbn [storedUser user loading].
    rewrite (truthy_Some _ Hne). cbn [from_option id Datatypes.id]. unfold Datatypes.id. rewrite Hrt. split; reflexivity.
  - reflexivity.
  - intros Hne Hp. unfold restoreSession, initialAuth. cbn [storedUser user loading].
    rewrite (truthy_Some _ Hne). cbn [from_option id Datatypes.id]. unfold Datatypes.id. rewrite Hp. reflexivity.
  - intros stored. unfold restoreSession.
    destruct (Js.truthy _); [destruct (parse js _)|]; reflexivity.
Qed.

Lemma session_restore_witness :
  user (restoreSession sampleJson
          (initialAuth (storedUser (snd (login sampleJson
             (inr [sampleMember; sampleMemberNoEmail]) " somchai@example.COM "
             (initialAuth None))))))
  = Some sampleMember.
Proof.
  assert (H : forall u,
            user (snd (login sampleJson (inr [sampleMember; sampleMemberNoEmail])
                         " somchai@example.COM " (initialAuth None))) = Some u ->
            stringify sampleJson u <> "" /\ parse sampleJson (stringify sampleJson u) = Some (Some u)).
  { intros u Hu. vm_compute in Hu. injection Hu as <-. split; [discriminate | reflexivity]. }
  destruct (session_restore sampleJson _ _ _ sampleMember "x" H) as (Hlogin & _).
  destruct (Hlogin eq_refl) as [E _]. rewrite E. reflexivity.
Defined.

(** X25.  refreshUser acts for the user of the render that created it.
    Without such a user, when the member service fails, or when no member
    has the user's id any more, state and storage are left as they were.
    Otherwise the record is replaced by the first member of the list that
    has the user's id, and that record is stored.  So when nothing happens
    in between, refreshing never changes who is signed in; but the write
    comes after the members are fetched, and a sign-out in between is
    undone: the user is signed in again. *)
Theorem refreshUser_replaces_record
    (js : Json) (members : string + list Member) (closureUser : option Member)
    (st : AuthState) :
  (closureUser = None -> refreshUser js members closureUser st = st)
  /\ (forall msg, members = inl msg -> refreshUser js members closureUser st = st)
  /\ (forall u ms, closureUser = Some u -> members = inr ms ->
        (forall m, In m ms -> m_id m <> m_id u) ->
        refreshUser js members closureUser st = st)
  /\ (forall u ms m, closureUser = Some u -> members = inr ms ->
        In m ms -> m_id m = m_id u ->
        exists i u', ms !! i = Some u' /\ m_id u' = m_id u
          /\ (forall j m', (j < i)%nat -> ms !! j = Some m' -> m_id m' <> m_id u)
          /\ refreshUser js members closureUser st
             = {| user := Some u'; loading := loading st;
                  storedUser := Some (stringify js u') |}
          /\ isAuthenticated (refreshUser js members closureUser (logout st)) = true
          /\ user (refreshUser js members closureUser (logout st)) = Some u')
  /\ (closureUser = user st ->
        isAuthenticated (refreshUser js members closureUser st) = isAuthenticated st
        /\ forall u, user st = Some u ->
             exists u', user (refreshUser js members closureUser st) = Some u'
                        /\ m_id u' = m_id u).
Proof.
  unfold refreshUser.
  split; [intros ->; reflexivity|].
  split; [intros msg ->; now destruct closureUser|].
  split; [|split].
  - intros u ms -> -> Hno.
    destruct (List.find _ ms) as [u'|] eqn:Ef; [|reflexivity].
    apply List.find_some in Ef as [Hin Hid]. apply String.eqb_eq in Hid.
    now destruct (Hno u' Hin).
  - intros u ms m -> -> Hin Hid.
    destruct (List.find (fun m => String.eqb (m_id m) (m_id u)) ms) as [u'|] eqn:Ef.
    + destruct (find_first _ _ _ Ef) as (i & Hi & Hp & Hfirst).
      apply String.eqb_eq in Hp. exists i, u'.
      split; [exact Hi|]. split; [exact Hp|]. split; [|repeat split].
      intros j m' Hj Hm'. apply String.eqb_neq. exact (Hfirst j m' Hj Hm').
    + pose proof (proj1 (find_none_iff _ _) Ef m Hin) as Hp.
      apply String.eqb_neq in Hp. contradiction.
  - intros ->. unfold isAuthenticated.
    destruct (user st) as [u|] eqn:Eu; [|rewrite Eu; split; [reflexivity | discriminate]].
    destruct members as [msg|ms].
    { rewrite Eu. split; [reflexivity|]. intros u0 [= <-]. exists u. auto. }
    destruct (List.find (fun m => String.eqb (m_id m) (m_id u)) ms) as [u'|] eqn:Ef.
    + apply List.find_some in Ef as [_ Hid]. apply String.eqb_eq in Hid.
      split; [reflexivity|]. intros u0 [= <-]. exists u'. auto.
    + rewrite Eu. split; [reflexivity|]. intros u0 [= <-]. exists u. auto.
Qed.

(** X26.  Signing in, signing out and refreshing keep the storage in
    step with the state: when the stored text was that of the signed-in
    user before, it is so afterwards, for a refresh created in any render
    and also when it follows a sign-in or a sign-out. *)
Theorem auth_storage_in_step
    (js : Json) (members : string + list Member) (email : string) (st : AuthState) :
  authSynced js st ->
  authSynced js (snd (login js members email st))
  /\ authSynced js (logout st)
  /\ (forall closureUser, authSynced js (refreshUser js members closureUser st))
  /\ authSynced js (logout (snd (login js members email st)))
  /\ (forall members' closureUser, authSynced js
        (refreshUser js members' closureUser (snd (login js members email st))))
  /\ (forall members' closureUser, authSynced js
        (refreshUser js members' closureUser (logout st))).
Proof.
  intros Hs.
  assert (Hlogin : authSynced js (snd (login js members email st))).
  { unfold login. destruct members as [msg|ms]; [exact Hs|].
    destruct (findMember ms (cleanEmail email)); [reflexivity | exact Hs]. }
  assert (Hrefresh : forall mem cu st0,
            authSynced js st0 -> authSynced js (refreshUser js mem cu st0)).
  { intros mem cu st0 H0. unfold refreshUser.
    destruct cu as [u|]; [|exact H0].
    destruct mem as [msg|ms]; [exact H0|].
    destruct (List.find _ ms); [reflexivity | exact H0]. }
  split; [exact Hlogin|]. split; [reflexivity|].
  split; [intros cu; now apply Hrefresh|].
  split; [reflexivity|].
  split; intros mem cu; now apply Hrefresh.
Qed.

Lemma auth_storage_in_step_witness :
  authSynced sampleJson
    (snd (login sampleJson (inr [sampleMember]) "SOMCHAI@example.com" (initialAuth None))).
Proof.
  apply (auth_storage_in_step sampleJson (inr [sampleMember]) "SOMCHAI@example.com"
           (initialAuth None)).
  reflexivity.
Defined.

End Auth.

Section SCurveWitnesses.

Lemma getX_monotone_witness :
  exists x1 x2,
    getX "week" 40 (Some (19723 * 86400000)) (Some (19730 * 86400000)) = Some x1
    /\ getX "week" 40 (Some (19723 * 86400000)) (Some (19740 * 86400000 + 3600000)) = Some x2
    /\ (x1 <= x2)%Q.
Proof.
  assert (Hs : inner (19723 * 86400000)) by (unfold inner, JsDate.maxTime, JsDate.msPerDay; lia).
  assert (H1 : inner (19730 * 86400000)) by (unfold inner, JsDate.maxTime, JsDate.msPerDay; lia).
  assert (H2 : inner (19740 * 86400000 + 3600000))
    by (unfold inner, JsDate.maxTime, JsDate.msPerDay; lia).
  destruct (getX_monotone "week" 40 _ _ _ Hs H1 H2 ltac:(discriminate) ltac:(lia))
    as (x0 & x1 & x2 & _ & E1 & E2 & _ & Hle & _).
  exists x1, x2. auto.
Defined.

End SCurveWitnesses.

Section AuthLatin1.

(** Lowering reaches the Latin-1 capitals: a member stored with a small
    e acute (code 233) is found by an email typed with the capital (code
    201), and the multiplication sign (code 215) is kept. *)
Lemma login_latin1_capitals js st :
  cleanEmail (String "201" "COLE@X.COM") = String "233" "cole@x.com"
  /\ Js.toLowerCase (String "215" "") = String "215" ""
  /\ fst (login js (inr [ {| m_id := "m3"; m_email := Some (String "233" "cole@x.com");
                            m_name := "Ecole" |} ])
            (String "201" "COLE@X.COM") st) = LoginSucceeded.
Proof. repeat split; reflexivity. Qed.

End AuthLatin1.
